(** * LANL 2019 Clinic: the spectrogram notebook widget and the template
      image export script

    A shallow embedding of [spectrogram_widget.py] and of
    [ImageProcessing/TemplateMatching/Templates/saveTemplateImages.py].

    - Python floats are IEEE 754 binary64 values: Rocq's primitive floats.
    - A Python exception is a value of [exn]; a computation that may raise
      returns an [outcome].
    - Methods of [SpectrogramWidget] are state transformers over the record
      [Widget]; a raise keeps the mutations made before it, as in Python.
    - The numerical collaborators ([Spectrogram], [Spectrum], [PeakFollower],
      [GaussianFitter], [Gaussian], numpy, the baselines module) are not part
      of the widget: their behaviour is the record [Env], and every theorem
      holds for every [Env].
    - Of matplotlib and ipywidgets the model keeps what the widget reads
      back: the lines of the two axes, the image, the keys of
      [self.controls] and the values of the controls.  The validation of a
      range slider by its base class is in [Env] too.  Calls that only draw
      (titles, labels, x limits, the grid, [canvas.draw], the figure of
      [gauss_out]) are left out.
    - The export script runs in an interpreter, the record [Interpreter]:
      what its imports find. *)

From Stdlib Require Import ZArith QArith Uint63 Floats Lia.
From stdpp Require Import gmap strings list.

Local Open Scope string_scope.
Local Open Scope list_scope.
Local Open Scope Z_scope.

(** ** Python preliminaries *)

Module Py.

(** The exception classes the two files can meet.  [KeyboardInterrupt],
    [SystemExit] and [GeneratorExit] derive from [BaseException] only; the
    others derive from [Exception]. *)
Inductive exn : Type :=
  | TypeError
  | ValueError
  | IndexError
  | KeyError (key : string)
  | NameError (name : string)
  | AttributeError (name : string)
  | ZeroDivisionError
  | FileNotFoundError
  | OverflowError
  | ImportError
  | RuntimeError (msg : string)
  | KeyboardInterrupt
  | SystemExit
  | GeneratorExit.

(** [isinstance(e, Exception)]: what [except Exception] catches.  A bare
    [except:] catches every [exn]. *)
Definition is_Exception (e : exn) : bool :=
  match e with
  | KeyboardInterrupt | SystemExit | GeneratorExit => false
  | _ => true
  end.

(** The result of evaluating an expression or running a statement. *)
Inductive outcome (A : Type) : Type :=
  | Ret (a : A)
  | Raise (e : exn).
Arguments Ret {A} a.
Arguments Raise {A} e.

Definition obind {A B} (o : outcome A) (k : A -> outcome B) : outcome B :=
  match o with
  | Ret a => k a
  | Raise e => Raise e
  end.

(** [[f(x) for x in l]] where [f] may raise: the first raise aborts. *)
Fixpoint comprehension {A B} (f : A -> outcome B) (l : list A)
  : outcome (list B) :=
  match l with
  | [] => Ret []
  | x :: r =>
      obind (f x) (fun y => obind (comprehension f r) (fun ys => Ret (y :: ys)))
  end.

(** What a method returns: [None] (also when control falls off the end of the
    body) or an [int]. *)
Inductive retval : Type :=
  | VNone
  | VInt (z : Z).

(** Statements: a state transformer that may raise.  The state after a raise
    is the state at the raise. *)
Definition M (S A : Type) : Type := S -> outcome A * S.

Definition ret {S A} (a : A) : M S A := fun s => (Ret a, s).
Definition raise {S A} (e : exn) : M S A := fun s => (Raise e, s).
Definition bind {S A B} (m : M S A) (k : A -> M S B) : M S B :=
  fun s =>
    match m s with
    | (Ret a, s') => k a s'
    | (Raise e, s') => (Raise e, s')
    end.
Definition gets {S A} (f : S -> A) : M S A := fun s => (Ret (f s), s).
Definition modify {S} (f : S -> S) : M S unit := fun s => (Ret tt, f s).
Definition lift {S A} (o : outcome A) : M S A := fun s => (o, s).

(** [try: body  except <filter>: handler]: the handler runs in the state the
    body left, for the exceptions the filter accepts; the others propagate. *)
Definition try_except {S A} (body : M S A) (catches : exn -> bool)
    (handler : M S A) : M S A :=
  fun s =>
    match body s with
    | (Ret a, s') => (Ret a, s')
    | (Raise e, s') => if catches e then handler s' else (Raise e, s')
    end.

(** A bare [except:] and [except Exception:]. *)
Definition any_exception (e : exn) : bool := true.
Definition except_Exception (e : exn) : bool := is_Exception e.

(** [for x in l: body(x)] *)
Fixpoint for_each {S A} (l : list A) (body : A -> M S unit) : M S unit :=
  match l with
  | [] => ret tt
  | x :: r => bind (body x) (fun _ => for_each r body)
  end.

End Py.
Import Py.

#[export] Instance M_ret {S} : MRet (M S) := fun A => @ret S A.
#[export] Instance M_bind {S} : MBind (M S) := fun A B k m => @bind S A B m k.

(** ** Numbers

    The sliders are written for any Python number.  The operations they use
    are collected in a class with two instances: binary64 floats, which is
    what the interpreter computes, and the rationals, which is the arithmetic
    a formula on paper means. *)

Class PyNumber (A : Type) : Type := {
  num_add : A -> A -> A;
  num_sub : A -> A -> A;
  num_mul : A -> A -> A;
  num_quot : A -> A -> A;
  num_is_zero : A -> bool;
  (** conversion of a Python [int] in a mixed operation *)
  num_of_int : Z -> A;
  (** the literal [0.01] *)
  num_centi : A;
}.

(** [int] to [float], exact for [|z| < 2^53] and correctly rounded below
    [2^63]; the sliders' integers are percentages between 0 and 100. *)
Definition float_of_Z (z : Z) : float :=
  match z with
  | Z0 => PrimFloat.zero
  | Zpos _ => PrimFloat.of_uint63 (Uint63.of_Z z)
  | Zneg p => PrimFloat.opp (PrimFloat.of_uint63 (Uint63.of_Z (Zpos p)))
  end.

#[export] Instance float_number : PyNumber float := {|
  num_add := PrimFloat.add;
  num_sub := PrimFloat.sub;
  num_mul := PrimFloat.mul;
  num_quot := PrimFloat.div;
  num_is_zero := fun x => PrimFloat.eqb x 0%float;
  num_of_int := float_of_Z;
  num_centi := 0x1.47ae147ae147bp-7%float;
|}.

#[export] Instance Q_number : PyNumber Q := {|
  num_add := Qplus;
  num_sub := Qminus;
  num_mul := Qmult;
  num_quot := Qdiv;
  num_is_zero := fun x => Qeq_bool x 0%Q;
  num_of_int := inject_Z;
  num_centi := (1 # 100)%Q;
|}.

(** [x / y]: true division raises [ZeroDivisionError] on a zero divisor. *)
Definition truediv {A} `{PyNumber A} (x y : A) : outcome A :=
  if num_is_zero y then Raise ZeroDivisionError else Ret (num_quot x y).

(** ** The sliders *)

Module ValueSlider.
Section Slider.
Context {A : Type} `{PyNumber A}.

(** The members [ValueSlider] adds to, or reads from, its base class
    [FloatRangeSlider]. *)
Record t : Type := mk {
  multiplier : A;
  value : list A;
  _ymin : A;
  _ymax : A;
  slider_min : A;
  slider_max : A;
}.

(** [ValueSlider.__init__(description, initial_value, yrange, multiplier)],
    with [yrange = (y0, y1)]; [initial_value] holds percentages.  The
    constructor of the base class [FloatRangeSlider] belongs to ipywidgets
    and is not part of these sources: [base min max value] validates the
    proposed value against the bounds and gives the value that the slider
    stores, or raises.  The three members of [ValueSlider] are assigned
    once it has returned. *)
Definition __init__ (base : A -> A -> list A -> outcome (list A))
    (initial_value : list Z) (y0 y1 : A) (multiplier : A) : outcome t :=
  obind
    (base (num_mul y0 multiplier) (num_mul y1 multiplier)
       (List.map
          (fun x =>
             num_mul multiplier
               (num_add y0
                  (num_mul (num_mul num_centi (num_of_int x)) (num_sub y1 y0))))
          initial_value))
    (fun accepted =>
       Ret {| multiplier := multiplier;
              value := accepted;
              _ymin := num_mul y0 multiplier;
              _ymax := num_mul y1 multiplier;
              slider_min := num_mul y0 multiplier;
              slider_max := num_mul y1 multiplier |}).

(** The [range] property: [[v / self.multiplier for v in self.value]]. *)
Definition range (s : t) : outcome (list A) :=
  comprehension (fun v => truediv v (multiplier s)) (value s).

(** The [range] setter: [self._ymin, self._ymax = val]. *)
Definition set_range (s : t) (lo hi : A) : t :=
  {| multiplier := multiplier s; value := value s;
     _ymin := lo; _ymax := hi;
     slider_min := slider_min s; slider_max := slider_max s |}.
End Slider.
Arguments t A : clear implicits.
End ValueSlider.

Module PercentSlider.
Section Slider.
Context {A : Type} `{PyNumber A}.

(** [value] is the pair of integer percentages of the [IntRangeSlider]. *)
Record t : Type := mk {
  value : list Z;
  _ymin : A;
  _ymax : A;
}.

(** [PercentSlider.__init__(description, initial_value, yrange)]: the
    constructor of the base class [IntRangeSlider], called with the bounds 0
    and 100, validates the value as [base min max value]. *)
Definition __init__ (base : Z -> Z -> list Z -> outcome (list Z))
    (initial_value : list Z) (y0 y1 : A) : outcome t :=
  obind (base 0 100 initial_value) (fun accepted =>
  Ret {| value := accepted; _ymin := y0; _ymax := y1 |}).

Definition ymin (s : t) : A := _ymin s.
Definition ymax (s : t) : A := _ymax s.

(** The [range] property:
    [dy = 0.01 * (self.ymax - self.ymin)] and
    [[v * dy + self.ymin for v in self.value]]. *)
Definition range (s : t) : list A :=
  let dy := num_mul num_centi (num_sub (ymax s) (ymin s)) in
  List.map (fun v => num_add (num_mul (num_of_int v) dy) (ymin s)) (value s).

(** The formula of the specification, read as the Python expression
    [ymin + 0.01*a*(ymax - ymin)]. *)
Definition spec_point (lo hi : A) (a : Z) : A :=
  num_add lo (num_mul (num_mul num_centi (num_of_int a)) (num_sub hi lo)).
End Slider.
Arguments t A : clear implicits.
End PercentSlider.

(** ** The template image export script *)

Module TemplateScript.

(** An image: rows of pixel values. *)
Definition Image : Type := list (list Z).

(** A member [x] of the enumeration [Templates] (module
    [ImageProcessing.TemplateMatching.Templates.templates], not part of these
    sources): what the script uses of it is [str(x)], interpolated in the
    file name, and the image [x.value[0]]. *)
Record Template : Type := mkTemplate {
  template_str : string;
  template_image : Image;
}.

(** A path is absolute or relative to the working directory; its components
    are the names between the separators.  [Rel []] is the empty string. *)
Inductive path : Type :=
  | Abs (comps : list string)
  | Rel (comps : list string).

(** The file system and the process state the script acts on.  Directories
    and files are named by the components of their absolute, normalised
    path.  [imsave_log] records the calls of [imsave], oldest first. *)
Record FS : Type := mkFS {
  cwd : list string;
  dirs : gset (list string);
  files : gmap (list string) Image;
  imsave_log : list (list string);
}.

(** Following one component from a directory. *)
Definition step_into (d : list string) (c : string) : list string :=
  if String.eqb c ".." then removelast d
  else if String.eqb c "." then d
  else if String.eqb c "" then d
  else d ++ [c].

Definition resolve (fs : FS) (p : path) : list string :=
  match p with
  | Abs comps => foldl step_into [] comps
  | Rel comps => foldl step_into (cwd fs) comps
  end.

(** A path written without [.], [..] or empty components. *)
Definition normalised (d : list string) : bool :=
  forallb (fun c => negb (String.eqb c "..") && negb (String.eqb c ".")
                    && negb (String.eqb c "")) d.

Fixpoint common_prefix_len (a b : list string) : nat :=
  match a, b with
  | x :: a', y :: b' => if String.eqb x y then S (common_prefix_len a' b') else O
  | _, _ => O
  end.

(** [os.path.relpath(path)] for an absolute [path], from the working
    directory [start]: as [posixpath.relpath] computes it. *)
Definition os_path_relpath (target start : list string) : list string :=
  let i := common_prefix_len start target in
  let rel_list := repeat ".." (length start - i) ++ drop i target in
  match rel_list with
  | [] => ["."]
  | _ => rel_list
  end.

(** [os.path.split]: the part before the last separator and the last
    component. *)
Definition os_path_split (p : list string) : list string * string :=
  (removelast p, List.last p "").

Definition os_getcwd : M FS path := gets (fun fs => Abs (cwd fs)).

(** [os.chdir]: the empty string names no directory. *)
Definition os_chdir (p : path) : M FS unit :=
  fun fs =>
    match p with
    | Rel [] => (Raise FileNotFoundError, fs)
    | _ =>
        let d := resolve fs p in
        if decide (d ∈ dirs fs)
        then (Ret tt, mkFS d (dirs fs) (files fs) (imsave_log fs))
        else (Raise FileNotFoundError, fs)
    end.

(** Whether a directory or a file has the absolute path [a]. *)
Definition present (fs : FS) (a : list string) : bool :=
  bool_decide (a ∈ dirs fs) || bool_decide (is_Some (files fs !! a)).

Definition os_path_exists (p : path) : M FS bool :=
  gets (fun fs => present fs (resolve fs p)).

(** [imsave(path, image)] creates or replaces the file and is taken to
    succeed: the directory it writes to is the working directory. *)
Definition write_file (a : list string) (img : Image) (fs : FS) : FS :=
  mkFS (cwd fs) (dirs fs) (<[a := img]> (files fs)) (imsave_log fs ++ [a]).
Definition imsave (p : path) (img : Image) : M FS unit :=
  modify (fun fs => write_file (resolve fs p) img fs).

(** The interpreter that imports the script, by the imports of lines 2 to
    11: whether [tqdm] and the module of [Templates] are found, with the
    members of [Templates] in iteration order; the string
    [scipy.__version__]; and whether [imageio], or [scipy.misc], provides
    [imsave].  [import os] finds the standard library. *)
Record Interpreter : Type := mkInterpreter {
  import_tqdm : outcome unit;
  import_Templates : outcome (list Template);
  scipy_version : outcome string;
  from_imageio_import_imsave : outcome unit;
  from_scipy_misc_import_imsave : outcome unit;
}.

(** [a > b] on [str]: the strings are compared character by character, not
    as version numbers. *)
Definition str_gt (a b : string) : bool :=
  match String.compare a b with
  | Gt => true
  | _ => false
  end.

(** Lines 2 to 11: the imports, in their order.  They bind [Templates] and
    [imsave]. *)
Definition imports (I : Interpreter) : outcome (list Template) :=
  obind (import_tqdm I) (fun _ =>
  obind (import_Templates I) (fun Templates =>
  obind (scipy_version I) (fun version =>
  obind (if str_gt version "1.2.1"
         then from_imageio_import_imsave I
         else from_scipy_misc_import_imsave I) (fun _ =>
  Ret Templates)))).

Section Script.
(** The members of [Templates], in iteration order, and the directory that
    holds the script. *)
Variable Templates : list Template.
Variable script_dir : list string.

Definition script_name : string := "saveTemplateImages.py".

(** [__file__] *)
Definition __file__ : list string := script_dir ++ [script_name].

(** [f"./im_template_{x}.png"] *)
Definition image_name (x : Template) : string :=
  "im_template_" ++ template_str x ++ ".png".
Definition image_path (x : Template) : path := Rel ["."; image_name x].

Definition save_template (x : Template) : M FS unit :=
  e ← os_path_exists (image_path x);
  if negb e then imsave (image_path x) (template_image x) else mret tt.

Definition saveAllTemplateImages : M FS unit :=
  for_each Templates save_template.

(** [os.path.split(os.path.relpath(__file__))[0]] *)
Definition getImageDirectory : M FS path :=
  gets (fun fs => Rel (fst (os_path_split (os_path_relpath __file__ (cwd fs))))).

(** Lines 26 to 30: the statements at module level that follow the
    definitions. *)
Definition module_body : M FS unit :=
  imageSaveDir ← getImageDirectory;
  currDir ← os_getcwd;
  os_chdir imageSaveDir;;
  saveAllTemplateImages;;
  os_chdir currDir.

End Script.

(** The import of the script: the whole module runs, the imports first. *)
Definition import_module (I : Interpreter) (script_dir : list string)
  : M FS unit :=
  Templates ← lift (imports I);
  module_body Templates script_dir.
End TemplateScript.

(** ** Python and numpy sequences *)

Module Seq.

(** [len(l)] *)
Definition len {A} (l : list A) : Z := Z.of_nat (length l).

(** [l[i]]: a negative index counts from the end; out of range raises
    [IndexError]. *)
Definition index {A} (l : list A) (i : Z) : outcome A :=
  let j := if i <? 0 then i + len l else i in
  if j <? 0 then Raise IndexError
  else match l !! Z.to_nat j with
       | Some x => Ret x
       | None => Raise IndexError
       end.

(** [l[i] = x] *)
Definition setitem {A} (l : list A) (i : Z) (x : A) : outcome (list A) :=
  let j := if i <? 0 then i + len l else i in
  if (j <? 0) || (len l <=? j) then Raise IndexError
  else Ret (<[Z.to_nat j := x]> l).

(** A slice bound: negative bounds count from the end, and bounds are
    clipped to the sequence. *)
Definition clip {A} (l : list A) (i : Z) : nat :=
  let j := if i <? 0 then i + len l else i in
  Z.to_nat (Z.min (Z.max j 0) (len l)).

(** [l[a:b]] never raises. *)
Definition slice {A} (l : list A) (a b : Z) : list A :=
  take (clip l b - clip l a)%nat (drop (clip l a) l).

(** [l.remove(x)] removes the first occurrence; [ValueError] when there is
    none. *)
Fixpoint remove (l : list nat) (x : nat) : outcome (list nat) :=
  match l with
  | [] => Raise ValueError
  | y :: r => if Nat.eqb x y then Ret r
              else obind (remove r x) (fun r' => Ret (y :: r'))
  end.

(** [a, b = l] *)
Definition unpack2 {A} (l : list A) : outcome (A * A) :=
  match l with
  | [a; b] => Ret (a, b)
  | _ => Raise ValueError
  end.

(** [x in l] for floats: equality is [==]. *)
Definition contains (x : float) (l : list float) : bool :=
  existsb (PrimFloat.eqb x) l.

(** [m[a:b, t]] on a two-dimensional array given by its rows: column [t] of
    the rows [a:b].  The column is checked against the width of the array;
    an array without rows has no columns. *)
Definition ncols {A} (m : list (list A)) : Z :=
  match m with [] => 0 | r :: _ => len r end.
Definition column_slice {A} (m : list (list A)) (a b t : Z) : outcome (list A) :=
  if (t <? - ncols m) || (ncols m <=? t) then Raise IndexError
  else comprehension (fun row => index row t) (slice m a b).

(** [max(l)], the builtin: the first largest item; [ValueError] on an empty
    sequence. *)
Definition py_max (l : list float) : outcome float :=
  match l with
  | [] => Raise ValueError
  | x :: r => Ret (foldl (fun cur item => if PrimFloat.ltb cur item then item else cur) x r)
  end.

(** [a.max()] and [a.min()] of numpy: [ValueError] on an empty array, and a
    NaN in the array is the result. *)
Definition np_maximum (a b : float) : float :=
  if PrimFloat.is_nan a then a else if PrimFloat.is_nan b then b
  else if PrimFloat.ltb a b then b else a.
Definition np_minimum (a b : float) : float :=
  if PrimFloat.is_nan a then a else if PrimFloat.is_nan b then b
  else if PrimFloat.ltb b a then b else a.
Definition np_max (l : list float) : outcome float :=
  match l with
  | [] => Raise ValueError
  | x :: r => Ret (foldl np_maximum x r)
  end.
Definition np_min (l : list float) : outcome float :=
  match l with
  | [] => Raise ValueError
  | x :: r => Ret (foldl np_minimum x r)
  end.

(** [int(x)] of a float: truncation towards zero. *)
Definition int_of_float (x : float) : outcome Z :=
  match Prim2SF x with
  | S754_zero _ => Ret 0
  | S754_finite s m e => Ret (cond_Zopp s (Z.shiftl (Zpos m) e))
  | S754_infinity _ => Raise OverflowError
  | S754_nan => Raise ValueError
  end.

(** [s in t] for strings: [s] occurs in [t] as a substring. *)
Fixpoint substring_of (s t : string) : bool :=
  if String.prefix s t then true
  else match t with
       | EmptyString => false
       | String _ t' => substring_of s t'
       end.

(** [int(s)] for a string of decimal digits; [ValueError] otherwise. *)
Definition digit_of (c : Ascii.ascii) : option Z :=
  let n := Z.of_N (Ascii.N_of_ascii c) in
  if (48 <=? n) && (n <=? 57) then Some (n - 48) else None.
Fixpoint int_of_digits (acc : Z) (s : string) : outcome Z :=
  match s with
  | EmptyString => Ret acc
  | String c r =>
      match digit_of c with
      | Some d => int_of_digits (10 * acc + d) r
      | None => Raise ValueError
      end
  end.
Definition int_of_string (s : string) : outcome Z :=
  match s with
  | EmptyString => Raise ValueError
  | _ => int_of_digits 0 s
  end.

End Seq.

(** ** The collaborators of the widget

    Objects of the modules [digfile], [spectrogram], [spectrum],
    [peak_follower], [gaussian], [gaussian_follow] and of matplotlib, by the
    members the widget uses. *)

Module DigFile.
Record t : Type := mk {
  filename : string;
  dt : float;
  t0 : float;
  t_final : float;
}.
End DigFile.

Module Spectrogram.
(** [intensity] is a two-dimensional array, one row per velocity and one
    column per time. *)
Record t : Type := mk {
  intensity : list (list float);
  velocity : list float;
  time : list float;
  v_max : float;
  overlap : float;
  points_per_spectrum : Z;
  histogram_levels : list float;
}.
End Spectrogram.

Module Spectrum.
Record t : Type := mk {
  db : list float;
  power : list float;
  velocities : list float;
}.

(** [getattr(the_spectrum, name)] *)
Definition getattr (s : t) (name : string) : outcome (list float) :=
  if String.eqb name "db" then Ret (db s)
  else if String.eqb name "power" then Ret (power s)
  else if String.eqb name "velocities" then Ret (velocities s)
  else Raise (AttributeError name).
End Spectrum.

Module PeakFollower.
(** [velocity_index_spans] and [time_index] are the columns of [pf.frame];
    [line] is the attribute the widget adds once the track is drawn. *)
Record t : Type := mk {
  velocity_index_spans : list (Z * Z);
  time_index : list Z;
  v_of_t : list float * list float;
  line : option nat;
}.
Definition set_line (l : option nat) (pf : t) : t :=
  mk (velocity_index_spans pf) (time_index pf) (v_of_t pf) l.
End PeakFollower.

Module GaussianFitter.
Record t : Type := mk { start : float * option float }.
End GaussianFitter.

Module Gaussian.
Record t : Type := mk {
  valid : bool;
  center : float;
  width : float;
  amplitude : float;
}.
End Gaussian.

(** A matplotlib [Line2D]. *)
Module Line2D.
Record t : Type := mk {
  xdata : list float;
  ydata : list float;
  fmt : string;
}.
End Line2D.

(** A matplotlib mouse or key event.  [xdata] and [ydata] are [None] when the
    pointer is outside the axes; [key] is [None] for a key without a name. *)
Module Event.
Record t : Type := mk {
  xdata : option float;
  ydata : option float;
  key : option string;
}.
End Event.

(** Keyword arguments: those the widget looks up, and any other. *)
Inductive kwarg : Type :=
  | kw_points_per_spectrum (n : Z)
  | kw_overlap (x : float)
  | kw_t_range (lo hi : Z)
  | kw_other (name : string).

Fixpoint get_points_per_spectrum (kwargs : list kwarg) (default : Z) : Z :=
  match kwargs with
  | [] => default
  | kw_points_per_spectrum n :: _ => n
  | _ :: r => get_points_per_spectrum r default
  end.

Fixpoint get_t_range (kwargs : list kwarg) (default : Z * Z) : Z * Z :=
  match kwargs with
  | [] => default
  | kw_t_range lo hi :: _ => (lo, hi)
  | _ :: r => get_t_range r default
  end.

(** The behaviour of the collaborators.  A call that can raise returns an
    [outcome]; a method that updates its object returns the object too. *)
Record Env : Type := mkEnv {
  (** [DigFile(name)] *)
  DigFile_open : string -> outcome DigFile.t;
  (** [digfile.values(t0, t1)] and [digfile.thumbnail(t0, t1)], the latter
      as the pair [(thumb['times'], thumb['peak_to_peak'])] *)
  DigFile_values : DigFile.t -> float -> float -> outcome (list float);
  DigFile_thumbnail : DigFile.t -> list float -> outcome (list float * list float);
  (** [Spectrogram(digfile, None, None, **kwargs)] *)
  Spectrogram_new : DigFile.t -> list kwarg -> outcome Spectrogram.t;
  (** [spectrogram.set], called with keyword arguments, recomputes the object in place *)
  Spectrogram_set : list kwarg -> Spectrogram.t -> outcome unit * Spectrogram.t;
  (** [spectrogram.slice(trange, vrange)]: times, velocities, intensities *)
  Spectrogram_slice :
    Spectrogram.t -> list float -> list float ->
    outcome (list float * list float * list (list float));
  Spectrogram_transform : Spectrogram.t -> float -> outcome float;
  Spectrogram_power : Spectrogram.t -> list float -> outcome (list float);
  (** [Spectrum(values, dt, remove_dc=True)] *)
  Spectrum_new : list float -> float -> outcome Spectrum.t;
  GaussianFitter_new : Spectrogram.t -> float * option float -> outcome GaussianFitter.t;
  PeakFollower_new : Spectrogram.t -> float * option float -> outcome PeakFollower.t;
  (** [follower.run()] updates the follower *)
  PeakFollower_run : PeakFollower.t -> outcome unit * PeakFollower.t;
  (** [Gaussian(speeds, powers)] *)
  Gaussian_new : list float -> list float -> outcome Gaussian.t;
  (** [baselines_by_squash(spectrogram)]: peaks, sigs, heights *)
  baselines_by_squash :
    Spectrogram.t -> outcome (list float * list float * list float);
  (** [make_spectrogram_color_map(spectrogram, 4, name)['centroids']] *)
  make_spectrogram_color_map : Spectrogram.t -> Z -> string -> outcome (list float);
  (** the keys of [COLORMAPS], sorted *)
  COLORMAPS_keys : list string;
  np_argsort : list float -> list Z;
  np_log2 : Z -> float;
  (** [widgets.FloatRangeSlider.__init__(min=..., max=..., value=...)]: the
      value that the slider stores *)
  FloatRangeSlider_new : float -> float -> list float -> outcome (list float);
}.

(** ** The widget *)

Module SpectrogramWidget.

(** [dict(time=(t0, t1), velocity=(v0, v1))] *)
Module Roi.
Record t : Type := mk {
  time : float * float;
  velocity : float * float;
}.
End Roi.

(** The dictionary [spec] that [spectrum] appends to [self.spectra]; [line]
    and [marker] name the [Line2D] objects. *)
Module Spec.
Record t : Type := mk {
  spectrum : Spectrum.t;
  max : float;
  ninety : float;
  line : nat;
  marker : nat;
}.
End Spec.

(** [dict(v=v, line=bline)]; [bline] is the list that [plot] returns. *)
Module Baseline.
Record t : Type := mk {
  v : float;
  line : list nat;
}.
End Baseline.

(** [dict(time=..., center=..., width=..., amplitude=...)] *)
Module GaussOut.
Record t : Type := mk {
  time : list float;
  center : list float;
  width : list float;
  amplitude : list float;
}.
End GaussOut.

(** The image that [pcolormesh] returns. *)
Module Mesh.
Record t : Type := mk {
  array : list (list float);
  clim : option (list float);
  cmap : option string;
}.
End Mesh.

(** [self.controls], by the members the widget reads back, and its keys.
    [make_controls] stores every entry under a literal key, one after the
    other, and no key is deleted; [stored] holds the keys in the order of
    their assignment.  The entries that are never read back
    (['spectrum_size'], ['overlap'], ['threshold'], ['baselines'],
    ['raw_signal'] and the two buttons) hold no data here. *)
Record Controls : Type := mkControls {
  t_range : ValueSlider.t float;
  velocity_range : ValueSlider.t float;
  intensity_range : ValueSlider.t float;
  (** the value of the ['color_map'] dropdown *)
  color_map : string;
  (** the value of the ['clicker'] dropdown *)
  clicker : string;
  (** whether the ['marquee'] rectangle selector is active *)
  marquee : bool;
  (** the keys of the dictionary *)
  stored : list string;
}.

(** The two axes of [self.fig]: the [Line2D] objects in existence, by
    identity, and the list [lines] of each axes. *)
Record Canvas : Type := mkCanvas {
  objects : gmap nat Line2D.t;
  fresh : nat;
  axSpectrogram : list nat;
  axSpectrum : list nat;
  ylim : float * float;
}.

(** The members of a [SpectrogramWidget].  [gauss_outs] and [raw] are [None]
    while the attribute does not exist; [axTrack] holds the curves drawn on
    the axes that [fan_out] creates ([self.subfig], [self.axSpare] and
    [self.axTrack] are assigned together).  The last two members are not in
    the source: they record, oldest first, the names of the members of the
    spectrogram, and of the spectra, that the widget has read. *)
Record Widget : Type := mkWidget {
  digfile : DigFile.t;
  baselines : list Baseline.t;
  spectrogram : Spectrogram.t;
  canvas : Canvas;
  image : option Mesh.t;
  colorbar : bool;
  raw : option nat;
  axTrack : option (list Line2D.t);
  peak_followers : list PeakFollower.t;
  spectra : list Spec.t;
  spectra_in_db : bool;
  controls : Controls;
  selecting : bool;
  roi : list Roi.t;
  threshold : option float;
  gauss : option GaussianFitter.t;
  gauss_outs : option (list (option GaussOut.t));
  spectrogram_reads : list string;
  spectrum_reads : list string;
}.

(** Assignment to one member. *)
Definition set_baselines (x : list Baseline.t) (r : Widget) : Widget :=
  mkWidget (digfile r) x (spectrogram r) (canvas r) (image r) (colorbar r) (raw r) (axTrack r) (peak_followers r) (spectra r) (spectra_in_db r) (controls r) (selecting r) (roi r) (threshold r) (gauss r) (gauss_outs r) (spectrogram_reads r) (spectrum_reads r).
Definition set_spectrogram (x : Spectrogram.t) (r : Widget) : Widget :=
  mkWidget (digfile r) (baselines r) x (canvas r) (image r) (colorbar r) (raw r) (axTrack r) (peak_followers r) (spectra r) (spectra_in_db r) (controls r) (selecting r) (roi r) (threshold r) (gauss r) (gauss_outs r) (spectrogram_reads r) (spectrum_reads r).
Definition set_canvas (x : Canvas) (r : Widget) : Widget :=
  mkWidget (digfile r) (baselines r) (spectrogram r) x (image r) (colorbar r) (raw r) (axTrack r) (peak_followers r) (spectra r) (spectra_in_db r) (controls r) (selecting r) (roi r) (threshold r) (gauss r) (gauss_outs r) (spectrogram_reads r) (spectrum_reads r).
Definition set_image (x : option Mesh.t) (r : Widget) : Widget :=
  mkWidget (digfile r) (baselines r) (spectrogram r) (canvas r) x (colorbar r) (raw r) (axTrack r) (peak_followers r) (spectra r) (spectra_in_db r) (controls r) (selecting r) (roi r) (threshold r) (gauss r) (gauss_outs r) (spectrogram_reads r) (spectrum_reads r).
Definition set_colorbar (x : bool) (r : Widget) : Widget :=
  mkWidget (digfile r) (baselines r) (spectrogram r) (canvas r) (image r) x (raw r) (axTrack r) (peak_followers r) (spectra r) (spectra_in_db r) (controls r) (selecting r) (roi r) (threshold r) (gauss r) (gauss_outs r) (spectrogram_reads r) (spectrum_reads r).
Definition set_raw (x : option nat) (r : Widget) : Widget :=
  mkWidget (digfile r) (baselines r) (spectrogram r) (canvas r) (image r) (colorbar r) x (axTrack r) (peak_followers r) (spectra r) (spectra_in_db r) (controls r) (selecting r) (roi r) (threshold r) (gauss r) (gauss_outs r) (spectrogram_reads r) (spectrum_reads r).
Definition set_axTrack (x : option (list Line2D.t)) (r : Widget) : Widget :=
  mkWidget (digfile r) (baselines r) (spectrogram r) (canvas r) (image r) (colorbar r) (raw r) x (peak_followers r) (spectra r) (spectra_in_db r) (controls r) (selecting r) (roi r) (threshold r) (gauss r) (gauss_outs r) (spectrogram_reads r) (spectrum_reads r).
Definition set_peak_followers (x : list PeakFollower.t) (r : Widget) : Widget :=
  mkWidget (digfile r) (baselines r) (spectrogram r) (canvas r) (image r) (colorbar r) (raw r) (axTrack r) x (spectra r) (spectra_in_db r) (controls r) (selecting r) (roi r) (threshold r) (gauss r) (gauss_outs r) (spectrogram_reads r) (spectrum_reads r).
Definition set_spectra (x : list Spec.t) (r : Widget) : Widget :=
  mkWidget (digfile r) (baselines r) (spectrogram r) (canvas r) (image r) (colorbar r) (raw r) (axTrack r) (peak_followers r) x (spectra_in_db r) (controls r) (selecting r) (roi r) (threshold r) (gauss r) (gauss_outs r) (spectrogram_reads r) (spectrum_reads r).
Definition set_spectra_in_db (x : bool) (r : Widget) : Widget :=
  mkWidget (digfile r) (baselines r) (spectrogram r) (canvas r) (image r) (colorbar r) (raw r) (axTrack r) (peak_followers r) (spectra r) x (controls r) (selecting r) (roi r) (threshold r) (gauss r) (gauss_outs r) (spectrogram_reads r) (spectrum_reads r).
Definition set_controls (x : Controls) (r : Widget) : Widget :=
  mkWidget (digfile r) (baselines r) (spectrogram r) (canvas r) (image r) (colorbar r) (raw r) (axTrack r) (peak_followers r) (spectra r) (spectra_in_db r) x (selecting r) (roi r) (threshold r) (gauss r) (gauss_outs r) (spectrogram_reads r) (spectrum_reads r).
Definition set_selecting (x : bool) (r : Widget) : Widget :=
  mkWidget (digfile r) (baselines r) (spectrogram r) (canvas r) (image r) (colorbar r) (raw r) (axTrack r) (peak_followers r) (spectra r) (spectra_in_db r) (controls r) x (roi r) (threshold r) (gauss r) (gauss_outs r) (spectrogram_reads r) (spectrum_reads r).
Definition set_roi (x : list Roi.t) (r : Widget) : Widget :=
  mkWidget (digfile r) (baselines r) (spectrogram r) (canvas r) (image r) (colorbar r) (raw r) (axTrack r) (peak_followers r) (spectra r) (spectra_in_db r) (controls r) (selecting r) x (threshold r) (gauss r) (gauss_outs r) (spectrogram_reads r) (spectrum_reads r).
Definition set_threshold (x : option float) (r : Widget) : Widget :=
  mkWidget (digfile r) (baselines r) (spectrogram r) (canvas r) (image r) (colorbar r) (raw r) (axTrack r) (peak_followers r) (spectra r) (spectra_in_db r) (controls r) (selecting r) (roi r) x (gauss r) (gauss_outs r) (spectrogram_reads r) (spectrum_reads r).
Definition set_gauss (x : option GaussianFitter.t) (r : Widget) : Widget :=
  mkWidget (digfile r) (baselines r) (spectrogram r) (canvas r) (image r) (colorbar r) (raw r) (axTrack r) (peak_followers r) (spectra r) (spectra_in_db r) (controls r) (selecting r) (roi r) (threshold r) x (gauss_outs r) (spectrogram_reads r) (spectrum_reads r).
Definition set_gauss_outs (x : option (list (option GaussOut.t))) (r : Widget) : Widget :=
  mkWidget (digfile r) (baselines r) (spectrogram r) (canvas r) (image r) (colorbar r) (raw r) (axTrack r) (peak_followers r) (spectra r) (spectra_in_db r) (controls r) (selecting r) (roi r) (threshold r) (gauss r) x (spectrogram_reads r) (spectrum_reads r).
Definition set_spectrogram_reads (x : list string) (r : Widget) : Widget :=
  mkWidget (digfile r) (baselines r) (spectrogram r) (canvas r) (image r) (colorbar r) (raw r) (axTrack r) (peak_followers r) (spectra r) (spectra_in_db r) (controls r) (selecting r) (roi r) (threshold r) (gauss r) (gauss_outs r) x (spectrum_reads r).
Definition set_spectrum_reads (x : list string) (r : Widget) : Widget :=
  mkWidget (digfile r) (baselines r) (spectrogram r) (canvas r) (image r) (colorbar r) (raw r) (axTrack r) (peak_followers r) (spectra r) (spectra_in_db r) (controls r) (selecting r) (roi r) (threshold r) (gauss r) (gauss_outs r) (spectrogram_reads r) x.
Definition set_t_range (x : ValueSlider.t float) (r : Controls) : Controls :=
  mkControls x (velocity_range r) (intensity_range r) (color_map r) (clicker r) (marquee r) (stored r).
Definition set_velocity_range (x : ValueSlider.t float) (r : Controls) : Controls :=
  mkControls (t_range r) x (intensity_range r) (color_map r) (clicker r) (marquee r) (stored r).
Definition set_intensity_range (x : ValueSlider.t float) (r : Controls) : Controls :=
  mkControls (t_range r) (velocity_range r) x (color_map r) (clicker r) (marquee r) (stored r).
Definition set_color_map (x : string) (r : Controls) : Controls :=
  mkControls (t_range r) (velocity_range r) (intensity_range r) x (clicker r) (marquee r) (stored r).
Definition set_clicker (x : string) (r : Controls) : Controls :=
  mkControls (t_range r) (velocity_range r) (intensity_range r) (color_map r) x (marquee r) (stored r).
Definition set_marquee (x : bool) (r : Controls) : Controls :=
  mkControls (t_range r) (velocity_range r) (intensity_range r) (color_map r) (clicker r) x (stored r).
Definition set_stored (x : list string) (r : Controls) : Controls :=
  mkControls (t_range r) (velocity_range r) (intensity_range r) (color_map r) (clicker r) (marquee r) x.
Definition set_objects (x : gmap nat Line2D.t) (r : Canvas) : Canvas :=
  mkCanvas x (fresh r) (axSpectrogram r) (axSpectrum r) (ylim r).
Definition set_fresh (x : nat) (r : Canvas) : Canvas :=
  mkCanvas (objects r) x (axSpectrogram r) (axSpectrum r) (ylim r).
Definition set_axSpectrogram (x : list nat) (r : Canvas) : Canvas :=
  mkCanvas (objects r) (fresh r) x (axSpectrum r) (ylim r).
Definition set_axSpectrum (x : list nat) (r : Canvas) : Canvas :=
  mkCanvas (objects r) (fresh r) (axSpectrogram r) x (ylim r).
Definition set_ylim (x : float * float) (r : Canvas) : Canvas :=
  mkCanvas (objects r) (fresh r) (axSpectrogram r) (axSpectrum r) x.


(** The float literals of the source. *)
Definition micro : float := 0x1.0c6f7a0b5ed8dp-20.   (* 1e-6 *)
Definition mega : float := 1000000.                  (* 1e6 *)
Definition milli : float := 0x1.0624dd2f1a9fcp-10.   (* 1e-3 *)
Definition tenth : float := 0x1.999999999999ap-4.    (* 0.1 *)
Definition fifth : float := 0x1.999999999999ap-3.    (* 0.2 *)
Definition fortieth : float := 0x1.999999999999ap-6. (* 0.025 *)

(** The names bound at module level in [spectrogram_widget.py]: the imports,
    [DEFMAP] and the three classes. *)
Definition module_globals : list string :=
  ["np"; "plt"; "gridspec"; "widgets"; "mwidgets"; "display"; "DigFile";
   "Spectrogram"; "Spectrum"; "COLORMAPS"; "Gaussian"; "GaussianFitter";
   "PeakFollower"; "DEFMAP"; "ValueSlider"; "PercentSlider";
   "SpectrogramWidget"].

(** Evaluating a global name in a method body. *)
Definition lookup_global {S} (name : string) : M S unit :=
  if bool_decide (name ∈ module_globals) then ret tt else raise (NameError name).

(** [self.controls[key] = widget]: the key is stored, unless it is a key
    already, and [update] records what the widget holds. *)
Definition store_key (key : string) (c : Controls) : Controls :=
  set_stored
    (if bool_decide (key ∈ stored c) then stored c else stored c ++ [key]) c.
Definition dict_assign (key : string) (update : Controls -> Controls)
  : M Widget unit :=
  modify (fun w => set_controls (store_key key (update (controls w))) w).

(** [self.controls[key]], read for [value]: [KeyError] while the key is not
    stored. *)
Definition controls_item {A} (key : string) (value : Controls -> A)
  : M Widget A :=
  c ← gets controls;
  if bool_decide (key ∈ stored c) then mret (value c) else raise (KeyError key).

Inductive Axes : Type := AxSpectrogram | AxSpectrum.

Definition lines_of (ax : Axes) (c : Canvas) : list nat :=
  match ax with AxSpectrogram => axSpectrogram c | AxSpectrum => axSpectrum c end.
Definition set_lines_of (ax : Axes) (l : list nat) (c : Canvas) : Canvas :=
  match ax with
  | AxSpectrogram => set_axSpectrogram l c
  | AxSpectrum => set_axSpectrum l c
  end.

(** [ax.plot(x, y, fmt, ...)[0]]: a new line, appended to [ax.lines]. *)
Definition plot (ax : Axes) (x y : list float) (fmt : string) : M Widget nat :=
  fun w =>
    let c := canvas w in
    let id := fresh c in
    let c1 := set_objects (<[id := Line2D.mk x y fmt]> (objects c)) c in
    let c2 := set_fresh (S id) c1 in
    (Ret id, set_canvas (set_lines_of ax (lines_of ax c ++ [id]) c2) w).

(** [ax.lines.remove(line)] *)
Definition lines_remove (ax : Axes) (id : nat) : M Widget unit :=
  fun w =>
    match Seq.remove (lines_of ax (canvas w)) id with
    | Ret l => (Ret tt, set_canvas (set_lines_of ax l (canvas w)) w)
    | Raise e => (Raise e, w)
    end.

(** [line.set(xdata=x, ydata=y)] *)
Definition line_set (id : nat) (x y : list float) : M Widget unit :=
  modify (fun w =>
    set_canvas
      (set_objects (alter (fun l => Line2D.mk x y (Line2D.fmt l)) id
                      (objects (canvas w))) (canvas w)) w).

(** Reading the member [name] of [self.spectrogram]. *)
Definition sg_member {A} (name : string) (member : Spectrogram.t -> A)
  : M Widget A :=
  fun w =>
    (Ret (member (spectrogram w)),
     set_spectrogram_reads (spectrogram_reads w ++ [name]) w).

(** Calling the method [name] of [self.spectrogram]. *)
Definition sg_method {A} (name : string) (call : Spectrogram.t -> outcome A)
  : M Widget A :=
  bound ← sg_member name call; lift bound.

(** Reading the attribute [name] of a [Spectrum]. *)
Definition spectrum_attr (s : Spectrum.t) (name : string)
  : M Widget (list float) :=
  fun w =>
    (Spectrum.getattr s name,
     set_spectrum_reads (spectrum_reads w ++ [name]) w).

(** Truth value of a float: [if x:]. *)
Definition truthy (x : float) : bool := negb (PrimFloat.eqb x 0).

Section Methods.
Variable E : Env.

(** [range(self, var)]: the range of the named control, or [None] when
    [var] is not in [self.controls].  Only the three sliders have a
    [range]. *)
Definition range (var : string) : M Widget (option (list float)) :=
  c ← gets controls;
  if bool_decide (var ∈ stored c) then
    if String.eqb var "t_range"
    then r ← lift (ValueSlider.range (t_range c)); mret (Some r)
    else if String.eqb var "velocity_range"
    then r ← lift (ValueSlider.range (velocity_range c)); mret (Some r)
    else if String.eqb var "intensity_range"
    then r ← lift (ValueSlider.range (intensity_range c)); mret (Some r)
    else raise (AttributeError "range")
  else mret None.

(** The range of a slider, where the caller goes on to unpack or index the
    result: [None] is not subscriptable. *)
Definition range_of (var : string) : M Widget (list float) :=
  r ← range var;
  match r with
  | Some l => mret l
  | None => raise TypeError
  end.

(** [t1 < t0] on event coordinates: [None] is not ordered. *)
Definition coordinate_lt (a b : option float) : M Widget bool :=
  match a, b with
  | Some x, Some y => mret (PrimFloat.ltb x y)
  | _, _ => raise TypeError
  end.

(** The coordinates once compared: they are floats. *)
Definition coordinate (a : option float) : M Widget float :=
  match a with
  | Some x => mret x
  | None => raise TypeError
  end.

Definition RSelect (eclick erelease : Event.t) : M Widget unit :=
  let t0 := Event.xdata eclick in
  let t1 := Event.xdata erelease in
  let v0 := Event.ydata eclick in
  let v1 := Event.ydata erelease in
  (* make sure they are in the right order *)
  swap_t ← coordinate_lt t1 t0;
  let t := if (swap_t : bool) then (t1, t0) else (t0, t1) in
  swap_v ← coordinate_lt v1 v0;
  let v := if (swap_v : bool) then (v1, v0) else (v0, v1) in
  t0 ← coordinate (fst t); t1 ← coordinate (snd t);
  v0 ← coordinate (fst v); v1 ← coordinate (snd v);
  modify (fun w => set_roi (roi w ++ [Roi.mk (t0, t1) (v0, v1)]) w).

(** Lines 542-544: [update_velocity_range] once [info] is dealt with. *)
Definition set_ylims : M Widget unit :=
  r ← range_of "velocity_range";
  '(vmin, vmax) ← lift (Seq.unpack2 r);
  modify (fun w => set_canvas (set_ylim (vmin, vmax) (canvas w)) w).

Definition update_color_range : M Widget unit :=
  im ← gets image;
  match im with
  | None => raise (AttributeError "set_clim")
  | Some m =>
      r ← range "intensity_range";
      modify (set_image (Some (Mesh.mk (Mesh.array m) r (Mesh.cmap m))))
  end.

Definition update_cmap : M Widget unit :=
  mapname ← gets (fun w => color_map (controls w));
  (if String.eqb mapname "Computed"
   then
     sg ← gets spectrogram;
     centroids ← lift (make_spectrogram_color_map E sg 4 mapname);
     c1 ← lift (Seq.index centroids 1);
     c2 ← lift (Seq.index centroids (-2));
     modify (fun w =>
       set_controls
         (set_intensity_range
            (ValueSlider.mk (ValueSlider.multiplier (intensity_range (controls w)))
               [c1; c2]
               (ValueSlider._ymin (intensity_range (controls w)))
               (ValueSlider._ymax (intensity_range (controls w)))
               (ValueSlider.slider_min (intensity_range (controls w)))
               (ValueSlider.slider_max (intensity_range (controls w))))
            (controls w)) w);;
     (* the slider's observer *)
     update_color_range
   else mret tt);;
  im ← gets image;
  match im with
  | None => raise (AttributeError "set_cmap")
  | Some m =>
      if bool_decide (mapname ∈ COLORMAPS_keys E)
      then modify (set_image (Some (Mesh.mk (Mesh.array m) (Mesh.clim m) (Some mapname))))
      else raise (KeyError mapname)
  end.

Definition display_spectrogram : M Widget unit :=
  trange ← range_of "t_range";
  vrange ← range_of "velocity_range";
  (* extract the requisite portions *)
  '(times, velocities, intensities) ←
    sg_method "slice" (fun sg => Spectrogram_slice E sg trange vrange);
  (* if we have already displayed an image, remove it *)
  modify (set_colorbar false);;
  modify (set_image None);;
  th ← gets threshold;
  let intensities :=
    match th with
    | Some x =>
        if truthy x
        then List.map (List.map (fun i => if PrimFloat.ltb i x then x else i)) intensities
        else intensities
    | None => intensities
    end in
  modify (set_image (Some (Mesh.mk intensities None None)));;
  modify (set_colorbar true);;
  set_ylims;;
  update_color_range;;
  update_cmap.

(** Recompute and display everything. *)
Definition update_spectrogram : M Widget unit :=
  i1 ← sg_member "intensity" Spectrogram.intensity;
  cmin ← lift (Seq.np_min (concat i1));
  i2 ← sg_member "intensity" Spectrogram.intensity;
  cmax ← lift (Seq.np_max (concat i2));
  modify (fun w =>
    set_controls
      (set_intensity_range
         (ValueSlider.set_range (intensity_range (controls w)) cmin cmax)
         (controls w)) w);;
  display_spectrogram.

Definition do_update : M Widget unit := update_spectrogram.

(** [info] is the change record of the slider: its ['old'] and ['new']
    values. *)
Definition update_velocity_range (info : option (list float * list float))
  : M Widget unit :=
  match info with
  | Some (old, new) =>
      '(old_vmin, old_vmax) ← lift (Seq.unpack2 old);
      '(vmin, vmax) ← lift (Seq.unpack2 new);
      if PrimFloat.ltb old_vmax vmax || PrimFloat.ltb vmin old_vmin
      then update_spectrogram
      else set_ylims
  | None => set_ylims
  end.

Definition show_raw_signal (new : bool) : M Widget unit :=
  if new then
    t_range ← range_of "t_range";
    df ← gets digfile;
    '(times, peak_to_peak) ← lift (DigFile_thumbnail E df t_range);
    let tvals := List.map (fun t => PrimFloat.mul t mega) times in
    let yvals := peak_to_peak in
    ylims ← gets (fun w => ylim (canvas w));
    ymax ← lift (Seq.np_max yvals);
    ymin ← lift (Seq.np_min yvals);
    let yrange := PrimFloat.sub ymax ymin in
    let yscale :=
      PrimFloat.div (PrimFloat.mul fifth (PrimFloat.sub (snd ylims) (fst ylims))) yrange in
    let vvals :=
      List.map (fun y => PrimFloat.sub (snd ylims) (PrimFloat.mul yscale (PrimFloat.sub ymax y)))
        yvals in
    id ← plot AxSpectrogram tvals vvals "r-";
    modify (set_raw (Some id))
  else
    try_except
      (r ← gets raw;
       match r with
       | None => raise (AttributeError "raw")
       | Some id => lines_remove AxSpectrogram id;; modify (set_raw None)
       end)
      any_exception
      (mret tt).

(** A parameter of the base spectrogram has changed. *)
Definition overhaul (kwargs : list kwarg) : M Widget unit :=
  '(o, sg) ← sg_member "set" (Spectrogram_set E kwargs);
  modify (set_spectrogram sg);;
  lift o;;
  update_spectrogram.

Definition update_threshold (x : float) : M Widget unit :=
  n ← lift (Seq.int_of_float x);
  (if n =? 0 then modify (set_threshold None)
   else
     levels ← sg_member "histogram_levels" Spectrogram.histogram_levels;
     threshold ← lift (Seq.index levels n);
     t ← sg_method "transform" (fun sg => Spectrogram_transform E sg threshold);
     modify (set_threshold (Some t)));;
  display_spectrogram.

(** Remove all spectra from [axSpectrum] and the corresponding markers from
    [axSpectrogram]. *)
Definition clear_spectra : M Widget unit :=
  l ← gets spectra;
  for_each l (fun x =>
    lines_remove AxSpectrogram (Spec.marker x);;
    lines_remove AxSpectrum (Spec.line x));;
  modify (set_spectra []).

(** Remove all followers. *)
Definition clear_followers : M Widget unit :=
  l ← gets peak_followers;
  for_each l (fun x =>
    match PeakFollower.line x with
    | Some id => lines_remove AxSpectrogram id
    | None => raise (AttributeError "line")
    end);;
  modify (set_peak_followers []).

(** Attempt to follow the path starting with the clicked point.  The
    follower is appended before it runs; it is the last element of
    [self.peak_followers] that [run] and the assignment of [line] update. *)
Definition follow (t : float) (v : option float) (action : string)
  : M Widget unit :=
  if String.eqb action "Gauss" then
    sg ← gets spectrogram;
    fitter ← lift (GaussianFitter_new E sg (t, v));
    modify (set_gauss (Some fitter))
  else if String.eqb action "Peak" then
    sg ← gets spectrogram;
    follower ← lift (PeakFollower_new E sg (t, v));
    before ← gets peak_followers;
    modify (set_peak_followers (before ++ [follower]));;
    let ran := PeakFollower_run E follower in
    modify (set_peak_followers (before ++ [snd ran]));;
    lift (fst ran);;
    let '(tsec, vs) := PeakFollower.v_of_t (snd ran) in
    id ← plot AxSpectrogram (List.map (fun x => PrimFloat.mul x mega) tsec) vs "r-";
    modify (set_peak_followers (before ++ [PeakFollower.set_line (Some id) (snd ran)]))
  else mret tt.

(** The body of the loop of [gauss_out], for the index [j]; [acc] holds the
    lists [times], [centers], [widths] and [amps]. *)
Definition gauss_step (vind : list (Z * Z)) (tind : list Z) (acc : GaussOut.t)
    (j : Z) : M Widget GaussOut.t :=
  times ← sg_member "time" Spectrogram.time;
  tj ← lift (Seq.index tind j);
  tm ← lift (Seq.index times tj);
  let t := PrimFloat.mul tm mega in
  '(vfrom, vto) ← lift (Seq.index vind j);
  power ← sg_member "power" (Spectrogram_power E);
  i ← sg_member "intensity" Spectrogram.intensity;
  tj' ← lift (Seq.index tind j);
  col ← lift (Seq.column_slice i vfrom vto tj');
  powers ← lift (power col);
  vel ← sg_member "velocity" Spectrogram.velocity;
  let speeds := Seq.slice vel vfrom vto in
  gus ← lift (Gaussian_new E speeds powers);
  if Gaussian.valid gus
  then mret (GaussOut.mk (GaussOut.time acc ++ [t])
               (GaussOut.center acc ++ [Gaussian.center gus])
               (GaussOut.width acc ++ [Gaussian.width gus])
               (GaussOut.amplitude acc ++ [Gaussian.amplitude gus]))
  else mret acc.

Fixpoint gauss_loop (vind : list (Z * Z)) (tind : list Z) (acc : GaussOut.t)
    (js : list Z) : M Widget GaussOut.t :=
  match js with
  | [] => mret acc
  | j :: r => acc' ← gauss_step vind tind acc j; gauss_loop vind tind acc' r
  end.

(** [range(n)] *)
Definition py_range (n : nat) : list Z := List.map Z.of_nat (seq 0 n).

(** The figure with three axes that [gauss_out] draws is local to the call. *)
Definition gauss_out (n : Z) : M Widget retval :=
  followers ← gets peak_followers;
  if Seq.len followers <=? n then mret (VInt 0)
  else
    pf ← lift (Seq.index followers n);
    let vind := PeakFollower.velocity_index_spans pf in
    let tind := PeakFollower.time_index pf in
    fits ← gauss_loop vind tind (GaussOut.mk [] [] [] []) (py_range (length tind));
    (* Store the values for later access *)
    outs ← gets gauss_outs;
    followers ← gets peak_followers;
    let padded :=
      match outs with
      | None => repeat None (length followers)
      | Some l => l ++ repeat None (length followers - length l)
      end in
    modify (set_gauss_outs (Some padded));;
    stored ← lift (Seq.setitem padded n (Some fits));
    modify (set_gauss_outs (Some stored));;
    mret VNone.

(** Extract the region(s) of interest and process them.  [analyze_region] is
    a global name of the module. *)
Definition analyze_roi : M Widget unit :=
  l ← gets roi;
  for_each l (fun r => lookup_global "analyze_region").

(** One dictionary of [spans] in [fan_out]. *)
Record Span : Type := mkSpan {
  span_v : list float;
  span_power : list float;
  span_t : float;
}.

Definition fan_step (vind : list (Z * Z)) (tind : list Z)
    (vvec tvec : list float) (ivec : list (list float)) (n : Z)
  : M Widget Span :=
  '(vfrom, vto) ← lift (Seq.index vind n);
  power ← sg_member "power" (Spectrogram_power E);
  tn ← lift (Seq.index tind n);
  col ← lift (Seq.column_slice ivec vfrom vto tn);
  p ← lift (power col);
  tn' ← lift (Seq.index tind n);
  tm ← lift (Seq.index tvec tn');
  mret (mkSpan (Seq.slice vvec vfrom vto) p (PrimFloat.mul tm mega)).

Fixpoint fan_loop (vind : list (Z * Z)) (tind : list Z)
    (vvec tvec : list float) (ivec : list (list float)) (ns : list Z)
  : M Widget (list Span) :=
  match ns with
  | [] => mret []
  | n :: r =>
      s ← fan_step vind tind vvec tvec ivec n;
      rest ← fan_loop vind tind vvec tvec ivec r;
      mret (s :: rest)
  end.

(** [self.axTrack.plot(x, y, 'b-', alpha=0.33)] *)
Definition plot_track (x y : list float) : M Widget unit :=
  modify (fun w =>
    set_axTrack (Some (default [] (axTrack w) ++ [Line2D.mk x y "b-"])) w).

(** Produce a zoomed in version of this trace, showing the neighborhood
    around the determined peak. *)
Definition fan_out (n : Z) : M Widget retval :=
  followers ← gets peak_followers;
  if Seq.len followers <=? n then mret (VInt 0)
  else
    pf ← lift (Seq.index followers n);
    let vind := PeakFollower.velocity_index_spans pf in
    let tind := PeakFollower.time_index pf in
    modify (set_axTrack (Some []));;
    vvec ← sg_member "velocity" Spectrogram.velocity;
    tvec ← sg_member "time" Spectrogram.time;
    ivec ← sg_member "intensity" Spectrogram.intensity;
    spans ← fan_loop vind tind vvec tvec ivec (py_range (length tind));
    maxima ← lift (comprehension (fun x => Seq.np_max (span_power x)) spans);
    maxpower ← lift (Seq.np_max maxima);
    let offset := PrimFloat.mul fortieth maxpower in
    for_each (reverse (py_range (length spans))) (fun n =>
      span ← lift (Seq.index spans n);
      plot_track
        (List.map (fun p => PrimFloat.add p (PrimFloat.mul (float_of_Z n) offset))
           (span_power span))
        (span_v span));;
    mret VNone.

(** The lines [heights[n] > 0.1] keep, in [update_baselines]. *)
Fixpoint keep_peaks (peaks heights : list float) (ns : list Z)
  : outcome (list float) :=
  match ns with
  | [] => Ret []
  | n :: r =>
      obind (Seq.index heights n) (fun h =>
      if PrimFloat.ltb tenth h
      then obind (Seq.index peaks n) (fun p =>
           obind (keep_peaks peaks heights r) (fun ps => Ret (p :: ps)))
      else keep_peaks peaks heights r)
  end.

(** Handle the baselines popup menu. *)
Definition update_baselines (method : string) : M Widget unit :=
  modify (set_baselines []);;
  blines ←
    (if String.eqb method "Squash" then
       sg ← gets spectrogram;
       '(peaks, sigs, heights) ← lift (baselines_by_squash E sg);
       lift (keep_peaks peaks heights (py_range (length heights)))
     else mret []);
  match blines with
  | [] =>
      (* self.baselines is empty here: nothing to remove *)
      modify (set_baselines [])
  | _ =>
      i1 ← sg_member "intensity" Spectrogram.intensity;
      e0 ← lift (Seq.np_min (concat i1));
      i2 ← sg_member "intensity" Spectrogram.intensity;
      e1 ← lift (Seq.np_max (concat i2));
      for_each blines (fun v =>
        id ← plot AxSpectrum [e0; e1] [v; v] "k-";
        modify (fun w => set_baselines (baselines w ++ [Baseline.mk v [id]]) w))
  end.

(** The loop [while the_spectrum.velocities[ordering[n]] in blines: n -= 1].
    It runs at most [len(ordering) + 1] times: [ordering[n]] raises
    [IndexError] once [n] is below [-len(ordering)]. *)
Fixpoint skip_baselines (fuel : nat) (the_spectrum : Spectrum.t)
    (ordering : list Z) (blines : list float) (n : Z) : M Widget Z :=
  match fuel with
  | O => raise IndexError
  | S fuel' =>
      velocities ← spectrum_attr the_spectrum "velocities";
      i ← lift (Seq.index ordering n);
      x ← lift (Seq.index velocities i);
      if Seq.contains x blines
      then skip_baselines fuel' the_spectrum ordering blines (n - 1)
      else mret n
  end.

Definition _colors : list string := ["r"; "g"; "b"; "y"].

(** Display a spectrum in the left axes corresponding to the passed value of
    [the_time] (which is in seconds).  The statements after [return 0] are
    never run. *)
Definition spectrum (the_time : option float) (form : string)
  : M Widget retval :=
  match the_time with
  | None =>
      (* Initialize the axes *)
      mret VNone
  | Some the_time =>
      pps ← sg_member "points_per_spectrum" Spectrogram.points_per_spectrum;
      df ← gets digfile;
      let delta_t :=
        PrimFloat.mul (PrimFloat.div (float_of_Z pps) 2) (DigFile.dt df) in
      samples ← lift (DigFile_values E df (PrimFloat.sub the_time delta_t)
                        (PrimFloat.add the_time delta_t));
      the_spectrum ← lift (Spectrum_new E samples (DigFile.dt df));
      (* compute the level of the 90th percentile *)
      vals ← spectrum_attr the_spectrum "db";
      let ordering := np_argsort E vals in
      bl ← gets baselines;
      n ← match bl with
          | [] => mret (-1)
          | _ =>
              skip_baselines (S (length ordering)) the_spectrum ordering
                (List.map Baseline.v bl) (-1)
          end;
      imax ← lift (Seq.index ordering n);
      smax ← lift (Seq.index vals imax);
      noise_floor ←
        lift (Seq.int_of_float
                (PrimFloat.sub (float_of_Z n)
                   (PrimFloat.mul tenth (float_of_Z (Seq.len vals)))));
      i90 ← lift (Seq.index ordering noise_floor);
      s90 ← lift (Seq.index vals i90);
      (* We need to worry about the format of the spectrum *)
      let db := Seq.substring_of "dB" form in
      let field := if db then "db" else "power" in
      xs ← spectrum_attr the_spectrum field;
      ys ← spectrum_attr the_spectrum "velocities";
      shown ← gets spectra;
      color ← lift (Seq.index _colors (Seq.len shown));
      the_line ← plot AxSpectrum xs ys color;
      let tval := PrimFloat.mul the_time mega in
      v_max ← sg_member "v_max" Spectrogram.v_max;
      shown ← gets spectra;
      color ← lift (Seq.index _colors (Seq.len shown));
      marker ← plot AxSpectrogram [tval; tval] [0%float; v_max] color;
      modify (fun w =>
        set_spectra (spectra w ++ [Spec.mk the_spectrum smax s90 the_line marker]) w);;
      in_db ← gets spectra_in_db;
      (if negb (Bool.eqb db in_db) then
         modify (set_spectra_in_db db);;   (* switch our mode *)
         (* and replot all the spectra *)
         shown ← gets spectra;
         for_each shown (fun spec =>
           x ← spectrum_attr (Spec.spectrum spec) field;
           y ← spectrum_attr (Spec.spectrum spec) "velocities";
           line_set (Spec.line spec) x y)
       else mret tt);;
      (if db then
         shown ← gets spectra;
         ninety ← lift (Seq.py_max (List.map Spec.ninety shown));
         peak ← lift (Seq.py_max (List.map Spec.max shown));
         mret tt
       else mret tt);;
      mret (VInt 0)
  end.

(** [event.xdata * 1e-6]: [None] cannot be multiplied. *)
Definition to_seconds (x : option float) : M Widget float :=
  match x with
  | Some x => mret (PrimFloat.mul x micro)
  | None => raise TypeError
  end.

(** The result of the first [try] of [handle_click] is the pair [(t, v)],
    or nothing when the [except] clause returned.  No [try] encloses the
    look-up of the click selector. *)
Definition handle_click (event : Event.t) : M Widget retval :=
  tv ← try_except
         (t ← to_seconds (Event.xdata event); mret (Some (t, Event.ydata event)))
         any_exception
         (mret None);
  match tv with
  | None => mret (VInt 0)
  | Some (t, v) =>
      sel ← gets selecting;
      if (sel : bool) then mret (VInt 0)
      else
        (* Look up what we should do with the click *)
        action ← controls_item "clicker" clicker;
        try_except
          (if Seq.substring_of "Spectrum" action
           then spectrum (Some t) action;; mret VNone
           else follow t v action;; mret VNone)
          except_Exception
          (mret VNone)
  end.

(** [char in "0123456789"]: the left operand must be a string. *)
Definition in_digits (char : option string) : M Widget bool :=
  match char with
  | Some c => mret (Seq.substring_of c "0123456789")
  | None => raise TypeError
  end.

Definition handle_key (event : Event.t) : M Widget retval :=
  try_except
    (t ← to_seconds (Event.xdata event); mret tt)
    any_exception
    (mret tt);;
  let char := Event.key event in
  (if bool_decide (char = Some "x")
   then clear_spectra   (* remove the all spectra *)
   else mret tt);;
  (if bool_decide (char = Some "m") || bool_decide (char = Some "M")
   then
     modify (fun w => set_selecting (negb (selecting w)) w);;
     modify (fun w => set_controls (set_marquee (selecting w) (controls w)) w)
   else mret tt);;
  digit ← in_digits char;
  (if (digit : bool)
   then
     n ← lift (Seq.int_of_string (default "" char));
     gauss_out n;; mret tt
   else mret tt);;
  l ← gets roi;
  (if (bool_decide (char = Some "a") || bool_decide (char = Some "A"))
      && negb (bool_decide (l = []))
   then analyze_roi
   else mret tt);;
  mret VNone.

(** Assigning the [value] of a slider, as the front end does before it calls
    the observers. *)
Definition slider_set_value (v : list float) (s : ValueSlider.t float)
  : ValueSlider.t float :=
  ValueSlider.mk (ValueSlider.multiplier s) v (ValueSlider._ymin s)
    (ValueSlider._ymax s) (ValueSlider.slider_min s) (ValueSlider.slider_max s).

(** [self.controls = dict()]: no key is stored.  The members hold no data
    until [make_controls] assigns them with their keys. *)
Definition no_controls : Controls :=
  let empty := ValueSlider.mk 1%float [] 0%float 0%float 0%float 0%float in
  mkControls empty empty empty "" "" false [].

(** [mwidgets.RectangleSelector(self.axSpectrogram, ..., interactive=True)]:
    an interactive selector adds the lines of its handles (the corners, the
    edges and the centre) to the axes.  The widget never reads the data of
    these lines, which follow the rectangle; they are empty here. *)
Definition RectangleSelector_new : M Widget unit :=
  corners ← plot AxSpectrogram [] [] "s";
  edges ← plot AxSpectrogram [] [] "s";
  centre ← plot AxSpectrogram [] [] "s";
  mret tt.

(** Create the controls for this widget and store them in [self.controls],
    one after the other.  A [Dropdown] refuses a value that is not among
    its options; a [RectangleSelector] is active when created. *)
Definition make_controls (kwargs : list kwarg) : M Widget unit :=
  df ← gets digfile;
  (* FFT size *)
  let pps := get_points_per_spectrum kwargs 8192 in
  val ← lift (Seq.int_of_float (np_log2 E pps));
  dict_assign "spectrum_size" id;;
  (* Set the overlap percentage of successive time intervals *)
  overlap ← sg_member "overlap" Spectrogram.overlap;
  dict_assign "overlap" id;;
  (* Time range *)
  let t_range := get_t_range kwargs (0, 25) in
  time_slider ←
    lift (ValueSlider.__init__ (FloatRangeSlider_new E)
            [fst t_range; snd t_range]
            (DigFile.t0 df) (DigFile.t_final df) mega);
  dict_assign "t_range" (set_t_range time_slider);;
  (* Velocity range *)
  v_max ← sg_member "v_max" Spectrogram.v_max;
  velocity_slider ←
    lift (ValueSlider.__init__ (FloatRangeSlider_new E) [0; 50]
            0%float v_max milli);
  dict_assign "velocity_range" (set_velocity_range velocity_slider);;
  (* Color range *)
  i ← sg_member "intensity" Spectrogram.intensity;
  imax ← lift (Seq.np_max (concat i));
  let imin := PrimFloat.sub imax 200 in
  color_slider ←
    lift (ValueSlider.__init__ (FloatRangeSlider_new E) [40; 70]
            imin imax 1%float);
  dict_assign "intensity_range" (set_intensity_range color_slider);;
  (* Threshold percentage *)
  dict_assign "threshold" id;;
  (* Color map selector *)
  let the_maps := COLORMAPS_keys E ++ ["Computed"] in
  (if bool_decide ("3w_gby" ∈ the_maps) then mret tt
   else raise (RuntimeError "TraitError"));;
  dict_assign "color_map" (set_color_map "3w_gby");;
  (* Click selector *)
  dict_assign "clicker" (set_clicker "Spectrum (dB)");;
  RectangleSelector_new;;
  dict_assign "marquee" (set_marquee true);;
  dict_assign "clear_spectra" id;;
  dict_assign "clear_followers" id;;
  dict_assign "baselines" id;;
  dict_assign "raw_signal" id.

(** The first argument of the constructor: a file name or a [DigFile]. *)
Inductive digfile_arg : Type :=
  | by_name (name : string)
  | by_object (d : DigFile.t).

(** The members as [__init__] assigns them, before it makes the controls. *)
Definition new_widget (df : DigFile.t) (sg : Spectrogram.t) : Widget :=
  {| digfile := df;
     baselines := [];
     spectrogram := sg;
     canvas := mkCanvas ∅ 0 [] [] (0%float, 1%float);
     image := None;
     colorbar := false;
     raw := None;
     axTrack := None;
     peak_followers := [];
     spectra := [];
     spectra_in_db := true;
     controls := no_controls;
     selecting := false;
     roi := [];
     threshold := None;
     gauss := None;
     gauss_outs := None;
     spectrogram_reads := [];
     spectrum_reads := [] |}.

(** [SpectrogramWidget(digfile, **kwargs)]: the widget, unless the
    constructor raises. *)
Definition __init__ (arg : digfile_arg) (kwargs : list kwarg) : outcome Widget :=
  obind (match arg with
         | by_name name => DigFile_open E name
         | by_object d => Ret d
         end) (fun df =>
  obind (Spectrogram_new E df kwargs) (fun sg =>
  match (spectrum None "";; make_controls kwargs;; update_spectrogram)
          (new_widget df sg) with
  | (Ret _, w) => Ret w
  | (Raise e, _) => Raise e
  end)).

(** The object as [__init__] leaves it once the two handlers are connected
    to the canvas (lines 218 to 221), together with the outcome of the rest
    of the constructor: the canvas holds the handlers and the handlers hold
    [self], whether or not the constructor goes on to raise. *)
Definition connected (arg : digfile_arg) (kwargs : list kwarg)
  : outcome (outcome unit * Widget) :=
  obind (match arg with
         | by_name name => DigFile_open E name
         | by_object d => Ret d
         end) (fun df =>
  obind (Spectrogram_new E df kwargs) (fun sg =>
  Ret ((spectrum None "";; make_controls kwargs;; update_spectrogram)
         (new_widget df sg)))).

(** What the notebook front end delivers to the widget: the two canvas
    events connected in [__init__], the callback of the marquee, and a
    change of each control, with the new value. *)
Inductive GuiEvent : Type :=
  | button_press_event (event : Event.t)
  | key_press_event (event : Event.t)
  | marquee_select (eclick erelease : Event.t)
  | spectrum_size_change (new : Z)
  | overlap_change (new : float)
  | t_range_change (new : list float)
  | velocity_range_change (new : list float)
  | intensity_range_change (new : list float)
  | threshold_change (new : float)
  | color_map_change (new : string)
  | clicker_change (new : string)
  | clear_spectra_click
  | clear_followers_click
  | baselines_change (new : string)
  | raw_signal_change (new : bool).

(** The callbacks, as [__init__] and [make_controls] register them. *)
Definition dispatch (ev : GuiEvent) : M Widget retval :=
  match ev with
  | button_press_event x => handle_click x
  | key_press_event x => handle_key x
  | marquee_select eclick erelease => RSelect eclick erelease;; mret VNone
  | spectrum_size_change new =>
      overhaul [kw_points_per_spectrum (2 ^ new)];; mret VNone
  | overlap_change new =>
      overhaul [kw_overlap (PrimFloat.mul new num_centi)];; mret VNone
  | t_range_change new =>
      modify (fun w =>
        set_controls (set_t_range (slider_set_value new (t_range (controls w)))
                        (controls w)) w);;
      do_update;; mret VNone
  | velocity_range_change new =>
      old ← gets (fun w => ValueSlider.value (velocity_range (controls w)));
      modify (fun w =>
        set_controls
          (set_velocity_range (slider_set_value new (velocity_range (controls w)))
             (controls w)) w);;
      update_velocity_range (Some (old, new));; mret VNone
  | intensity_range_change new =>
      modify (fun w =>
        set_controls
          (set_intensity_range (slider_set_value new (intensity_range (controls w)))
             (controls w)) w);;
      update_color_range;; mret VNone
  | threshold_change new => update_threshold new;; mret VNone
  | color_map_change new =>
      modify (fun w => set_controls (set_color_map new (controls w)) w);;
      update_cmap;; mret VNone
  | clicker_change new =>
      modify (fun w => set_controls (set_clicker new (controls w)) w);;
      mret VNone
  | clear_spectra_click => clear_spectra;; mret VNone
  | clear_followers_click => clear_followers;; mret VNone
  | baselines_change new => update_baselines new;; mret VNone
  | raw_signal_change new => show_raw_signal new;; mret VNone
  end.

(** The event loop of the host: an exception that leaves a callback is
    reported, and the loop goes on with the widget as the callback left
    it. *)
Definition run_events (evs : list GuiEvent) (w : Widget) : Widget :=
  foldl (fun w ev => snd (dispatch ev w)) w evs.

End Methods.

End SpectrogramWidget.

(** ** A concrete setting

    A digitizer file, a two-by-two spectrogram, a three-point spectrum and
    collaborators that always succeed: the inputs of the examples. *)

Module Demo.
Import SpectrogramWidget.

Definition digfile : DigFile.t :=
  DigFile.mk "shot.dig" 0x1p-30%float 0%float 0x1p-10%float.

Definition spectrogram : Spectrogram.t :=
  Spectrogram.mk [[1; 2]; [3; 4]]%float [0; 100]%float [0; 0x1p-20]%float
    100%float 0x1p-1%float 8192 [1; 2; 3]%float.

Definition the_spectrum : Spectrum.t :=
  Spectrum.mk [1; 3; 2]%float [10; 30; 20]%float [0; 50; 100]%float.

Definition follower : PeakFollower.t :=
  PeakFollower.mk [(0, 2)] [0] ([0]%float, [100]%float) None.

(** A stable insertion sort of the positions by value. *)
Fixpoint insert_by_value (vals : list float) (i : Z) (sorted : list Z) : list Z :=
  match sorted with
  | [] => [i]
  | j :: r =>
      match Seq.index vals i, Seq.index vals j with
      | Ret x, Ret y =>
          if PrimFloat.ltb x y then i :: sorted
          else j :: insert_by_value vals i r
      | _, _ => i :: sorted
      end
  end.
Definition argsort (vals : list float) : list Z :=
  foldl (fun sorted i => insert_by_value vals i sorted) []
    (py_range (length vals)).

(** A range slider as ipywidgets validates it: the bounds and the pair
    must be ordered, and the pair is moved into the bounds. *)
Definition bounded_range (lo hi : float) (value : list float)
  : outcome (list float) :=
  match value with
  | [a; b] =>
      if PrimFloat.ltb hi lo || PrimFloat.ltb b a
      then Raise (RuntimeError "TraitError")
      else
        let clamp x :=
          let y := if PrimFloat.ltb hi x then hi else x in
          if PrimFloat.ltb y lo then lo else y in
        Ret [clamp a; clamp b]
  | _ => Raise (RuntimeError "TraitError")
  end.

Definition env : Env :=
  {| DigFile_open := fun _ => Ret digfile;
     DigFile_values := fun _ _ _ => Ret [1; 2; 3]%float;
     DigFile_thumbnail := fun _ _ => Ret ([0; 1]%float, [1; 2]%float);
     Spectrogram_new := fun _ _ => Ret spectrogram;
     Spectrogram_set := fun _ sg => (Ret tt, sg);
     Spectrogram_slice := fun sg _ _ =>
       Ret (Spectrogram.time sg, Spectrogram.velocity sg, Spectrogram.intensity sg);
     Spectrogram_transform := fun _ x => Ret x;
     Spectrogram_power := fun _ l => Ret l;
     Spectrum_new := fun _ _ => Ret the_spectrum;
     GaussianFitter_new := fun _ p => Ret (GaussianFitter.mk p);
     PeakFollower_new := fun _ _ => Ret follower;
     PeakFollower_run := fun pf => (Ret tt, pf);
     Gaussian_new := fun _ _ => Ret (Gaussian.mk true 1%float 1%float 1%float);
     baselines_by_squash := fun _ => Ret ([50]%float, [1]%float, [1]%float);
     make_spectrogram_color_map := fun _ _ _ => Ret [1; 2; 3; 4]%float;
     COLORMAPS_keys := ["3w_gby"];
     np_argsort := argsort;
     np_log2 := fun z => float_of_Z (Z.log2 z);
     FloatRangeSlider_new := bounded_range |}.

(** The same collaborators, except that the user interrupts the kernel
    while the peak follower runs. *)
Definition interrupted : Env :=
  {| DigFile_open := DigFile_open env;
     DigFile_values := DigFile_values env;
     DigFile_thumbnail := DigFile_thumbnail env;
     Spectrogram_new := Spectrogram_new env;
     Spectrogram_set := Spectrogram_set env;
     Spectrogram_slice := Spectrogram_slice env;
     Spectrogram_transform := Spectrogram_transform env;
     Spectrogram_power := Spectrogram_power env;
     Spectrum_new := Spectrum_new env;
     GaussianFitter_new := GaussianFitter_new env;
     PeakFollower_new := PeakFollower_new env;
     PeakFollower_run := fun pf => (Raise KeyboardInterrupt, pf);
     Gaussian_new := Gaussian_new env;
     baselines_by_squash := baselines_by_squash env;
     make_spectrogram_color_map := make_spectrogram_color_map env;
     COLORMAPS_keys := COLORMAPS_keys env;
     np_argsort := np_argsort env;
     np_log2 := np_log2 env;
     FloatRangeSlider_new := FloatRangeSlider_new env |}.

(** The same collaborators, except that [COLORMAPS] lacks the default map
    '3w_gby'. *)
Definition without_default_map : Env :=
  {| DigFile_open := DigFile_open env;
     DigFile_values := DigFile_values env;
     DigFile_thumbnail := DigFile_thumbnail env;
     Spectrogram_new := Spectrogram_new env;
     Spectrogram_set := Spectrogram_set env;
     Spectrogram_slice := Spectrogram_slice env;
     Spectrogram_transform := Spectrogram_transform env;
     Spectrogram_power := Spectrogram_power env;
     Spectrum_new := Spectrum_new env;
     GaussianFitter_new := GaussianFitter_new env;
     PeakFollower_new := PeakFollower_new env;
     PeakFollower_run := PeakFollower_run env;
     Gaussian_new := Gaussian_new env;
     baselines_by_squash := baselines_by_squash env;
     make_spectrogram_color_map := make_spectrogram_color_map env;
     COLORMAPS_keys := ["viridis"];
     np_argsort := np_argsort env;
     np_log2 := np_log2 env;
     FloatRangeSlider_new := FloatRangeSlider_new env |}.

(** The object that the constructor leaves when it has raised there: the
    canvas has its two handlers, [self.controls] has no click selector. *)
Definition unfinished : Widget :=
  match connected without_default_map (by_object digfile) [] with
  | Ret (_, w) => w
  | Raise _ => new_widget digfile spectrogram
  end.

(** The widget that the constructor returns. *)
Definition widget : Widget :=
  match __init__ env (by_object digfile) [] with
  | Ret w => w
  | Raise _ => new_widget digfile spectrogram
  end.

Definition click (x y : float) : Event.t := Event.mk (Some x) (Some y) None.
Definition press (k : string) : Event.t := Event.mk None None (Some k).

(** The widget once the user has chosen "Peak" in the click selector. *)
Definition peak_widget : Widget := run_events env [clicker_change "Peak"] widget.

(** The widget once [spectrum] has shown the power at one microsecond. *)
Definition power_shown : Widget :=
  snd (spectrum env (Some 0x1p-20%float) "Spectrum" widget).

(** The widget once the user has drawn a marquee. *)
Definition roi_widget : Widget :=
  run_events env [marquee_select (click 2 5) (click 1 3)] widget.

End Demo.

(** ** The vocabulary of the properties *)

Module Props.
Import SpectrogramWidget.

(** The members of the spectrogram that the specification lists, and the
    members that the widget reads. *)
Definition listed_members : list string :=
  ["intensity"; "velocity"; "time"; "slice"; "set"; "transform"].
Definition read_members : list string :=
  listed_members
  ++ ["overlap"; "v_max"; "histogram_levels"; "power"; "points_per_spectrum"].

(** The attributes of a [Spectrum] that the specification lists. *)
Definition spectrum_members : list string := ["db"; "power"; "velocities"].

(** The field of a spectrum that the specification says is shown: [db] when
    the requested form contains "dB", [power] otherwise. *)
Definition shown_field (form : string) (s : Spectrum.t) : list float :=
  if Seq.substring_of "dB" form then Spectrum.db s else Spectrum.power s.

(** A region of interest whose pairs are in nondecreasing order. *)
Definition ordered (r : Roi.t) : Prop :=
  PrimFloat.leb (fst (Roi.time r)) (snd (Roi.time r)) = true
  /\ PrimFloat.leb (fst (Roi.velocity r)) (snd (Roi.velocity r)) = true.

(** A coordinate that is a number: [None] and NaN are not. *)
Definition is_number (x : option float) : bool :=
  match x with
  | Some f => negb (PrimFloat.is_nan f)
  | None => false
  end.

(** An event of the marquee carries the data coordinates of the two corners
    of the rectangle: numbers. *)
Definition numeric (ev : GuiEvent) : Prop :=
  match ev with
  | marquee_select eclick erelease =>
      is_number (Event.xdata eclick) = true
      /\ is_number (Event.ydata eclick) = true
      /\ is_number (Event.xdata erelease) = true
      /\ is_number (Event.ydata erelease) = true
  | _ => True
  end.

(** The list [p] of the widget has only grown, by items that satisfy [P]. *)
Definition grows {X} (p : Widget -> list X) (P : X -> Prop) (w w' : Widget)
  : Prop :=
  exists ext, p w' = p w ++ ext /\ Forall P ext.

(** What a method may do to the regions of interest and to the two records
    of reads. *)
Definition footprint (P : Roi.t -> Prop) (w w' : Widget) : Prop :=
  grows roi P w w'
  /\ grows spectrogram_reads (fun m => m ∈ read_members) w w'
  /\ grows spectrum_reads (fun m => m ∈ spectrum_members) w w'.

(** A statement that relates the state it starts in to the state it leaves
    by [R], whether it returns or raises. *)
Definition preserves {A} (R : Widget -> Widget -> Prop) (m : M Widget A)
  : Prop :=
  forall w, R w (snd (m w)).

(** The calls of [imsave] that a run from [fs] to [fs'] has made. *)
Definition written (fs fs' : TemplateScript.FS) : list (list string) :=
  drop (length (TemplateScript.imsave_log fs)) (TemplateScript.imsave_log fs').

(** The import of the script as the specification describes it: it
    completes, it writes the image of every template into the directory of
    the script, and it leaves the working directory as it found it. *)
Definition import_writes_every_image (I : TemplateScript.Interpreter)
    (script_dir : list string) (fs : TemplateScript.FS) : Prop :=
  let r := TemplateScript.import_module I script_dir fs in
  fst r = Ret tt
  /\ (forall Templates x,
        TemplateScript.import_Templates I = Ret Templates -> x ∈ Templates ->
        script_dir ++ [TemplateScript.image_name x] ∈ written fs (snd r))
  /\ TemplateScript.cwd (snd r) = TemplateScript.cwd fs.

End Props.

(** A concrete file system: the repository, checked out in [/home/lanl]. *)
Module DemoFS.
Import TemplateScript.

Definition Templates : list Template :=
  [mkTemplate "Templates.start_pattern" [[0; 1]; [1; 0]];
   mkTemplate "Templates.opposing_angle" [[1; 1]; [0; 0]]].

(** An interpreter with scipy 1.4.1 and imageio; [scipy.misc] has had no
    [imsave] since scipy 1.2. *)
Definition python : Interpreter :=
  mkInterpreter (Ret tt) (Ret Templates) (Ret "1.4.1") (Ret tt) (Raise ImportError).

(** The same with scipy 1.10.0. *)
Definition recent_python : Interpreter :=
  mkInterpreter (Ret tt) (Ret Templates) (Ret "1.10.0") (Ret tt) (Raise ImportError).

Definition repo : list string := ["home"; "lanl"].
Definition script_dir : list string :=
  repo ++ ["ImageProcessing"; "TemplateMatching"; "Templates"].

Definition directories : gset (list string) :=
  list_to_set
    [[]; ["home"]; repo; repo ++ ["ImageProcessing"];
     repo ++ ["ImageProcessing"; "TemplateMatching"]; script_dir].

(** A fresh checkout, with the notebook running in the repository. *)
Definition fresh : FS :=
  mkFS repo directories
    {[ script_dir ++ [script_name] := [] ]} [].

(** The same, once the image of the first template has been saved. *)
Definition saved_once : FS :=
  mkFS repo directories
    (<[ script_dir ++ ["im_template_Templates.start_pattern.png"] := [[0; 1]; [1; 0]] ]>
       {[ script_dir ++ [script_name] := [] ]}) [].

(** The notebook running in the directory of the script. *)
Definition inside : FS :=
  mkFS script_dir directories {[ script_dir ++ [script_name] := [] ]} [].

End DemoFS.

(** ** Frames and invariants of the widget *)

Module Frames.
Import SpectrogramWidget.

(** The part [p] of the widget is as it was. *)
Definition unchanged {X} (p : Widget -> X) (w w' : Widget) : Prop := p w' = p w.

(** The property [I] of the widget, if it held, still holds. *)
Definition keeping (I : Widget -> Prop) (w w' : Widget) : Prop := I w -> I w'.

(** The members that hold what the user has selected, followed and shown,
    and the lines of the two axes: everything but the controls, the image,
    the threshold, the y limits, the spectrogram and the records of reads. *)
Definition data (w : Widget) :=
  (spectra w, peak_followers w, raw w, roi w, baselines w, selecting w,
   gauss w, gauss_outs w, spectra_in_db w, axTrack w,
   axSpectrogram (canvas w), axSpectrum (canvas w), fresh (canvas w),
   objects (canvas w)).

(** The members that a click in a spectrum mode leaves alone. *)
Definition followed (w : Widget) :=
  (peak_followers w, roi w, baselines w, selecting w, gauss w, gauss_outs w,
   raw w, axTrack w, controls w, image w, threshold w).

(** The members that a click in a follower mode leaves alone. *)
Definition shown (w : Widget) :=
  (spectra w, spectra_in_db w, roi w, baselines w, selecting w, gauss_outs w,
   raw w, axTrack w, controls w, image w, threshold w, axSpectrum (canvas w),
   spectrum_reads w, spectrogram_reads w).

(** The lines of [axSpectrogram] that a member of the widget names: the
    markers of the spectra, the tracks of the followers, the thumbnail. *)
Definition owned (w : Widget) : list nat :=
  List.map Spec.marker (spectra w)
  ++ omap PeakFollower.line (peak_followers w)
  ++ option_list (raw w).

(** The spectra and the axes agree: every marker is a line of
    [axSpectrogram] and every spectrum line a line of [axSpectrum], no line
    is named twice, every line named was created by [plot], and there is a
    colour for every spectrum. *)
Definition consistent (w : Widget) : Prop :=
  NoDup (owned w)
  /\ Forall (fun id => (id < fresh (canvas w))%nat) (owned w)
  /\ Forall (fun id => id ∈ axSpectrogram (canvas w))
       (List.map Spec.marker (spectra w))
  /\ NoDup (List.map Spec.line (spectra w))
  /\ Forall (fun id => (id < fresh (canvas w))%nat)
       (List.map Spec.line (spectra w))
  /\ Forall (fun id => id ∈ axSpectrum (canvas w))
       (List.map Spec.line (spectra w))
  /\ (length (spectra w) <= 4)%nat.

(** [PeakFollower] objects have no attribute [line] of their own: it is the
    widget that adds it. *)
Definition followers_without_line (E : Env) : Prop :=
  (forall sg p f, PeakFollower_new E sg p = Ret f -> PeakFollower.line f = None)
  /\ (forall f, PeakFollower.line (snd (PeakFollower_run E f)) = PeakFollower.line f).

(** The events of the sliders and of the two menus that choose how the
    spectrogram and a click are shown. *)
Definition display_event (ev : GuiEvent) : bool :=
  match ev with
  | spectrum_size_change _ | overlap_change _ | t_range_change _
  | velocity_range_change _ | intensity_range_change _ | threshold_change _
  | color_map_change _ | clicker_change _ => true
  | _ => false
  end.

(** The choices of the user, and the keys of the controls, that redrawing
    the spectrogram leaves alone. *)
Definition modes (w : Widget) :=
  (clicker (controls w), color_map (controls w), marquee (controls w),
   t_range (controls w), velocity_range (controls w), threshold w,
   stored (controls w)).

(** The members that name lines of the axes. *)
Definition named (w : Widget) := (spectra w, peak_followers w, raw w).

(** The keys of [self.controls] once [make_controls] has returned. *)
Definition control_keys : list string :=
  ["spectrum_size"; "overlap"; "t_range"; "velocity_range"; "intensity_range";
   "threshold"; "color_map"; "clicker"; "marquee"; "clear_spectra";
   "clear_followers"; "baselines"; "raw_signal"].

(** What [update_baselines] leaves alone, and the lines of [axSpectrum],
    which it may only add to. *)
Definition besides_baselines (w : Widget) :=
  (spectra w, peak_followers w, raw w, roi w, selecting w, gauss w,
   gauss_outs w, spectra_in_db w, axTrack w, axSpectrogram (canvas w),
   controls w, image w, threshold w, spectrum_reads w).
Definition lines_kept (w w' : Widget) : Prop :=
  axSpectrum (canvas w) `prefix_of` axSpectrum (canvas w')
  /\ (fresh (canvas w) <= fresh (canvas w'))%nat
  /\ besides_baselines w' = besides_baselines w.

(** What is drawn: the spectra, the followers, the thumbnail, the lines of
    both axes and the next identifier of a line. *)
Definition drawn (w : Widget) :=
  (spectra w, peak_followers w, raw w, fresh (canvas w),
   axSpectrogram (canvas w), axSpectrum (canvas w)).

(** Every member but the spectrogram and the two logs of reads. *)
Definition besides_reads (w : Widget) :=
  (digfile w, baselines w, canvas w, image w, colorbar w, raw w, axTrack w,
   peak_followers w, spectra w, spectra_in_db w, controls w, selecting w,
   roi w, threshold w, gauss w, gauss_outs w).

(** [spectrum] has raised before it changed a spectrum or an axis. *)
Definition refused {A} (r : outcome A * Widget) (w : Widget) : Prop :=
  (exists e, fst r = Raise e)
  /\ spectra (snd r) = spectra w
  /\ canvas (snd r) = canvas w
  /\ spectra_in_db (snd r) = spectra_in_db w.

(** What is computed from the spectrogram and shown as the image. *)
Definition rendered (w : Widget) :=
  (image w, colorbar w, controls w, threshold w, spectrogram w,
   spectrogram_reads w).

(** The four arrays of a fit have one length. *)
Definition aligned (g : GaussOut.t) : Prop :=
  length (GaussOut.center g) = length (GaussOut.time g)
  /\ length (GaussOut.width g) = length (GaussOut.time g)
  /\ length (GaussOut.amplitude g) = length (GaussOut.time g).

End Frames.

(** * Theorems *)

(** ** The sliders *)

Section SliderRanges.

(** In exact arithmetic the two ways of writing a point of the range
    agree. *)
Lemma PercentSlider_point_exact (lo hi : Q) (a : Z) :
  (num_add (num_mul (num_of_int a) (num_mul num_centi (num_sub hi lo))) lo
   == PercentSlider.spec_point lo hi a)%Q.
Proof.
  unfold PercentSlider.spec_point. simpl. ring.
Qed.

(** In binary64 they do not: 7 percent of the range from 0 to 3. *)
Example PercentSlider_point_rounding :
  PrimFloat.eqb
    (num_add (num_mul (num_of_int 7) (num_mul num_centi (num_sub 3 0))) 0)%float
    (PercentSlider.spec_point 0%float 3%float 7) = false.
Proof. reflexivity. Qed.

(** C8, as stated, fails: for the slider with bounds 0 and 3 and value
    [7, 7], [range] is not the list the formula
    [ymin + 0.01*a*(ymax - ymin)] gives in floating point
    (0.21 against 0.21000000000000002). *)
Lemma PercentSlider_range_not_spec :
  PercentSlider.range (PercentSlider.mk [7; 7] 0%float 3%float)
  <> [PercentSlider.spec_point 0%float 3%float 7;
      PercentSlider.spec_point 0%float 3%float 7].
Proof.
  intros H.
  pose proof
    (f_equal
       (fun l => match l with
                 | p :: _ => PrimFloat.eqb p (PercentSlider.spec_point 0%float 3%float 7)
                 | [] => true
                 end) H) as C.
  vm_compute in C. discriminate C.
Qed.

(** C8, amended: [PercentSlider.range] is
    [[a*dy + ymin, b*dy + ymin]] with [dy = 0.01*(ymax - ymin)], evaluated in
    this order in floating point; in exact arithmetic this is the list
    [[ymin + 0.01*a*(ymax - ymin), ymin + 0.01*b*(ymax - ymin)]]; and
    [ValueSlider.range], for a multiplier that is not zero, is exactly
    [[x/m, y/m]]. *)
Theorem slider_ranges (ymin ymax : float) (qmin qmax : Q) (a b : Z)
    (m x y lo hi smin smax : float)
    (Hm : PrimFloat.eqb m 0 = false) :
  PercentSlider.range (PercentSlider.mk [a; b] ymin ymax)
  = (let dy := PrimFloat.mul 0x1.47ae147ae147bp-7 (PrimFloat.sub ymax ymin) in
     [PrimFloat.add (PrimFloat.mul (float_of_Z a) dy) ymin;
      PrimFloat.add (PrimFloat.mul (float_of_Z b) dy) ymin])
  /\ Forall2 Qeq
       (PercentSlider.range (PercentSlider.mk [a; b] qmin qmax))
       [PercentSlider.spec_point qmin qmax a; PercentSlider.spec_point qmin qmax b]
  /\ ValueSlider.range (ValueSlider.mk m [x; y] lo hi smin smax)
     = Ret [PrimFloat.div x m; PrimFloat.div y m].
Proof.
  split; [reflexivity|]. split.
  - unfold PercentSlider.range. simpl List.map.
    repeat constructor; apply PercentSlider_point_exact.
  - unfold ValueSlider.range, truediv. simpl. rewrite Hm. reflexivity.
Qed.

(** A slider whose multiplier is zero has no range. *)
Example ValueSlider_range_zero_multiplier :
  ValueSlider.range
    (ValueSlider.mk 0%float [5; 25]%float 0%float 0%float 0%float 0%float)
  = Raise ZeroDivisionError.
Proof. reflexivity. Qed.

Lemma slider_ranges_witness :
  PercentSlider.range (PercentSlider.mk [0; 50] 0%float 4%float)
  = [0%float; 2%float]
  /\ ValueSlider.range
       (ValueSlider.mk 1000000%float [5000000; 25000000]%float
          0%float 1%float 0%float 1%float)
     = Ret [5%float; 25%float].
Proof.
  pose proof (slider_ranges 0 4 0 1 0 50 1000000 5000000 25000000 0 1 0 1 eq_refl)
    as (H1 & _ & H3).
  split; [exact H1 | exact H3].
Defined.

End SliderRanges.

(** ** The template image export script *)

Section TemplateImages.
Import TemplateScript Props.
Variable Templates : list Template.

Lemma present_spec (fs : FS) (a : list string) :
  present fs a = true <-> a ∈ dirs fs \/ is_Some (files fs !! a).
Proof.
  unfold present. rewrite orb_true_iff, !bool_decide_eq_true. reflexivity.
Qed.

Lemma present_write_file (fs : FS) (a b : list string) (img : Image) :
  present (write_file a img fs) b = true <-> b = a \/ present fs b = true.
Proof.
  rewrite !present_spec. simpl. destruct (decide (b = a)) as [->|Hne].
  - rewrite lookup_insert_eq. split; eauto.
  - rewrite lookup_insert_ne by congruence. tauto.
Qed.

(** [./im_template_<x>.png] is a file of the working directory. *)
Lemma image_path_resolve (fs : FS) (x : Template) :
  resolve fs (image_path x) = cwd fs ++ [image_name x].
Proof. reflexivity. Qed.

(** One iteration of the loop. *)
Lemma save_template_eq (x : Template) (fs : FS) :
  save_template x fs
  = (Ret tt,
     if present fs (cwd fs ++ [image_name x]) then fs
     else write_file (cwd fs ++ [image_name x]) (template_image x) fs).
Proof.
  unfold save_template, os_path_exists, imsave.
  unfold mbind, M_bind, bind, gets, modify, mret, M_ret, ret.
  rewrite image_path_resolve.
  destruct (present fs (cwd fs ++ [image_name x])); reflexivity.
Qed.

(** The whole loop: it returns; it moves nowhere and creates no directory;
    the paths it writes are, each once, the images of the templates that
    were absent; every other path keeps its content. *)
Lemma saveAllTemplateImages_spec (T : list Template) (fs : FS) :
  exists fs' new,
    saveAllTemplateImages T fs = (Ret tt, fs')
    /\ cwd fs' = cwd fs /\ dirs fs' = dirs fs
    /\ imsave_log fs' = imsave_log fs ++ new
    /\ NoDup new
    /\ (forall p, p ∈ new <->
          present fs p = false
          /\ exists x, x ∈ T /\ p = cwd fs ++ [image_name x])
    /\ (forall p, p ∉ new -> files fs' !! p = files fs !! p)
    /\ (forall p, p ∈ new -> is_Some (files fs' !! p)).
Proof.
  revert fs. unfold saveAllTemplateImages.
  induction T as [|x T IH]; intros fs.
  - exists fs, []. split_and!.
    + reflexivity.
    + reflexivity.
    + reflexivity.
    + by rewrite app_nil_r.
    + constructor.
    + intros p. split; [intros H; inversion H|].
      intros (_ & y & Hy & _). inversion Hy.
    + reflexivity.
    + intros p H. inversion H.
  - simpl. unfold bind. rewrite save_template_eq.
    set (a := cwd fs ++ [image_name x]).
    destruct (present fs a) eqn:Ha.
    + destruct (IH fs) as (fs' & new & Hrun & Hc & Hd & Hl & Hn & Hin & Hout & Hnew).
      exists fs', new. rewrite Hrun. split_and!; try done.
      intros p. rewrite Hin. split.
      * intros (Hp & y & Hy & ->). split; [done|]. exists y. split; [by right|done].
      * intros (Hp & y & Hy & ->). split; [done|].
        apply elem_of_cons in Hy as [->|Hy].
        -- fold a in Hp. congruence.
        -- eauto.
    + destruct (IH (write_file a (template_image x) fs))
        as (fs' & new & Hrun & Hc & Hd & Hl & Hn & Hin & Hout & Hnew).
      simpl in Hc, Hd, Hl.
      assert (Ha' : a ∉ new).
      { intros Hm. apply Hin in Hm as [Hm _].
        assert (present (write_file a (template_image x) fs) a = true)
          by (apply present_write_file; by left).
        congruence. }
      exists fs', (a :: new). rewrite Hrun. split_and!; try done.
      * by rewrite Hl, <- app_assoc.
      * by constructor.
      * intros p. rewrite elem_of_cons, Hin. simpl. split.
        -- intros [->|(Hp & y & Hy & ->)].
           ++ split; [done|]. exists x. split; [by left|done].
           ++ split.
              ** destruct (present fs (cwd fs ++ [image_name y])) eqn:E; [|done].
                 assert (present (write_file a (template_image x) fs)
                           (cwd fs ++ [image_name y]) = true)
                   by (apply present_write_file; by right).
                 congruence.
              ** exists y. split; [by right|done].
        -- intros (Hp & y & Hy & ->).
           destruct (decide (cwd fs ++ [image_name y] = a)) as [E|E]; [by left|].
           right. split.
           ++ destruct (present (write_file a (template_image x) fs)
                          (cwd fs ++ [image_name y])) eqn:E'; [|done].
              apply present_write_file in E' as [E'|E']; congruence.
           ++ apply elem_of_cons in Hy as [->|Hy]; [done|]. eauto.
      * intros p Hp. apply not_elem_of_cons in Hp as [Hp1 Hp2].
        rewrite (Hout p Hp2). simpl. by rewrite lookup_insert_ne.
      * intros p Hp. apply elem_of_cons in Hp as [->|Hp]; [|eauto].
        rewrite (Hout a Ha'). simpl. rewrite lookup_insert_eq. eauto.
Qed.

(** When every image is there, the loop changes nothing. *)
Lemma saveAllTemplateImages_noop (T : list Template) (fs : FS) :
  (forall x, x ∈ T -> present fs (cwd fs ++ [image_name x]) = true) ->
  saveAllTemplateImages T fs = (Ret tt, fs).
Proof.
  unfold saveAllTemplateImages. induction T as [|x T IH]; intros H; [done|].
  simpl. unfold bind. rewrite save_template_eq.
  rewrite (H x) by (by left). apply IH. intros y Hy. apply H. by right.
Qed.

(** C9: [saveAllTemplateImages] returns; a path that names a file keeps its
    content, so no file is overwritten; every call of [imsave] is for a path
    at which nothing existed, and no path is written twice; and a second run
    in the same directory changes nothing: it writes no file and leaves the
    file system as the first run left it. *)
Theorem saveAllTemplateImages_idempotent (fs : FS) :
  let first := saveAllTemplateImages Templates fs in
  fst first = Ret tt
  /\ (forall p img, files fs !! p = Some img -> files (snd first) !! p = Some img)
  /\ (exists new,
        imsave_log (snd first) = imsave_log fs ++ new
        /\ NoDup new /\ Forall (fun p => present fs p = false) new)
  /\ saveAllTemplateImages Templates (snd first) = (Ret tt, snd first)
  /\ written (snd first) (snd (saveAllTemplateImages Templates (snd first))) = [].
Proof.
  destruct (saveAllTemplateImages_spec Templates fs)
    as (fs' & new & Hrun & Hc & Hd & Hl & Hn & Hin & Hout & Hnew).
  simpl. rewrite Hrun. simpl.
  assert (Hnoop : saveAllTemplateImages Templates fs' = (Ret tt, fs')).
  { apply saveAllTemplateImages_noop. intros x Hx. rewrite Hc.
    destruct (present fs (cwd fs ++ [image_name x])) eqn:E.
    - apply present_spec in E. apply present_spec. rewrite Hd.
      destruct E as [E|E]; [by left|right].
      destruct (decide (cwd fs ++ [image_name x] ∈ new)) as [Hm|Hm]; [eauto|].
      by rewrite Hout.
    - apply present_spec. right. apply Hnew, Hin. eauto. }
  split_and!; try done.
  - intros p img Hp. destruct (decide (p ∈ new)) as [Hm|Hm].
    + apply Hin in Hm as [Hm _]. 
      assert (present fs p = true) by (apply present_spec; right; eauto).
      congruence.
    + by rewrite Hout.
  - exists new. split_and!; try done.
    apply Forall_forall. intros p Hp. by apply Hin in Hp as [Hp _].
  - rewrite Hnoop. unfold written. simpl. by rewrite drop_all.
Qed.

(** *** The path arithmetic of [getImageDirectory] *)

Lemma common_prefix_take (a b : list string) :
  take (common_prefix_len a b) a = take (common_prefix_len a b) b.
Proof.
  revert b. induction a as [|x a IH]; intros [|y b]; simpl; try done.
  destruct (String.eqb_spec x y) as [->|]; simpl; [|done].
  f_equal. apply IH.
Qed.

Lemma common_prefix_len_le_l (a b : list string) :
  (common_prefix_len a b <= length a)%nat.
Proof.
  revert b. induction a as [|x a IH]; intros [|y b]; simpl; try lia.
  destruct (String.eqb x y); [specialize (IH b)|]; lia.
Qed.

Lemma common_prefix_len_le_r (a b : list string) :
  (common_prefix_len a b <= length b)%nat.
Proof.
  revert b. induction a as [|x a IH]; intros [|y b]; simpl; try lia.
  destruct (String.eqb x y); [specialize (IH b)|]; lia.
Qed.

Lemma common_prefix_len_full (a b : list string) :
  common_prefix_len a b = length b -> b `prefix_of` a.
Proof.
  intros H. pose proof (common_prefix_take a b) as T.
  rewrite H, firstn_all in T. exists (drop (length b) a).
  etrans; [symmetry; apply (take_drop (length b))|]. by rewrite T.
Qed.

Lemma step_into_up (d : list string) (k : nat) :
  foldl step_into d (repeat ".." k) = take (length d - k) d.
Proof.
  revert d. induction k as [|k IH]; intros d; simpl.
  - rewrite Nat.sub_0_r. symmetry. apply firstn_all.
  - change (step_into d "..") with (removelast d).
    rewrite IH, removelast_firstn_len, length_take, take_take.
    f_equal. lia.
Qed.

Lemma step_into_down (d l : list string) :
  normalised l = true -> foldl step_into d l = d ++ l.
Proof.
  revert d. induction l as [|c l IH]; intros d H; simpl.
  - by rewrite app_nil_r.
  - simpl in H. apply andb_true_iff in H as [Hc Hl].
    apply andb_true_iff in Hc as [Hc H3]. apply andb_true_iff in Hc as [H1 H2].
    unfold step_into at 2.
    destruct (String.eqb c ".."); [done|]. destruct (String.eqb c "."); [done|].
    destruct (String.eqb c ""); [done|].
    rewrite IH by done. by rewrite <- app_assoc.
Qed.

Lemma normalised_drop (n : nat) (l : list string) :
  normalised l = true -> normalised (drop n l) = true.
Proof.
  unfold normalised. rewrite !forallb_forall. intros H c Hc. apply H.
  apply list_elem_of_In. apply list_elem_of_In in Hc.
  rewrite <- (take_drop n l). apply elem_of_app. by right.
Qed.

(** From a working directory [C] other than the directory [D] of the script
    and not below the script, the directory part of
    [os.path.relpath(__file__)] is not empty and leads from [C] to [D]. *)
Lemma getImageDirectory_leads (D C : list string) :
  normalised D = true -> C <> D -> ~ (D ++ [script_name]) `prefix_of` C ->
  let rel := fst (os_path_split (os_path_relpath (__file__ D) C)) in
  rel <> [] /\ foldl step_into C rel = D.
Proof.
  intros HD Hne Hfile. unfold os_path_split, os_path_relpath, __file__. simpl.
  set (i := common_prefix_len C (D ++ [script_name])).
  assert (Hi : (i <= length D)%nat).
  { pose proof (common_prefix_len_le_r C (D ++ [script_name])) as Hr.
    rewrite length_app in Hr. simpl in Hr. fold i in Hr.
    destruct (decide (i = S (length D))) as [E|E]; [|lia].
    exfalso. apply Hfile, common_prefix_len_full. fold i.
    rewrite length_app. simpl. lia. }
  assert (HiC : (i <= length C)%nat) by apply common_prefix_len_le_l.
  assert (HT : take i C = take i D).
  { pose proof (common_prefix_take C (D ++ [script_name])) as T. fold i in T.
    by rewrite (take_app_le D) in T. }
  rewrite drop_app_le by done.
  assert (Hrel : removelast
            match repeat ".." (length C - i) ++ drop i D ++ [script_name] with
            | [] => ["."]
            | _ => repeat ".." (length C - i) ++ drop i D ++ [script_name]
            end = repeat ".." (length C - i) ++ drop i D).
  { destruct (repeat ".." (length C - i) ++ drop i D ++ [script_name]) eqn:E.
    - apply app_eq_nil in E as [_ E]. apply app_eq_nil in E as [_ E]. done.
    - rewrite <- E, !app_assoc. apply removelast_last. }
  rewrite Hrel. split.
  - intros E. apply app_eq_nil in E as [E1 E2].
    apply (f_equal length) in E1, E2. rewrite repeat_length in E1.
    rewrite length_drop in E2. simpl in E1, E2. apply Hne.
    rewrite <- (firstn_all C), <- (firstn_all D).
    replace (length C) with i by lia. replace (length D) with i by lia. done.
  - rewrite foldl_app, step_into_up.
    replace (length C - (length C - i))%nat with i by lia.
    rewrite step_into_down by (by apply normalised_drop).
    rewrite HT. apply take_drop.
Qed.

Lemma os_chdir_rel (fs : FS) (comps : list string) :
  comps <> [] -> foldl step_into (cwd fs) comps ∈ dirs fs ->
  os_chdir (Rel comps) fs
  = (Ret tt, mkFS (foldl step_into (cwd fs) comps) (dirs fs) (files fs)
               (imsave_log fs)).
Proof.
  intros Hne Hin. unfold os_chdir. destruct comps as [|c r]; [done|].
  unfold resolve. by rewrite decide_True.
Qed.

Lemma os_chdir_abs (fs : FS) (comps : list string) :
  normalised comps = true -> comps ∈ dirs fs ->
  os_chdir (Abs comps) fs
  = (Ret tt, mkFS comps (dirs fs) (files fs) (imsave_log fs)).
Proof.
  intros Hn Hin. unfold os_chdir, resolve.
  rewrite (step_into_down [] comps Hn). simpl. by rewrite decide_True.
Qed.

(** The statements of the module that follow the definitions, one after
    the other. *)
Lemma module_body_unfold (T : list Template) (D : list string) (fs : FS) :
  module_body T D fs
  = match os_chdir (Rel (fst (os_path_split (os_path_relpath (__file__ D) (cwd fs))))) fs with
    | (Ret _, fs1) =>
        match saveAllTemplateImages T fs1 with
        | (Ret _, fs2) => os_chdir (Abs (cwd fs)) fs2
        | (Raise e, fs2) => (Raise e, fs2)
        end
    | (Raise e, fs1) => (Raise e, fs1)
    end.
Proof. reflexivity. Qed.

(** The imports come first: when they succeed the rest of the module runs
    with the templates they have bound; when one raises, the import of the
    script raises the same and nothing has happened. *)
Lemma import_module_imported (I : Interpreter) (T : list Template)
    (D : list string) (fs : FS) :
  imports I = Ret T -> import_module I D fs = module_body T D fs.
Proof.
  intros H. unfold import_module, mbind, M_bind, bind, lift. by rewrite H.
Qed.

Lemma import_module_not_imported (I : Interpreter) (e : exn)
    (D : list string) (fs : FS) :
  imports I = Raise e -> import_module I D fs = (Raise e, fs).
Proof.
  intros H. unfold import_module, mbind, M_bind, bind, lift. by rewrite H.
Qed.

(** Where the other modules are found, the import of [imsave] that runs is
    the one that the comparison of the version strings selects. *)
Lemma imports_selected (I : Interpreter) (T : list Template) (v : string) :
  import_tqdm I = Ret tt -> import_Templates I = Ret T ->
  scipy_version I = Ret v ->
  imports I
  = obind (if str_gt v "1.2.1" then from_imageio_import_imsave I
           else from_scipy_misc_import_imsave I) (fun _ => Ret T).
Proof. intros H1 H2 H3. unfold imports. by rewrite H1, H2, H3. Qed.

(** The version strings are compared as strings: "1.10.0" is not greater
    than "1.2.1", so with scipy 1.10.0 the script asks [scipy.misc] for
    [imsave], which is not there, although [imageio] is installed; the
    import raises [ImportError] and writes nothing. *)
Example import_with_scipy_1_10 :
  str_gt "1.10.0" "1.2.1" = false
  /\ str_gt "1.4.1" "1.2.1" = true
  /\ import_module DemoFS.recent_python DemoFS.script_dir DemoFS.fresh
     = (Raise ImportError, DemoFS.fresh).
Proof. vm_compute. split_and!; reflexivity. Qed.

(** The import fails in the directory of the script: the directory part of
    the relative path of the script is the empty string. *)
Example import_inside_script_directory :
  let r := import_module DemoFS.python DemoFS.script_dir DemoFS.inside in
  fst r = Raise FileNotFoundError /\ snd r = DemoFS.inside.
Proof. vm_compute. split; reflexivity. Qed.

(** C5, as stated, fails: where the image of a template is already in the
    directory of the script, the import does not write it. *)
Lemma import_skips_saved_image :
  ~ import_writes_every_image DemoFS.python DemoFS.script_dir DemoFS.saved_once.
Proof.
  intros (_ & H & _).
  specialize (H DemoFS.Templates
                (mkTemplate "Templates.start_pattern" [[0; 1]; [1; 0]]) eq_refl).
  assert (W : written DemoFS.saved_once
                (snd (import_module DemoFS.python DemoFS.script_dir
                        DemoFS.saved_once))
              = [DemoFS.script_dir ++ ["im_template_Templates.opposing_angle.png"]])
    by (vm_compute; reflexivity).
  rewrite W in H. specialize (H ltac:(left)).
  apply list_elem_of_singleton in H. discriminate H.
Qed.

(** C5, amended: in an interpreter where the imports at the head of the
    script succeed ([tqdm] and [Templates] are found, and [imsave] is found
    where the comparison of [scipy.__version__] with "1.2.1", as strings,
    looks for it), imported from a working directory other than the
    directory of the script, the script completes; it writes into the
    directory of the script, once each, the images
    [im_template_<template>.png] that are not there yet and nothing else;
    afterwards the image of every template is in that directory, every file
    that existed has kept its content, and the working directory is the one
    from before the import. *)
Theorem import_module_saves_missing_images (I : Interpreter)
    (D : list string) (fs : FS)
    (Himports : imports I = Ret Templates)
    (HD : normalised D = true)
    (HC : normalised (cwd fs) = true)
    (HDd : D ∈ dirs fs)
    (HCd : cwd fs ∈ dirs fs)
    (Hfile : ~ (D ++ [script_name]) `prefix_of` cwd fs)
    (Hne : cwd fs <> D) :
  exists fs',
    import_module I D fs = (Ret tt, fs')
    /\ cwd fs' = cwd fs
    /\ dirs fs' = dirs fs
    /\ NoDup (written fs fs')
    /\ (forall p, p ∈ written fs fs' <->
          present fs p = false
          /\ exists x, x ∈ Templates /\ p = D ++ [image_name x])
    /\ (forall x, x ∈ Templates -> present fs' (D ++ [image_name x]) = true)
    /\ (forall p img, files fs !! p = Some img -> files fs' !! p = Some img).
Proof.
  destruct (getImageDirectory_leads D (cwd fs) HD Hne Hfile) as [Hrel Hto].
  set (fs1 := mkFS D (dirs fs) (files fs) (imsave_log fs)).
  destruct (saveAllTemplateImages_spec Templates fs1)
    as (fs2 & new & Hrun & Hc & Hd & Hl & Hn & Hin & Hout & Hnew).
  simpl in Hc, Hd, Hl.
  exists (mkFS (cwd fs) (dirs fs2) (files fs2) (imsave_log fs2)).
  assert (Hw : written fs (mkFS (cwd fs) (dirs fs2) (files fs2) (imsave_log fs2)) = new).
  { unfold written. simpl. rewrite Hl. apply drop_app_length. }
  split_and!; try done.
  - rewrite (import_module_imported I Templates) by done.
    rewrite module_body_unfold.
    rewrite os_chdir_rel by (by try rewrite Hto).
    cbv zeta in Hto. rewrite Hto. fold fs1. rewrite Hrun.
    rewrite os_chdir_abs by (by try rewrite Hd). reflexivity.
  - by rewrite Hw.
  - intros p. rewrite Hw. apply Hin.
  - intros x Hx. apply present_spec. simpl. rewrite Hd.
    destruct (present fs (D ++ [image_name x])) eqn:P.
    + apply present_spec in P as [P|P]; [by left|right].
      destruct (decide (D ++ [image_name x] ∈ new)) as [Hm|Hm]; [eauto|].
      by rewrite Hout.
    + right. apply Hnew, Hin. eauto.
  - intros p img Hp. simpl. destruct (decide (p ∈ new)) as [Hm|Hm].
    + apply Hin in Hm as [Hm _].
      assert (present fs1 p = true) by (apply present_spec; right; simpl; eauto).
      congruence.
    + by rewrite Hout.
Qed.

End TemplateImages.

Lemma import_module_saves_missing_images_witness :
  exists fs',
    TemplateScript.import_module DemoFS.python DemoFS.script_dir DemoFS.fresh
    = (Ret tt, fs')
    /\ TemplateScript.cwd fs' = DemoFS.repo.
Proof.
  destruct (import_module_saves_missing_images DemoFS.Templates DemoFS.python
              DemoFS.script_dir DemoFS.fresh)
    as (fs' & H1 & H2 & _).
  - reflexivity.
  - reflexivity.
  - reflexivity.
  - apply (bool_decide_unpack _). vm_compute. exact I.
  - apply (bool_decide_unpack _). vm_compute. exact I.
  - apply (bool_decide_unpack _). vm_compute. exact I.
  - discriminate.
  - exists fs'. split; [exact H1 | exact H2].
Defined.

(** ** The widget: the handlers *)

Section Handlers.
Import SpectrogramWidget Props.
Variable E : Env.

(** C3: for every [n] that is at least the number of stored peak followers,
    [gauss_out(n)] and [fan_out(n)] return 0 and leave every member of the
    widget as it was. *)
Theorem follower_index_out_of_bounds (w : Widget) (n : Z)
    (H : Seq.len (peak_followers w) <= n) :
  gauss_out E n w = (Ret (VInt 0), w) /\ fan_out E n w = (Ret (VInt 0), w).
Proof.
  apply Z.leb_le in H.
  unfold gauss_out, fan_out, mbind, M_bind, bind, gets. rewrite H.
  split; reflexivity.
Qed.

(** The two early returns of [handle_click], the look-up of the click
    selector, and the guarded action. *)
Lemma handle_click_eq (event : Event.t) (w : Widget) :
  handle_click E event w
  = match Event.xdata event with
    | None => (Ret (VInt 0), w)
    | Some x =>
        if selecting w then (Ret (VInt 0), w)
        else if bool_decide ("clicker" ∈ stored (controls w)) then
          let action := clicker (controls w) in
          let t := PrimFloat.mul x micro in
          let v := Event.ydata event in
          try_except
            (if Seq.substring_of "Spectrum" action
             then spectrum E (Some t) action;; mret VNone
             else follow E t v action;; mret VNone)
            except_Exception (mret VNone) w
        else (Raise (KeyError "clicker"), w)
    end.
Proof.
  unfold handle_click, to_seconds, controls_item.
  destruct (Event.xdata event) as [f|]; [|reflexivity].
  unfold mbind, M_bind, bind, try_except, mret, M_ret, ret, gets.
  cbv beta iota.
  destruct (selecting w); [reflexivity|].
  destruct (bool_decide _); reflexivity.
Qed.

(** C1, amended: on a widget whose click selector exists, that is, once
    [make_controls] has stored ['clicker'] in [self.controls],
    [handle_click] never propagates an exception that derives from
    [Exception].  A click whose coordinates cannot be read returns 0 and
    changes nothing; a click while a marquee selection is active returns 0
    and changes nothing; otherwise the handler returns [None], the
    exceptions of the dispatched action that derive from [Exception] being
    suppressed, or it propagates an exception of the action that does not
    derive from [Exception]. *)
Theorem handle_click_suppresses (w : Widget) (event : Event.t) (x : float)
    (y : option float) (k : option string)
    (Hmade : "clicker" ∈ stored (controls w)) :
  handle_click E (Event.mk None y k) w = (Ret (VInt 0), w)
  /\ handle_click E (Event.mk (Some x) y k) (set_selecting true w)
     = (Ret (VInt 0), set_selecting true w)
  /\ match fst (handle_click E event w) with
     | Ret v => v = VInt 0 \/ v = VNone
     | Raise e => is_Exception e = false
     end.
Proof.
  split; [reflexivity|]. split; [reflexivity|].
  rewrite handle_click_eq.
  destruct (Event.xdata event) as [t|]; [|by left].
  destruct (selecting w); [by left|].
  rewrite bool_decide_eq_true_2 by exact Hmade. cbv zeta.
  unfold try_except, mbind, M_bind, bind.
  destruct (Seq.substring_of "Spectrum" (clicker (controls w))).
  - destruct (spectrum E _ _ w) as [[v|e] w']; [by right|].
    unfold except_Exception. destruct (is_Exception e) eqn:He; [by right|done].
  - destruct (follow E _ _ _ w) as [[v|e] w']; [by right|].
    unfold except_Exception. destruct (is_Exception e) eqn:He; [by right|done].
Qed.

End Handlers.

Lemma follower_index_out_of_bounds_witness :
  SpectrogramWidget.gauss_out Demo.env 3 Demo.widget = (Ret (VInt 0), Demo.widget)
  /\ SpectrogramWidget.fan_out Demo.env 3 Demo.widget = (Ret (VInt 0), Demo.widget).
Proof.
  apply (follower_index_out_of_bounds Demo.env Demo.widget 3).
  vm_compute. discriminate.
Defined.

Lemma handle_click_suppresses_witness :
  match fst (SpectrogramWidget.handle_click Demo.env (Demo.click 1 50)
               Demo.widget) with
  | Ret v => v = VInt 0 \/ v = VNone
  | Raise e => is_Exception e = false
  end.
Proof.
  destruct (handle_click_suppresses Demo.env Demo.widget (Demo.click 1 50)
              1 None None) as (_ & _ & H).
  - apply (bool_decide_unpack _). vm_compute. exact I.
  - exact H.
Defined.

(** C1, as stated, fails: the user interrupts the kernel while the peak
    follower of a click runs, and [handle_click] propagates the
    [KeyboardInterrupt]. *)
Lemma handle_click_propagates_interrupt :
  fst (SpectrogramWidget.handle_click Demo.interrupted (Demo.click 1 50)
         Demo.peak_widget)
  = Raise KeyboardInterrupt.
Proof. vm_compute. reflexivity. Qed.

(** The handlers are connected before the controls are made.  Where the
    constructor raises in [make_controls] (here [COLORMAPS] lacks the
    default map, so the colour map selector refuses its value), the canvas
    keeps the handler and a click on it raises [KeyError]: the look-up of
    the click selector is not inside a [try]. *)
Example handle_click_before_controls :
  match SpectrogramWidget.connected Demo.without_default_map
          (SpectrogramWidget.by_object Demo.digfile) [] with
  | Ret (o, w) => o = Raise (RuntimeError "TraitError") /\ w = Demo.unfinished
  | Raise _ => False
  end
  /\ SpectrogramWidget.handle_click Demo.without_default_map (Demo.click 1 50)
       Demo.unfinished
     = (Raise (KeyError "clicker"), Demo.unfinished).
Proof. vm_compute. split_and!; reflexivity. Qed.

(** An exception that derives from [Exception] is suppressed: the fifth
    spectrum finds no colour in [_colors] and raises [IndexError]; the
    handler returns [None]. *)
Example handle_click_suppresses_IndexError :
  let w := SpectrogramWidget.run_events Demo.env
             (repeat (SpectrogramWidget.button_press_event (Demo.click 1 50)) 4)
             Demo.widget in
  fst (SpectrogramWidget.spectrum Demo.env (Some 0x1p-20%float) "Spectrum (dB)" w)
  = Raise IndexError
  /\ fst (SpectrogramWidget.handle_click Demo.env (Demo.click 1 50) w) = Ret VNone.
Proof. vm_compute. split; reflexivity. Qed.

(** C2: the code does not do what the claim says.  With a region of interest
    selected, the key 'a' makes [handle_key] propagate the [NameError] of
    [analyze_roi]: no [try] encloses the actions that [handle_key]
    dispatches. *)
Theorem handle_key_propagates (E : Env) (w : SpectrogramWidget.Widget)
    (r : SpectrogramWidget.Roi.t) (l : list SpectrogramWidget.Roi.t)
    (x y : option float) :
  SpectrogramWidget.handle_key E (Event.mk x y (Some "a"))
    (SpectrogramWidget.set_roi (r :: l) w)
  = (Raise (NameError "analyze_region"), SpectrogramWidget.set_roi (r :: l) w).
Proof. destruct x; reflexivity. Qed.

(** The same at a concrete input, and one more event that makes the
    handler raise: a key without a name, for which [event.key] is [None]. *)
Example handle_key_raises :
  fst (SpectrogramWidget.handle_key Demo.env (Demo.press "a") Demo.roi_widget)
  = Raise (NameError "analyze_region")
  /\ fst (SpectrogramWidget.handle_key Demo.env (Event.mk None None None) Demo.widget)
     = Raise TypeError.
Proof. vm_compute. split; reflexivity. Qed.

(** ** The widget: what a method may touch *)

Section Footprint.
Import SpectrogramWidget Props.

Lemma grows_refl {X} (p : Widget -> list X) (P : X -> Prop) (w : Widget) :
  grows p P w w.
Proof. exists []. split; [by rewrite app_nil_r | constructor]. Qed.

Lemma grows_trans {X} (p : Widget -> list X) (P : X -> Prop) (w1 w2 w3 : Widget) :
  grows p P w1 w2 -> grows p P w2 w3 -> grows p P w1 w3.
Proof.
  intros (e1 & H1 & F1) (e2 & H2 & F2). exists (e1 ++ e2). split.
  - by rewrite H2, H1, app_assoc.
  - apply Forall_app. by split.
Qed.

(** A state with the same list. *)
Lemma grows_same {X} (p : Widget -> list X) (P : X -> Prop) (w w' : Widget) :
  p w' = p w -> grows p P w w'.
Proof. intros H. exists []. split; [by rewrite app_nil_r | constructor]. Qed.

(** A state with one more item. *)
Lemma grows_snoc {X} (p : Widget -> list X) (P : X -> Prop) (w w' : Widget) (x : X) :
  p w' = p w ++ [x] -> P x -> grows p P w w'.
Proof. intros H Hx. exists [x]. split; [done | by repeat constructor]. Qed.

Variable P : Roi.t -> Prop.

Lemma footprint_refl (w : Widget) : footprint P w w.
Proof. repeat split; apply grows_refl. Qed.

Lemma footprint_trans (w1 w2 w3 : Widget) :
  footprint P w1 w2 -> footprint P w2 w3 -> footprint P w1 w3.
Proof.
  intros (A1 & B1 & C1) (A2 & B2 & C2).
  repeat split; eapply grows_trans; eassumption.
Qed.

(** A state that differs in other members only. *)
Lemma footprint_same (w w' : Widget) :
  roi w' = roi w -> spectrogram_reads w' = spectrogram_reads w ->
  spectrum_reads w' = spectrum_reads w -> footprint P w w'.
Proof. intros H1 H2 H3. repeat split; by apply grows_same. Qed.

Lemma preserves_pure {A} (m : M Widget A) :
  (forall w, snd (m w) = w) -> preserves (footprint P) m.
Proof. intros H w. rewrite H. apply footprint_refl. Qed.

Lemma preserves_bind {A B} (m : M Widget A) (k : A -> M Widget B) :
  preserves (footprint P) m -> (forall a, preserves (footprint P) (k a)) ->
  preserves (footprint P) (m ≫= k).
Proof.
  intros Hm Hk w. unfold mbind, M_bind, bind. specialize (Hm w).
  destruct (m w) as [[a|e] w1]; simpl in *; [|done].
  eapply footprint_trans; [exact Hm | apply Hk].
Qed.

Lemma preserves_try {A} (body handler : M Widget A) (catches : exn -> bool) :
  preserves (footprint P) body -> preserves (footprint P) handler ->
  preserves (footprint P) (try_except body catches handler).
Proof.
  intros Hb Hh w. unfold try_except. specialize (Hb w).
  destruct (body w) as [[a|e] w1]; simpl in *; [done|].
  destruct (catches e); [|done].
  eapply footprint_trans; [exact Hb | apply Hh].
Qed.

Lemma preserves_for_each {A} (l : list A) (body : A -> M Widget unit) :
  (forall x, preserves (footprint P) (body x)) ->
  preserves (footprint P) (for_each l body).
Proof.
  intros H. induction l as [|x l IH]; simpl.
  - by apply preserves_pure.
  - apply (preserves_bind (body x) (fun _ => for_each l body)); [apply H | done].
Qed.

Lemma preserves_modify (f : Widget -> Widget) :
  (forall w, roi (f w) = roi w) ->
  (forall w, spectrogram_reads (f w) = spectrogram_reads w) ->
  (forall w, spectrum_reads (f w) = spectrum_reads w) ->
  preserves (footprint P) (modify f).
Proof. intros H1 H2 H3 w. apply footprint_same; simpl; auto. Qed.

Lemma preserves_sg_member {A} (name : string) (member : Spectrogram.t -> A) :
  name ∈ read_members -> preserves (footprint P) (sg_member name member).
Proof.
  intros H w. split_and!.
  - apply grows_same. reflexivity.
  - apply (grows_snoc _ _ _ _ name); [reflexivity | exact H].
  - apply grows_same. reflexivity.
Qed.

Lemma preserves_spectrum_attr (s : Spectrum.t) (name : string) :
  name ∈ spectrum_members -> preserves (footprint P) (spectrum_attr s name).
Proof.
  intros H w. split_and!.
  - apply grows_same. reflexivity.
  - apply grows_same. reflexivity.
  - apply (grows_snoc _ _ _ _ name); [reflexivity | exact H].
Qed.

Lemma preserves_plot (ax : Axes) (x y : list float) (fmt : string) :
  preserves (footprint P) (plot ax x y fmt).
Proof. intros w. by apply footprint_same. Qed.

Lemma preserves_lines_remove (ax : Axes) (id : nat) :
  preserves (footprint P) (lines_remove ax id).
Proof.
  intros w. unfold lines_remove.
  destruct (Seq.remove _ _); by apply footprint_same.
Qed.

Lemma preserves_line_set (id : nat) (x y : list float) :
  preserves (footprint P) (line_set id x y).
Proof. intros w. by apply footprint_same. Qed.

Lemma preserves_lookup_global (name : string) :
  preserves (footprint P) (lookup_global name).
Proof. unfold lookup_global. destruct (bool_decide _); by apply preserves_pure. Qed.

End Footprint.

(** One step through a method body. *)
Ltac member_of_list :=
  apply (bool_decide_unpack _); vm_compute; exact I.

Ltac preserve_step :=
  lazymatch goal with
  | |- Props.preserves _ (mbind _ _) => apply preserves_bind; [| intros ?]
  | |- Props.preserves _ (let _ := _ in _) => cbv zeta
  | |- Props.preserves _ (if ?b then _ else _) => destruct b
  | |- Props.preserves _ (match ?x with _ => _ end) => destruct x
  | |- Props.preserves _ (try_except _ _ _) => apply preserves_try
  | |- Props.preserves _ (for_each _ _) => apply preserves_for_each; intros ?
  | |- Props.preserves _ (modify _) => apply preserves_modify; intros ?; reflexivity
  | |- Props.preserves _ (SpectrogramWidget.sg_member _ _) =>
      apply preserves_sg_member; member_of_list
  | |- Props.preserves _ (SpectrogramWidget.spectrum_attr _ _) =>
      apply preserves_spectrum_attr; member_of_list
  | |- Props.preserves _ (SpectrogramWidget.plot _ _ _ _) => apply preserves_plot
  | |- Props.preserves _ (SpectrogramWidget.lines_remove _ _) =>
      apply preserves_lines_remove
  | |- Props.preserves _ (SpectrogramWidget.line_set _ _ _) =>
      apply preserves_line_set
  | |- Props.preserves _ (SpectrogramWidget.lookup_global _) =>
      apply preserves_lookup_global
  | |- Props.preserves _ (mret _) => apply preserves_pure; intros ?; reflexivity
  | |- Props.preserves _ (ret _) => apply preserves_pure; intros ?; reflexivity
  | |- Props.preserves _ (raise _) => apply preserves_pure; intros ?; reflexivity
  | |- Props.preserves _ (lift _) => apply preserves_pure; intros ?; reflexivity
  | |- Props.preserves _ (gets _) => apply preserves_pure; intros ?; reflexivity
  end.

Create HintDb footprint.

Ltac preserve := repeat first [preserve_step | solve [auto with footprint]].

Section MethodFootprints.
Import SpectrogramWidget Props.
Variable E : Env.
Variable P : Roi.t -> Prop.

Lemma range_footprint (var : string) : preserves (footprint P) (range var).
Proof. unfold range. preserve. Qed.
#[local] Hint Resolve range_footprint : footprint.

Lemma range_of_footprint (var : string) : preserves (footprint P) (range_of var).
Proof. unfold range_of. preserve. Qed.
#[local] Hint Resolve range_of_footprint : footprint.

Lemma set_ylims_footprint : preserves (footprint P) set_ylims.
Proof. unfold set_ylims. preserve. Qed.
#[local] Hint Resolve set_ylims_footprint : footprint.

Lemma update_color_range_footprint : preserves (footprint P) update_color_range.
Proof. unfold update_color_range. preserve. Qed.
#[local] Hint Resolve update_color_range_footprint : footprint.

Lemma update_cmap_footprint : preserves (footprint P) (update_cmap E).
Proof. unfold update_cmap. preserve. Qed.
#[local] Hint Resolve update_cmap_footprint : footprint.

Lemma display_spectrogram_footprint : preserves (footprint P) (display_spectrogram E).
Proof. unfold display_spectrogram, sg_method. preserve. Qed.
#[local] Hint Resolve display_spectrogram_footprint : footprint.

Lemma update_spectrogram_footprint : preserves (footprint P) (update_spectrogram E).
Proof. unfold update_spectrogram. preserve. Qed.
#[local] Hint Resolve update_spectrogram_footprint : footprint.

Lemma update_velocity_range_footprint (info : option (list float * list float)) :
  preserves (footprint P) (update_velocity_range E info).
Proof. unfold update_velocity_range. preserve. Qed.

Lemma show_raw_signal_footprint (new : bool) :
  preserves (footprint P) (show_raw_signal E new).
Proof. unfold show_raw_signal. preserve. Qed.

Lemma overhaul_footprint (kwargs : list kwarg) :
  preserves (footprint P) (overhaul E kwargs).
Proof. unfold overhaul. preserve. Qed.

Lemma update_threshold_footprint (x : float) :
  preserves (footprint P) (update_threshold E x).
Proof. unfold update_threshold, sg_method. preserve. Qed.

Lemma clear_spectra_footprint : preserves (footprint P) clear_spectra.
Proof. unfold clear_spectra. preserve. Qed.
#[local] Hint Resolve clear_spectra_footprint : footprint.

Lemma clear_followers_footprint : preserves (footprint P) clear_followers.
Proof. unfold clear_followers. preserve. Qed.

Lemma follow_footprint (t : float) (v : option float) (action : string) :
  preserves (footprint P) (follow E t v action).
Proof. unfold follow. preserve. Qed.
#[local] Hint Resolve follow_footprint : footprint.

Lemma gauss_step_footprint vind tind acc (j : Z) :
  preserves (footprint P) (gauss_step E vind tind acc j).
Proof. unfold gauss_step. preserve. Qed.

Lemma gauss_loop_footprint vind tind (js : list Z) :
  forall acc, preserves (footprint P) (gauss_loop E vind tind acc js).
Proof.
  induction js as [|j js IH]; intros acc; simpl.
  - preserve.
  - apply preserves_bind; [apply gauss_step_footprint | intros ?; apply IH].
Qed.
#[local] Hint Resolve gauss_loop_footprint : footprint.

Lemma gauss_out_footprint (n : Z) : preserves (footprint P) (gauss_out E n).
Proof. unfold gauss_out. preserve. Qed.
#[local] Hint Resolve gauss_out_footprint : footprint.

Lemma analyze_roi_footprint : preserves (footprint P) analyze_roi.
Proof. unfold analyze_roi. preserve. Qed.
#[local] Hint Resolve analyze_roi_footprint : footprint.

Lemma fan_step_footprint vind tind vvec tvec ivec (n : Z) :
  preserves (footprint P) (fan_step E vind tind vvec tvec ivec n).
Proof. unfold fan_step. preserve. Qed.

Lemma fan_loop_footprint vind tind vvec tvec ivec (ns : list Z) :
  preserves (footprint P) (fan_loop E vind tind vvec tvec ivec ns).
Proof.
  induction ns as [|n ns IH]; simpl.
  - preserve.
  - apply preserves_bind; [apply fan_step_footprint | intros ?].
    apply preserves_bind; [apply IH | intros ?]. preserve.
Qed.
#[local] Hint Resolve fan_loop_footprint : footprint.

Lemma plot_track_footprint (x y : list float) :
  preserves (footprint P) (plot_track x y).
Proof. unfold plot_track. preserve. Qed.
#[local] Hint Resolve plot_track_footprint : footprint.

Lemma fan_out_footprint (n : Z) : preserves (footprint P) (fan_out E n).
Proof. unfold fan_out. preserve. Qed.

Lemma update_baselines_footprint (method : string) :
  preserves (footprint P) (update_baselines E method).
Proof. unfold update_baselines. preserve. Qed.

Lemma skip_baselines_footprint (fuel : nat) s ordering blines :
  forall n, preserves (footprint P) (skip_baselines fuel s ordering blines n).
Proof.
  induction fuel as [|fuel IH]; intros n; simpl.
  - preserve.
  - apply preserves_bind; [preserve | intros ?].
    apply preserves_bind; [preserve | intros ?].
    apply preserves_bind; [preserve | intros ?].
    destruct (Seq.contains _ _); [apply IH | preserve].
Qed.
#[local] Hint Resolve skip_baselines_footprint : footprint.

Lemma spectrum_footprint (the_time : option float) (form : string) :
  preserves (footprint P) (spectrum E the_time form).
Proof.
  unfold spectrum. destruct the_time; [|preserve].
  destruct (Seq.substring_of "dB" form); preserve.
Qed.
#[local] Hint Resolve spectrum_footprint : footprint.

Lemma handle_click_footprint (event : Event.t) :
  preserves (footprint P) (handle_click E event).
Proof. unfold handle_click, to_seconds, controls_item. preserve. Qed.

Lemma handle_key_footprint (event : Event.t) :
  preserves (footprint P) (handle_key E event).
Proof. unfold handle_key, to_seconds, in_digits. preserve. Qed.

Lemma make_controls_footprint (kwargs : list kwarg) :
  preserves (footprint P) (make_controls E kwargs).
Proof.
  unfold make_controls, dict_assign, RectangleSelector_new. preserve.
Qed.

End MethodFootprints.

#[local] Hint Resolve range_footprint range_of_footprint set_ylims_footprint
  update_color_range_footprint update_cmap_footprint
  display_spectrogram_footprint update_spectrogram_footprint
  update_velocity_range_footprint show_raw_signal_footprint overhaul_footprint
  update_threshold_footprint clear_spectra_footprint clear_followers_footprint
  follow_footprint gauss_out_footprint analyze_roi_footprint fan_out_footprint
  update_baselines_footprint spectrum_footprint handle_click_footprint
  handle_key_footprint make_controls_footprint : footprint.

(** ** Comparison of floats *)

Section FloatOrder.

Lemma SFcompare_antisym (x y : SpecFloat.spec_float) :
  SpecFloat.SFcompare y x = option_map CompOpp (SpecFloat.SFcompare x y).
Proof.
  destruct x as [sx|sx| |sx mx ex], y as [sy|sy| |sy my ey]; simpl;
    try reflexivity;
    try (destruct sx; reflexivity); try (destruct sy; reflexivity);
    try (destruct sx, sy; reflexivity).
  destruct sx, sy; simpl; try reflexivity.
  - pose proof (Pos.compare_cont_antisym mx my Eq) as A. simpl in A.
    rewrite (Z.compare_antisym ex ey). destruct (ex ?= ey)%Z; simpl; try reflexivity.
    rewrite <- A. by destruct (Pos.compare_cont Eq mx my).
  - pose proof (Pos.compare_cont_antisym mx my Eq) as A. simpl in A.
    rewrite (Z.compare_antisym ex ey). destruct (ex ?= ey)%Z; simpl; try reflexivity.
    by rewrite <- A.
Qed.

Lemma float_compare_number (a : float) :
  PrimFloat.is_nan a = false -> Prim2SF a <> SpecFloat.S754_nan.
Proof.
  unfold PrimFloat.is_nan. rewrite FloatAxioms.eqb_spec. intros H E. rewrite E in H.
  discriminate H.
Qed.

(** [a < b] gives [a <= b]. *)
Lemma float_lt_le (a b : float) :
  PrimFloat.ltb a b = true -> PrimFloat.leb a b = true.
Proof.
  rewrite FloatAxioms.ltb_spec, FloatAxioms.leb_spec. unfold SpecFloat.SFltb, SpecFloat.SFleb.
  by destruct (SpecFloat.SFcompare _ _) as [[]|].
Qed.

(** For numbers, [not (b < a)] gives [a <= b]. *)
Lemma float_not_lt_le (a b : float) :
  PrimFloat.is_nan a = false -> PrimFloat.is_nan b = false ->
  PrimFloat.ltb b a = false -> PrimFloat.leb a b = true.
Proof.
  intros Ha Hb. apply float_compare_number in Ha, Hb.
  rewrite FloatAxioms.ltb_spec, FloatAxioms.leb_spec. unfold SpecFloat.SFltb, SpecFloat.SFleb.
  rewrite (SFcompare_antisym (Prim2SF a) (Prim2SF b)).
  destruct (Prim2SF a) as [sx|sx| |sx mx ex] eqn:Ea, (Prim2SF b) as [sy|sy| |sy my ey] eqn:Eb;
    try done; simpl;
    try (destruct sx; done); try (destruct sy; done);
    try (destruct sx, sy; done).
  destruct sx, sy; simpl; try done.
  - destruct (ex ?= ey)%Z; simpl; try done.
    by destruct (Pos.compare_cont Eq mx my).
  - destruct (ex ?= ey)%Z; simpl; try done.
    by destruct (Pos.compare_cont Eq mx my).
Qed.

End FloatOrder.

(** ** The widget: the regions of interest and the reads, event by event *)

Section Events.
Import SpectrogramWidget Props.
Variable E : Env.

(** A selection with four coordinates appends one region, its pairs put in
    order. *)
Lemma RSelect_eq (w : Widget) (t0 t1 v0 v1 : float) (k k' : option string) :
  RSelect (Event.mk (Some t0) (Some v0) k) (Event.mk (Some t1) (Some v1) k') w
  = (Ret tt,
     set_roi
       (roi w
        ++ [Roi.mk (if PrimFloat.ltb t1 t0 then (t1, t0) else (t0, t1))
              (if PrimFloat.ltb v1 v0 then (v1, v0) else (v0, v1))]) w).
Proof.
  unfold RSelect, mbind, M_bind, bind, coordinate_lt, coordinate, modify. simpl.
  destruct (PrimFloat.ltb t1 t0), (PrimFloat.ltb v1 v0); reflexivity.
Qed.

Lemma ordered_pairs (t0 t1 v0 v1 : float) :
  PrimFloat.is_nan t0 = false -> PrimFloat.is_nan t1 = false ->
  PrimFloat.is_nan v0 = false -> PrimFloat.is_nan v1 = false ->
  ordered (Roi.mk (if PrimFloat.ltb t1 t0 then (t1, t0) else (t0, t1))
             (if PrimFloat.ltb v1 v0 then (v1, v0) else (v0, v1))).
Proof.
  intros Ht0 Ht1 Hv0 Hv1. split; simpl.
  - destruct (PrimFloat.ltb t1 t0) eqn:L; simpl.
    + by apply float_lt_le.
    + by apply float_not_lt_le.
  - destruct (PrimFloat.ltb v1 v0) eqn:L; simpl.
    + by apply float_lt_le.
    + by apply float_not_lt_le.
Qed.

(** Whatever the events carry, [RSelect] appends a region or raises before
    it changes anything. *)
Lemma RSelect_appends (P : Roi.t -> Prop) (eclick erelease : Event.t) :
  (forall t0 t1 v0 v1,
     Event.xdata eclick = Some t0 -> Event.xdata erelease = Some t1 ->
     Event.ydata eclick = Some v0 -> Event.ydata erelease = Some v1 ->
     P (Roi.mk (if PrimFloat.ltb t1 t0 then (t1, t0) else (t0, t1))
          (if PrimFloat.ltb v1 v0 then (v1, v0) else (v0, v1)))) ->
  preserves (footprint P) (RSelect eclick erelease).
Proof.
  intros HP w.
  destruct eclick as [[t0|] [v0|] k], erelease as [[t1|] [v1|] k'];
    try exact (footprint_refl P w).
  rewrite RSelect_eq. split_and!.
  - eapply grows_snoc; [reflexivity|]. by apply HP.
  - by apply grows_same.
  - by apply grows_same.
Qed.

Lemma dispatch_footprint (P : Roi.t -> Prop) (ev : GuiEvent) :
  (forall eclick erelease, ev = marquee_select eclick erelease ->
     preserves (footprint P) (RSelect eclick erelease)) ->
  preserves (footprint P) (dispatch E ev).
Proof.
  intros H. destruct ev; simpl; unfold do_update; preserve.
Qed.

Lemma dispatch_appends (ev : GuiEvent) :
  preserves (footprint (fun _ => True)) (dispatch E ev).
Proof.
  apply dispatch_footprint. intros c r _. by apply RSelect_appends.
Qed.

Lemma dispatch_ordered (ev : GuiEvent) :
  numeric ev -> preserves (footprint ordered) (dispatch E ev).
Proof.
  intros Hn. apply dispatch_footprint. intros c r ->.
  destruct Hn as (H1 & H2 & H3 & H4).
  apply RSelect_appends. intros t0 t1 v0 v1 E1 E2 E3 E4.
  rewrite E1 in H1. rewrite E2 in H3. rewrite E3 in H2. rewrite E4 in H4.
  simpl in *. apply negb_true_iff in H1, H2, H3, H4. by apply ordered_pairs.
Qed.

Lemma run_events_footprint (P : Roi.t -> Prop) (evs : list GuiEvent) :
  Forall (fun ev => preserves (footprint P) (dispatch E ev)) evs ->
  forall w, footprint P w (run_events E evs w).
Proof.
  unfold run_events. induction 1 as [|ev evs Hev _ IH]; intros w; simpl.
  - apply footprint_refl.
  - eapply footprint_trans; [apply Hev | apply IH].
Qed.

(** The constructor leaves no region of interest, and has read nothing but
    the members of [read_members]. *)
Lemma init_footprint (arg : digfile_arg) (kwargs : list kwarg) (w : Widget) :
  __init__ E arg kwargs = Ret w ->
  roi w = []
  /\ Forall (fun m => m ∈ read_members) (spectrogram_reads w)
  /\ Forall (fun m => m ∈ spectrum_members) (spectrum_reads w).
Proof.
  unfold __init__, obind. intros H.
  destruct (match arg with by_name n => _ | by_object d => _ end) as [df|];
    [|discriminate H].
  destruct (Spectrogram_new E df kwargs) as [sg|]; [|discriminate H].
  assert (F : preserves (footprint (fun _ => False))
                (spectrum E None "";; make_controls E kwargs;; update_spectrogram E))
    by preserve.
  specialize (F (new_widget df sg)).
  destruct ((spectrum E None "";; make_controls E kwargs;; update_spectrogram E)
              (new_widget df sg)) as [[u|e] w']; [|discriminate H].
  injection H as ->.
  destruct F as ((e1 & R1 & F1) & (e2 & R2 & F2) & (e3 & R3 & F3)). simpl in *.
  split_and!.
  - rewrite R1. by destruct F1.
  - by rewrite R2.
  - by rewrite R3.
Qed.

End Events.

Section Claims.
Import SpectrogramWidget Props.
Variable E : Env.

(** C7: whatever the direction of the drag, [RSelect] appends to [self.roi]
    a region whose time pair and velocity pair are in nondecreasing order;
    no callback of the widget, and not [fan_out], removes or reorders a
    region: [self.roi] only grows at its end; hence every region of
    [self.roi] is in order at all times, from the constructor on.  The
    coordinates of a marquee are numbers. *)
Theorem RSelect_keeps_roi_ordered (w : Widget) (t0 t1 v0 v1 : float)
    (k k' : option string)
    (Ht0 : PrimFloat.is_nan t0 = false) (Ht1 : PrimFloat.is_nan t1 = false)
    (Hv0 : PrimFloat.is_nan v0 = false) (Hv1 : PrimFloat.is_nan v1 = false) :
  (exists r,
     RSelect (Event.mk (Some t0) (Some v0) k) (Event.mk (Some t1) (Some v1) k') w
     = (Ret tt, set_roi (roi w ++ [r]) w)
     /\ ordered r)
  /\ (forall ev w0, exists ext, roi (snd (dispatch E ev w0)) = roi w0 ++ ext)
  /\ (forall n w0, roi (snd (fan_out E n w0)) = roi w0)
  /\ (forall arg kwargs evs,
        Forall numeric evs ->
        match __init__ E arg kwargs with
        | Ret w0 => Forall ordered (roi (run_events E evs w0))
        | Raise _ => True
        end).
Proof.
  split_and!.
  - eexists. split; [apply RSelect_eq | by apply ordered_pairs].
  - intros ev w0. destruct (dispatch_appends E ev w0) as ((ext & H & _) & _).
    by exists ext.
  - intros n w0.
    destruct (fan_out_footprint E (fun _ => False) n w0) as ((ext & H & F) & _).
    rewrite H. destruct F; [apply app_nil_r | done].
  - intros arg kwargs evs Hn.
    destruct (__init__ E arg kwargs) as [w0|] eqn:Hinit; [|done].
    apply init_footprint in Hinit as (Hroi & _).
    destruct (run_events_footprint E ordered evs) with (w := w0)
      as ((ext & H & F) & _).
    + eapply Forall_impl; [exact Hn|]. intros ev. apply dispatch_ordered.
    + by rewrite H, Hroi.
Qed.

(** C4, amended: every member of the spectrogram that the widget reads, in
    its constructor, in the callback of any event and in [fan_out], is one
    of [intensity], [velocity], [time], [slice], [set], [transform],
    [overlap], [v_max], [histogram_levels], [power] and
    [points_per_spectrum]. *)
Theorem spectrogram_members_read (w : Widget) (ev : GuiEvent) (n : Z)
    (arg : digfile_arg) (kwargs : list kwarg) (evs : list GuiEvent) :
  grows spectrogram_reads (fun m => m ∈ read_members) w (snd (dispatch E ev w))
  /\ grows spectrogram_reads (fun m => m ∈ read_members) w (snd (fan_out E n w))
  /\ match __init__ E arg kwargs with
     | Ret w0 =>
         Forall (fun m => m ∈ read_members) (spectrogram_reads (run_events E evs w0))
     | Raise _ => True
     end.
Proof.
  split_and!.
  - apply (dispatch_appends E ev w).
  - apply (fan_out_footprint E (fun _ => True) n w).
  - destruct (__init__ E arg kwargs) as [w0|] eqn:Hinit; [|done].
    apply init_footprint in Hinit as (_ & Hsg & _).
    destruct (run_events_footprint E (fun _ => True) evs) with (w := w0)
      as (_ & (ext & H & F) & _).
    + apply Forall_forall. intros ev' _. apply dispatch_appends.
    + rewrite H. apply Forall_app. by split.
Qed.

End Claims.

Lemma RSelect_keeps_roi_ordered_witness :
  exists r,
    SpectrogramWidget.RSelect (Demo.click 2 5) (Demo.click 1 3) Demo.widget
    = (Ret tt,
       SpectrogramWidget.set_roi
         (SpectrogramWidget.roi Demo.widget ++ [r]) Demo.widget)
    /\ Props.ordered r.
Proof.
  destruct (RSelect_keeps_roi_ordered Demo.env Demo.widget 2 1 5 3 None None
              eq_refl eq_refl eq_refl eq_refl) as [H _].
  exact H.
Defined.

(** Dragging from (2, 5) to (1, 3) stores the region from 1 to 2 and from 3
    to 5. *)
Example RSelect_drag_up_left :
  SpectrogramWidget.roi Demo.roi_widget
  = [SpectrogramWidget.Roi.mk (1, 2)%float (3, 5)%float].
Proof. vm_compute. reflexivity. Qed.

(** C4, as stated, fails: the constructor reads [overlap], which is not one
    of the six members the claim lists. *)
Lemma constructor_reads_overlap :
  ~ Forall (fun m => m ∈ Props.listed_members)
      (SpectrogramWidget.spectrogram_reads Demo.widget).
Proof.
  intros H. rewrite Forall_forall in H. specialize (H "overlap").
  assert (In : "overlap" ∈ SpectrogramWidget.spectrogram_reads Demo.widget)
    by member_of_list.
  apply H in In. apply (bool_decide_pack _) in In. vm_compute in In. exact In.
Qed.

(** Each of the eleven members is read: by the constructor, a click, a
    change of the noise floor, a change of the FFT size, and the key '0'
    once a peak is followed. *)
Example every_member_is_read :
  let w :=
    SpectrogramWidget.run_events Demo.env
      [SpectrogramWidget.button_press_event (Demo.click 1 50);
       SpectrogramWidget.threshold_change 1;
       SpectrogramWidget.spectrum_size_change 10;
       SpectrogramWidget.clicker_change "Peak";
       SpectrogramWidget.button_press_event (Demo.click 1 50);
       SpectrogramWidget.key_press_event (Demo.press "0")]
      Demo.widget in
  Forall (fun m => m ∈ SpectrogramWidget.spectrogram_reads w) Props.read_members.
Proof. cbv zeta. apply (bool_decide_unpack _). vm_compute. exact I. Qed.

(** ** The widget: what [spectrum] shows *)

Lemma mbind_run {S A B} (m : M S A) (k : A -> M S B) (s : S) :
  (m ≫= k) s
  = match m s with
    | (Ret a, s') => k a s'
    | (Raise e, s') => (Raise e, s')
    end.
Proof. reflexivity. Qed.

(** One statement of a body that has returned: its result [a], the state
    [w1] it left, and the equation [Hm] that says so. *)
Ltac returned_as H a w1 Hm :=
  lazymatch type of H with
  | @mbind _ _ _ _ ?k ?m ?w = (Ret _, _) =>
      let e := fresh "e" in
      rewrite (mbind_run m k w) in H;
      destruct (m w) as [[a|e] w1] eqn:Hm; [|discriminate H];
      cbv beta in H
  end.

(** The state that a primitive statement has left. *)
Ltac settled Hm :=
  lazymatch type of Hm with
  | SpectrogramWidget.sg_member _ _ _ = _ =>
      unfold SpectrogramWidget.sg_member in Hm; injection Hm as <- <-
  | gets _ _ = _ => unfold gets in Hm; injection Hm as <- <-
  | lift _ _ = _ => unfold lift in Hm; injection Hm as Hm <-
  | SpectrogramWidget.spectrum_attr _ _ _ = _ =>
      unfold SpectrogramWidget.spectrum_attr in Hm; injection Hm as Hm <-
  | SpectrogramWidget.plot _ _ _ _ _ = _ =>
      unfold SpectrogramWidget.plot in Hm; injection Hm as <- <-
  | modify _ _ = _ => unfold modify in Hm; injection Hm as _ <-
  | _ => idtac
  end.

Ltac returned H :=
  let a := fresh "a" in
  let w1 := fresh "w" in
  let Hm := fresh "Hm" in
  returned_as H a w1 Hm; settled Hm.

Section Shown.
Import SpectrogramWidget Props.
Variable E : Env.

(** The body of the loop that replots the spectra. *)
#[local] Abbreviation replot field :=
  (fun spec : Spec.t =>
     spectrum_attr (Spec.spectrum spec) field
     ≫= (fun x : list float =>
           spectrum_attr (Spec.spectrum spec) "velocities"
           ≫= (fun y : list float => line_set (Spec.line spec) x y))).

Lemma set_spectrum_reads_same (w : Widget) :
  w = set_spectrum_reads (spectrum_reads w) w.
Proof. by destruct w. Qed.

(** Skipping the baselines changes nothing but the record of reads. *)
Lemma skip_baselines_frame (fuel : nat) (s : Spectrum.t) (ordering : list Z)
    (blines : list float) :
  forall n w o w1,
    skip_baselines fuel s ordering blines n w = (o, w1) ->
    exists l, w1 = set_spectrum_reads l w.
Proof.
  induction fuel as [|fuel IH]; intros n w o w1 H; simpl in H.
  - injection H as _ <-. eexists. apply set_spectrum_reads_same.
  - unfold mbind, M_bind, bind, spectrum_attr, lift in H. simpl in H.
    destruct (Seq.index ordering n) as [i|]; [|injection H as _ <-; by eexists].
    destruct (Seq.index (Spectrum.velocities s) i) as [x|];
      [|injection H as _ <-; by eexists].
    destruct (Seq.contains x blines).
    + apply IH in H as [l ->]. by exists l.
    + injection H as _ <-. by eexists.
Qed.

Lemma for_each_snoc {S A} (l : list A) (x : A) (body : A -> M S unit) (s : S) :
  for_each (l ++ [x]) body s = bind (for_each l body) (fun _ => body x) s.
Proof.
  revert s. induction l as [|y l IH]; intros s; simpl.
  - unfold bind, ret. by destruct (body x s) as [[[]|e] s1].
  - unfold bind in *. destruct (body y s) as [[u|e] s1]; [apply IH | done].
Qed.

(** Replotting leaves the spectra and the axes as they are; every line
    stays, in its colour. *)
Lemma replot_frame (field : string) (l : list Spec.t) :
  forall w o w1,
    for_each l (replot field) w = (o, w1) ->
    spectra w1 = spectra w
    /\ axSpectrum (canvas w1) = axSpectrum (canvas w)
    /\ forall id ln, objects (canvas w) !! id = Some ln ->
          exists ln', objects (canvas w1) !! id = Some ln'
                      /\ Line2D.fmt ln' = Line2D.fmt ln.
Proof.
  induction l as [|s l IH]; intros w o w1 H; simpl in H.
  - injection H as _ <-. split_and!; try done. intros id ln Hid. by exists ln.
  - unfold bind at 1, mbind, M_bind, bind, spectrum_attr, line_set, modify in H.
    simpl in H.
    destruct (Spectrum.getattr (Spec.spectrum s) field) as [x|];
      [|injection H as _ <-; split_and!; try done;
        intros id ln Hid; by exists ln].
    apply IH in H as (H1 & H2 & H3). simpl in *. split_and!; try done.
    intros id ln Hid.
    destruct (decide (Spec.line s = id)) as [<-|Hne].
    + destruct (H3 (Spec.line s)
                  (Line2D.mk x (Spectrum.velocities (Spec.spectrum s))
                     (Line2D.fmt ln))) as (ln' & Hln' & Hfmt).
      * by rewrite lookup_alter_eq, Hid.
      * by exists ln'.
    + apply H3. by rewrite lookup_alter_ne.
Qed.

(** After the loop has replotted a list of spectra, the line of the last
    one shows its field against its velocities, in the colour it had. *)
Lemma replot_last (field : string) (l : list Spec.t) (s : Spec.t)
    (w w1 : Widget) (u : unit) (xs : list float) (ln : Line2D.t) :
  Spectrum.getattr (Spec.spectrum s) field = Ret xs ->
  objects (canvas w) !! Spec.line s = Some ln ->
  for_each (l ++ [s]) (replot field) w = (Ret u, w1) ->
  spectra w1 = spectra w
  /\ axSpectrum (canvas w1) = axSpectrum (canvas w)
  /\ objects (canvas w1) !! Spec.line s
     = Some (Line2D.mk xs (Spectrum.velocities (Spec.spectrum s))
               (Line2D.fmt ln)).
Proof.
  intros Hx Hs H. rewrite for_each_snoc in H. unfold bind at 1 in H.
  destruct (for_each l (replot field) w) as [[u'|e] w0] eqn:Hl; [|done].
  apply replot_frame in Hl as (H1 & H2 & H3).
  unfold mbind, M_bind, bind, spectrum_attr, line_set, modify in H.
  rewrite Hx in H. simpl in H. injection H as _ <-. simpl.
  split_and!; try done.
  destruct (H3 _ _ Hs) as (ln' & Hln' & Hfmt).
  by rewrite lookup_alter_eq, Hln', <- Hfmt.
Qed.

Lemma getattr_selected (form : string) (s : Spectrum.t) :
  Spectrum.getattr s (if Seq.substring_of "dB" form then "db" else "power")
  = Ret (shown_field form s).
Proof.
  unfold shown_field, Spectrum.getattr.
  by destruct (Seq.substring_of "dB" form).
Qed.

(** C6: every attribute of a [Spectrum] that the widget reads, in the
    callback of any event and from its constructor on, is one of [db],
    [power] and [velocities]; and a call of [spectrum] that returns has
    returned 0 and has shown the spectrum of the samples around the time
    asked for.  The samples are those of the digitizer file from
    [the_time - delta_t] to [the_time + delta_t], where [delta_t] is half
    the points of a spectrum times the sampling interval; the spectrum is
    the [Spectrum] built from them; it is the spectrum of the one entry
    appended to [self.spectra]; the line of that entry is a new line, the
    last of [axSpectrum], and it shows the field of that spectrum that the
    form selects ([db] when the form contains "dB", [power] otherwise)
    against its [velocities], in the colour of its position in
    [_colors]. *)
Theorem spectrum_shows_selected_field (w : Widget) (the_time : float)
    (form : string) (v : retval) (w' : Widget)
    (H : spectrum E (Some the_time) form w = (Ret v, w')) :
  (forall ev w0,
     grows spectrum_reads (fun m => m ∈ spectrum_members) w0
       (snd (dispatch E ev w0)))
  /\ (forall arg kwargs evs,
        match __init__ E arg kwargs with
        | Ret w0 =>
            Forall (fun m => m ∈ spectrum_members)
              (spectrum_reads (run_events E evs w0))
        | Raise _ => True
        end)
  /\ v = VInt 0
  /\ exists samples the_spectrum color s,
       DigFile_values E (digfile w)
         (PrimFloat.sub the_time
            (PrimFloat.mul
               (PrimFloat.div
                  (float_of_Z (Spectrogram.points_per_spectrum (spectrogram w)))
                  2)
               (DigFile.dt (digfile w))))
         (PrimFloat.add the_time
            (PrimFloat.mul
               (PrimFloat.div
                  (float_of_Z (Spectrogram.points_per_spectrum (spectrogram w)))
                  2)
               (DigFile.dt (digfile w))))
       = Ret samples
       /\ Spectrum_new E samples (DigFile.dt (digfile w)) = Ret the_spectrum
       /\ Seq.index _colors (Seq.len (spectra w)) = Ret color
       /\ spectra w' = spectra w ++ [s]
       /\ Spec.spectrum s = the_spectrum
       /\ Spec.line s = fresh (canvas w)
       /\ axSpectrum (canvas w') = axSpectrum (canvas w) ++ [Spec.line s]
       /\ objects (canvas w') !! Spec.line s
          = Some (Line2D.mk (shown_field form the_spectrum)
                    (Spectrum.velocities the_spectrum) color).
Proof.
  split; [intros ev w0; apply (dispatch_appends E ev w0)|].
  split.
  { intros arg kwargs evs.
    destruct (__init__ E arg kwargs) as [w0|] eqn:Hinit; [|done].
    apply init_footprint in Hinit as (_ & _ & Hs).
    destruct (run_events_footprint E (fun _ => True) evs) with (w := w0)
      as (_ & _ & (ext & Hext & F)).
    - apply Forall_forall. intros ev' _. apply dispatch_appends.
    - rewrite Hext. apply Forall_app. by split. }
  unfold spectrum in H. cbv zeta in H.
  do 2 returned H.
  returned_as H samples w2 Hsamples.
  unfold lift in Hsamples. injection Hsamples as Hsamples <-.
  returned_as H sp w3 Hsp. unfold lift in Hsp. injection Hsp as Hsp <-.
  do 2 returned H.
  returned_as H n w0 Hn.
  assert (Hw0 : exists l, w0 = set_spectrum_reads l
                 (set_spectrogram_reads
                    (spectrogram_reads w ++ ["points_per_spectrum"]) w)).
  { destruct (baselines w) as [|b bs].
    - injection Hn as _ <-. by eexists.
    - apply skip_baselines_frame in Hn as [rd ->]. by exists rd. }
  destruct Hw0 as [l0 ->]. clear Hn.
  returned H.
  returned_as H smax w4 Hsmax. unfold lift in Hsmax. injection Hsmax as _ <-.
  do 2 returned H.
  returned_as H s90 w5 Hs90. unfold lift in Hs90. injection Hs90 as _ <-.
  returned_as H xs w1 Hxs. settled Hxs.
  rewrite getattr_selected in Hxs. injection Hxs as <-.
  returned_as H ys w6 Hys. settled Hys. subst ys.
  returned H.
  returned_as H color w7 Hcolor. unfold lift in Hcolor.
  injection Hcolor as Hcolor <-. simpl in Hcolor.
  do 6 returned H.
  match type of H with
  | _ ?W = _ => remember W as W0 eqn:HW0
  end.
  set (s := Spec.mk sp smax s90 (fresh (canvas w)) (S (fresh (canvas w)))) in *.
  assert (F1 : spectra W0 = spectra w ++ [s]) by (by subst W0).
  assert (F2 : axSpectrum (canvas W0) = axSpectrum (canvas w) ++ [Spec.line s])
    by (by subst W0).
  assert (F3 : objects (canvas W0) !! Spec.line s
               = Some (Line2D.mk (shown_field form sp)
                         (Spectrum.velocities sp) color)).
  { subst W0. simpl. rewrite lookup_insert_ne by lia. apply lookup_insert_eq. }
  clear HW0.
  returned H.
  returned_as H u W1 Hre.
  assert (G : spectra W1 = spectra W0
              /\ axSpectrum (canvas W1) = axSpectrum (canvas W0)
              /\ objects (canvas W1) !! Spec.line s
                 = Some (Line2D.mk (shown_field form sp)
                           (Spectrum.velocities sp) color)).
  { destruct (negb _).
    - do 2 returned Hre. simpl in Hre. rewrite F1 in Hre.
      lazymatch type of Hre with
      | for_each _ _ ?W = _ =>
          apply (replot_last _ _ s W _ _ (shown_field form sp) _
                   (getattr_selected form sp) F3) in Hre
      end.
      exact Hre.
    - injection Hre as _ <-. split_and!; done. }
  clear Hre. destruct G as (G1 & G2 & G3).
  returned_as H u2 W2 Hlim.
  assert (W2 = W1) as ->.
  { destruct (Seq.substring_of "dB" form).
    - do 3 returned Hlim. by injection Hlim as _ <-.
    - by injection Hlim as _ <-. }
  injection H as <- <-.
  split; [done|]. exists samples, sp, color, s. split_and!; try done.
  - by rewrite G1.
  - by rewrite G2, F2.
Qed.

End Shown.

Lemma spectrum_shows_selected_field_witness :
  exists samples the_spectrum color s,
    DigFile_values Demo.env (SpectrogramWidget.digfile Demo.widget)
      (PrimFloat.sub 0x1p-20
         (PrimFloat.mul
            (PrimFloat.div
               (float_of_Z
                  (Spectrogram.points_per_spectrum
                     (SpectrogramWidget.spectrogram Demo.widget)))
               2)
            (DigFile.dt (SpectrogramWidget.digfile Demo.widget))))
      (PrimFloat.add 0x1p-20
         (PrimFloat.mul
            (PrimFloat.div
               (float_of_Z
                  (Spectrogram.points_per_spectrum
                     (SpectrogramWidget.spectrogram Demo.widget)))
               2)
            (DigFile.dt (SpectrogramWidget.digfile Demo.widget))))
    = Ret samples
    /\ Spectrum_new Demo.env samples
         (DigFile.dt (SpectrogramWidget.digfile Demo.widget))
       = Ret the_spectrum
    /\ Seq.index SpectrogramWidget._colors
         (Seq.len (SpectrogramWidget.spectra Demo.widget))
       = Ret color
    /\ SpectrogramWidget.spectra Demo.power_shown
       = SpectrogramWidget.spectra Demo.widget ++ [s]
    /\ SpectrogramWidget.Spec.spectrum s = the_spectrum
    /\ SpectrogramWidget.Spec.line s
       = SpectrogramWidget.fresh (SpectrogramWidget.canvas Demo.widget)
    /\ SpectrogramWidget.axSpectrum (SpectrogramWidget.canvas Demo.power_shown)
       = SpectrogramWidget.axSpectrum (SpectrogramWidget.canvas Demo.widget)
         ++ [SpectrogramWidget.Spec.line s]
    /\ SpectrogramWidget.objects (SpectrogramWidget.canvas Demo.power_shown)
       !! SpectrogramWidget.Spec.line s
       = Some (Line2D.mk (Props.shown_field "Spectrum" the_spectrum)
                 (Spectrum.velocities the_spectrum) color).
Proof.
  destruct (spectrum_shows_selected_field Demo.env Demo.widget 0x1p-20%float
              "Spectrum" (VInt 0) Demo.power_shown) as (_ & _ & _ & H).
  - vm_compute. reflexivity.
  - exact H.
Defined.

(** The line of a click depends on the mode.  In the mode "Spectrum" it
    shows the power of the spectrum against the velocities, in the mode
    "Spectrum (dB)" its [db]; the line is the first one after the three
    handles of the rectangle selector, in red. *)
Example spectrum_power_line :
  SpectrogramWidget.objects (SpectrogramWidget.canvas Demo.power_shown) !! 3%nat
  = Some (Line2D.mk [10; 30; 20]%float [0; 50; 100]%float "r")
  /\ SpectrogramWidget.objects
       (SpectrogramWidget.canvas
          (snd (SpectrogramWidget.spectrum Demo.env (Some 0x1p-20%float)
                  "Spectrum (dB)" Demo.widget))) !! 3%nat
     = Some (Line2D.mk [1; 3; 2]%float [0; 50; 100]%float "r").
Proof. vm_compute. split; reflexivity. Qed.

(** * Further properties *)

(** ** The template image export script, continued *)

Section ScriptEdges.
Import TemplateScript Props.

Lemma common_prefix_len_app (a b : list string) :
  common_prefix_len a (a ++ b) = length a.
Proof.
  induction a as [|x a IH]; simpl; [by destruct b|].
  by rewrite String.eqb_refl, IH.
Qed.

(** X1: the import of the script with the directory of the script as
    working directory.  When an import at the head of the script raises,
    the import of the script raises the same.  When they succeed, the
    script raises [FileNotFoundError] at its first [os.chdir], whatever the
    templates: the directory part of the relative path of the script is the
    empty string.  Either way nothing is written and the working directory
    stays. *)
Theorem import_fails_in_script_directory (I : Interpreter) (fs : FS) :
  import_module I (cwd fs) fs
  = (Raise match imports I with
           | Ret _ => FileNotFoundError
           | Raise e => e
           end, fs).
Proof.
  destruct (imports I) as [Templates|e] eqn:Himports.
  - rewrite (import_module_imported I Templates) by done.
    rewrite module_body_unfold.
    unfold os_path_relpath, __file__. rewrite common_prefix_len_app.
    rewrite Nat.sub_diag, drop_app_length. reflexivity.
  - by apply import_module_not_imported.
Qed.

(** X2: called on its own, [saveAllTemplateImages] writes into the working
    directory and nowhere else: it returns, it does not move, every path it
    writes is the image name of a template directly in the working
    directory, and every other path keeps what it held. *)
Theorem saveAllTemplateImages_writes_in_cwd (Templates : list Template) (fs : FS) :
  let r := saveAllTemplateImages Templates fs in
  fst r = Ret tt
  /\ cwd (snd r) = cwd fs
  /\ dirs (snd r) = dirs fs
  /\ Forall (fun p => exists x, x ∈ Templates /\ p = cwd fs ++ [image_name x])
       (written fs (snd r))
  /\ (forall p, (forall x, x ∈ Templates -> p <> cwd fs ++ [image_name x]) ->
        files (snd r) !! p = files fs !! p).
Proof.
  destruct (saveAllTemplateImages_spec Templates fs)
    as (fs' & new & Hrun & Hc & Hd & Hl & Hn & Hin & Hout & Hnew).
  simpl. rewrite Hrun. simpl.
  assert (Hw : written fs fs' = new).
  { unfold written. rewrite Hl. apply drop_app_length. }
  rewrite Hw. split_and!; try done.
  - apply Forall_forall. intros p Hp. apply Hin in Hp as (_ & x & Hx & ->). eauto.
  - intros p Hp. apply Hout. intros Hm. apply Hin in Hm as (_ & x & Hx & ->).
    by apply (Hp x).
Qed.

End ScriptEdges.

(** ** The widget: frames *)

Section FrameRules.
Import SpectrogramWidget Props.
Variable R : Widget -> Widget -> Prop.
Hypothesis R_refl : forall w, R w w.
Hypothesis R_trans : forall w1 w2 w3, R w1 w2 -> R w2 w3 -> R w1 w3.

Lemma frame_pure {A} (m : M Widget A) :
  (forall w, snd (m w) = w) -> preserves R m.
Proof. intros H w. rewrite H. apply R_refl. Qed.

Lemma frame_bind {A B} (m : M Widget A) (k : A -> M Widget B) :
  preserves R m -> (forall a, preserves R (k a)) -> preserves R (m ≫= k).
Proof.
  intros Hm Hk w. rewrite mbind_run. specialize (Hm w).
  destruct (m w) as [[a|e] w1]; simpl in *; [|done].
  eapply R_trans; [exact Hm | apply Hk].
Qed.

Lemma frame_try {A} (body handler : M Widget A) (catches : exn -> bool) :
  preserves R body -> preserves R handler ->
  preserves R (try_except body catches handler).
Proof.
  intros Hb Hh w. unfold try_except. specialize (Hb w).
  destruct (body w) as [[a|e] w1]; simpl in *; [done|].
  destruct (catches e); [|done].
  eapply R_trans; [exact Hb | apply Hh].
Qed.

Lemma frame_for_each {A} (l : list A) (body : A -> M Widget unit) :
  (forall x, preserves R (body x)) -> preserves R (for_each l body).
Proof.
  intros H. induction l as [|x l IH]; simpl.
  - by apply frame_pure.
  - apply (frame_bind (body x) (fun _ => for_each l body)); [apply H | done].
Qed.

End FrameRules.

Lemma unchanged_refl {X} (p : SpectrogramWidget.Widget -> X) w :
  Frames.unchanged p w w.
Proof. reflexivity. Qed.

Lemma unchanged_trans {X} (p : SpectrogramWidget.Widget -> X) w1 w2 w3 :
  Frames.unchanged p w1 w2 -> Frames.unchanged p w2 w3 -> Frames.unchanged p w1 w3.
Proof. unfold Frames.unchanged. congruence. Qed.

Lemma keeping_refl (I : SpectrogramWidget.Widget -> Prop) w : Frames.keeping I w w.
Proof. by intros H. Qed.

Lemma keeping_trans (I : SpectrogramWidget.Widget -> Prop) w1 w2 w3 :
  Frames.keeping I w1 w2 -> Frames.keeping I w2 w3 -> Frames.keeping I w1 w3.
Proof. unfold Frames.keeping. auto. Qed.

(** What is unchanged is kept. *)
Lemma keeping_unchanged {A X} (p : SpectrogramWidget.Widget -> X)
    (I : SpectrogramWidget.Widget -> Prop) (m : M SpectrogramWidget.Widget A) :
  (forall w w', p w' = p w -> I w -> I w') ->
  Props.preserves (Frames.unchanged p) m -> Props.preserves (Frames.keeping I) m.
Proof. intros H Hm w Hw. apply (H w); [apply Hm | exact Hw]. Qed.

Lemma lines_kept_refl (w : SpectrogramWidget.Widget) : Frames.lines_kept w w.
Proof. split_and!; reflexivity. Qed.

Lemma lines_kept_trans (w1 w2 w3 : SpectrogramWidget.Widget) :
  Frames.lines_kept w1 w2 -> Frames.lines_kept w2 w3 -> Frames.lines_kept w1 w3.
Proof.
  intros (P1 & F1 & B1) (P2 & F2 & B2).
  split_and!; [by etrans | by etrans | congruence].
Qed.

Create HintDb frames.

(** The rules of the two kinds of relation. *)
Ltac frame_refl :=
  first [exact (unchanged_refl _) | exact (keeping_refl _) | exact lines_kept_refl].
Ltac frame_trans :=
  first [exact (unchanged_trans _) | exact (keeping_trans _) | exact lines_kept_trans].

(** One step through a body. *)
Ltac frame_step :=
  lazymatch goal with
  | |- Props.preserves ?R (mbind _ _) =>
      apply (frame_bind R); [frame_trans | | intros ?]
  | |- Props.preserves _ (let _ := _ in _) => cbv zeta
  | |- Props.preserves _ (if ?b then _ else _) => destruct b
  | |- Props.preserves _ (match ?x with _ => _ end) => destruct x
  | |- Props.preserves ?R (try_except _ _ _) =>
      apply (frame_try R); [frame_trans | |]
  | |- Props.preserves ?R (for_each _ _) =>
      apply (frame_for_each R); [frame_refl | frame_trans | intros ?]
  end.

(** A statement that leaves the part as it is, by computation. *)
Ltac untouched :=
  let w := fresh "w" in
  intros w; unfold Frames.unchanged;
  try (unfold SpectrogramWidget.lines_remove; destruct (Seq.remove _ _));
  try (unfold SpectrogramWidget.lookup_global; destruct (bool_decide _));
  reflexivity.

Ltac frame_unchanged :=
  repeat first [frame_step | solve [auto with frames] | solve [untouched]].

Section DisplayFrames.
Import SpectrogramWidget Props Frames.
Variable E : Env.

Lemma range_data (var : string) : preserves (unchanged data) (range var).
Proof. unfold range. frame_unchanged. Qed.
#[local] Hint Resolve range_data : frames.

Lemma range_of_data (var : string) : preserves (unchanged data) (range_of var).
Proof. unfold range_of. frame_unchanged. Qed.
#[local] Hint Resolve range_of_data : frames.

Lemma set_ylims_data : preserves (unchanged data) set_ylims.
Proof. unfold set_ylims. frame_unchanged. Qed.
#[local] Hint Resolve set_ylims_data : frames.

Lemma update_color_range_data : preserves (unchanged data) update_color_range.
Proof. unfold update_color_range. frame_unchanged. Qed.
#[local] Hint Resolve update_color_range_data : frames.

Lemma update_cmap_data : preserves (unchanged data) (update_cmap E).
Proof. unfold update_cmap. frame_unchanged. Qed.
#[local] Hint Resolve update_cmap_data : frames.

Lemma display_spectrogram_data : preserves (unchanged data) (display_spectrogram E).
Proof. unfold display_spectrogram. frame_unchanged. Qed.
#[local] Hint Resolve display_spectrogram_data : frames.

Lemma update_spectrogram_data : preserves (unchanged data) (update_spectrogram E).
Proof. unfold update_spectrogram. frame_unchanged. Qed.
#[local] Hint Resolve update_spectrogram_data : frames.

Lemma update_velocity_range_data info :
  preserves (unchanged data) (update_velocity_range E info).
Proof. unfold update_velocity_range. frame_unchanged. Qed.

Lemma overhaul_data kwargs : preserves (unchanged data) (overhaul E kwargs).
Proof. unfold overhaul. frame_unchanged. Qed.

Lemma update_threshold_data x : preserves (unchanged data) (update_threshold E x).
Proof. unfold update_threshold. frame_unchanged. Qed.

Lemma make_controls_named kwargs :
  preserves (unchanged named) (make_controls E kwargs).
Proof.
  unfold make_controls, dict_assign, RectangleSelector_new. frame_unchanged.
Qed.

End DisplayFrames.

#[local] Hint Resolve range_data range_of_data set_ylims_data
  update_color_range_data update_cmap_data display_spectrogram_data
  update_spectrogram_data update_velocity_range_data overhaul_data
  update_threshold_data : frames.

(** ** The widget: selections and keys *)

Section SelectionsAndKeys.
Import SpectrogramWidget Props Frames.
Variable E : Env.

(** X3: when either event of a selection lacks a coordinate (the pointer
    was outside the axes), [RSelect] raises [TypeError] and appends
    nothing. *)
Theorem RSelect_without_coordinate (w : Widget) (eclick erelease : Event.t)
    (H : Event.xdata eclick = None \/ Event.ydata eclick = None
         \/ Event.xdata erelease = None \/ Event.ydata erelease = None) :
  RSelect eclick erelease w = (Raise TypeError, w).
Proof.
  destruct eclick as [[t0|] [v0|] k], erelease as [[t1|] [v1|] k'];
    try reflexivity.
  simpl in H. by destruct H as [H|[H|[H|H]]].
Qed.

Lemma float_lt_asym (a b : float) :
  PrimFloat.ltb a b = true -> PrimFloat.ltb b a = false.
Proof.
  rewrite !FloatAxioms.ltb_spec. unfold SpecFloat.SFltb.
  rewrite (SFcompare_antisym (Prim2SF a) (Prim2SF b)).
  by destruct (SpecFloat.SFcompare _ _) as [[]|].
Qed.

(** X4: a rectangle is stored the same from whichever corner the drag
    starts: for [a < b] and [c < d], the four drags between opposite corners
    all append the region with time [(a, b)] and velocity [(c, d)]. *)
Theorem RSelect_any_corner (w : Widget) (a b c d : float)
    (k k' : option string)
    (Hab : PrimFloat.ltb a b = true) (Hcd : PrimFloat.ltb c d = true) :
  let stored := (Ret tt, set_roi (roi w ++ [Roi.mk (a, b) (c, d)]) w) in
  RSelect (Event.mk (Some a) (Some c) k) (Event.mk (Some b) (Some d) k') w = stored
  /\ RSelect (Event.mk (Some b) (Some d) k) (Event.mk (Some a) (Some c) k') w = stored
  /\ RSelect (Event.mk (Some a) (Some d) k) (Event.mk (Some b) (Some c) k') w = stored
  /\ RSelect (Event.mk (Some b) (Some c) k) (Event.mk (Some a) (Some d) k') w = stored.
Proof.
  pose proof (float_lt_asym _ _ Hab) as Hba.
  pose proof (float_lt_asym _ _ Hcd) as Hdc.
  simpl. rewrite !RSelect_eq, Hab, Hcd, Hba, Hdc. done.
Qed.

(** X5: a key that is not 'x', 'm', 'M', 'a' or 'A' and does not occur in
    "0123456789" is ignored: [handle_key] returns [None] and the widget is
    as it was. *)
Theorem handle_key_ignores_other_keys (w : Widget) (x y : option float) (c : string)
    (Hx : c <> "x") (Hm : c <> "m") (HM : c <> "M")
    (Ha : c <> "a") (HA : c <> "A")
    (Hd : Seq.substring_of c "0123456789" = false) :
  handle_key E (Event.mk x y (Some c)) w = (Ret VNone, w).
Proof.
  unfold handle_key, in_digits. simpl Event.key.
  rewrite !bool_decide_eq_false_2 by congruence. rewrite Hd.
  destruct x; reflexivity.
Qed.


Lemma show_raw_signal_off_run (w : Widget) :
  show_raw_signal E false w
  = (Ret tt,
     match raw w with
     | None => w
     | Some id =>
         match Seq.remove (axSpectrogram (canvas w)) id with
         | Ret l => set_raw None (set_canvas (set_axSpectrogram l (canvas w)) w)
         | Raise _ => w
         end
     end).
Proof.
  unfold show_raw_signal, try_except. rewrite mbind_run. simpl.
  destruct (raw w) as [id|]; [|done].
  rewrite mbind_run. unfold lines_remove. simpl.
  by destruct (Seq.remove _ _).
Qed.

(** X7: switching the thumbnail off never raises.  Without a thumbnail, or
    with one that is not a line of [axSpectrogram], nothing changes;
    otherwise the line is removed and [self.raw] is [None]: the lines of
    [axSpectrogram] never grow and [self.raw] is [None] or as it was. *)
Theorem show_raw_signal_off_never_raises (w : Widget) :
  let w' := snd (show_raw_signal E false w) in
  fst (show_raw_signal E false w) = Ret tt
  /\ (w' = w
      \/ exists id l,
           raw w = Some id
           /\ Seq.remove (axSpectrogram (canvas w)) id = Ret l
           /\ w' = set_raw None (set_canvas (set_axSpectrogram l (canvas w)) w)).
Proof.
  cbv zeta. rewrite show_raw_signal_off_run. split; [reflexivity|].
  cbn [snd]. destruct (raw w) as [id|]; [|by left].
  destruct (Seq.remove _ id) as [l|] eqn:Hl; [|by left].
  right. by exists id, l.
Qed.

Lemma index_beyond {A} (l : list A) (i : Z) :
  0 <= i -> Seq.len l <= i -> Seq.index l i = Raise IndexError.
Proof.
  intros H0 H1. unfold Seq.index, Seq.len in *.
  destruct (i <? 0) eqn:E1; [lia|]. cbv zeta. rewrite E1.
  rewrite lookup_ge_None_2; [reflexivity|]. lia.
Qed.

(** X9: a noise floor beyond the histogram levels: [update_threshold]
    raises [IndexError] after it has read [histogram_levels]; the threshold
    and the image are as they were and the spectrogram is not sliced
    again. *)
Theorem update_threshold_out_of_range (w : Widget) (x : float) (n : Z)
    (Hint : Seq.int_of_float x = Ret n)
    (Hpos : 0 < n)
    (Hlen : Seq.len (Spectrogram.histogram_levels (spectrogram w)) <= n) :
  update_threshold E x w
  = (Raise IndexError,
     set_spectrogram_reads (spectrogram_reads w ++ ["histogram_levels"]) w).
Proof.
  unfold update_threshold. rewrite mbind_run. unfold lift at 1. rewrite Hint.
  rewrite mbind_run. destruct (n =? 0) eqn:E0; [lia|].
  rewrite mbind_run. unfold sg_member. rewrite mbind_run.
  unfold lift at 1. rewrite index_beyond by lia. reflexivity.
Qed.

End SelectionsAndKeys.

Lemma RSelect_without_coordinate_witness :
  SpectrogramWidget.RSelect (Demo.click 1 3) (Demo.press "m") Demo.widget
  = (Raise TypeError, Demo.widget).
Proof.
  apply RSelect_without_coordinate. right. right. left. reflexivity.
Defined.

Lemma RSelect_any_corner_witness :
  SpectrogramWidget.RSelect (Demo.click 2 5) (Demo.click 1 3) Demo.widget
  = (Ret tt,
     SpectrogramWidget.set_roi
       (SpectrogramWidget.roi Demo.widget
        ++ [SpectrogramWidget.Roi.mk (1, 2)%float (3, 5)%float]) Demo.widget).
Proof.
  destruct (RSelect_any_corner Demo.widget 1 2 3 5 None None eq_refl eq_refl)
    as (_ & H & _).
  exact H.
Defined.

Lemma handle_key_ignores_other_keys_witness :
  SpectrogramWidget.handle_key Demo.env (Demo.press "enter") Demo.widget
  = (Ret VNone, Demo.widget).
Proof.
  apply handle_key_ignores_other_keys; try discriminate. reflexivity.
Defined.

Lemma update_threshold_out_of_range_witness :
  fst (SpectrogramWidget.update_threshold Demo.env 5 Demo.widget)
  = Raise IndexError.
Proof.
  rewrite (update_threshold_out_of_range Demo.env Demo.widget 5 5).
  - reflexivity.
  - vm_compute. reflexivity.
  - reflexivity.
  - vm_compute. discriminate.
Defined.

(** ** The widget: what the controls leave alone *)

Section DisplayEvents.
Import SpectrogramWidget Props Frames.
Variable E : Env.

Lemma dispatch_display_data (ev : GuiEvent) :
  display_event ev = true -> preserves (unchanged data) (dispatch E ev).
Proof.
  destruct ev; try discriminate; intros _; unfold dispatch, do_update;
    frame_unchanged.
Qed.

(** X8: the sliders and the two menus only redraw.  Whatever sequence of
    changes of the spectrum size, the overlap, the three ranges, the noise
    floor, the colour map and the click mode the user makes, and whether or
    not a callback raises on the way, the spectra, the followers, the
    regions of interest, the baselines, the fits and every line of both
    axes are as they were. *)
Theorem display_events_keep_data (evs : list GuiEvent) (w : Widget)
    (H : forallb display_event evs = true) :
  data (run_events E evs w) = data w.
Proof.
  unfold run_events. revert w.
  induction evs as [|ev evs IH]; intros w; [reflexivity|].
  simpl in H. apply andb_prop in H as [H1 H2]. cbn [foldl].
  rewrite (IH H2). apply (dispatch_display_data ev H1 w).
Qed.

Lemma range_modes (var : string) : preserves (unchanged modes) (range var).
Proof. unfold range. frame_unchanged. Qed.
#[local] Hint Resolve range_modes : frames.

Lemma range_of_modes (var : string) : preserves (unchanged modes) (range_of var).
Proof. unfold range_of. frame_unchanged. Qed.
#[local] Hint Resolve range_of_modes : frames.

Lemma set_ylims_modes : preserves (unchanged modes) set_ylims.
Proof. unfold set_ylims. frame_unchanged. Qed.
#[local] Hint Resolve set_ylims_modes : frames.

Lemma update_color_range_modes : preserves (unchanged modes) update_color_range.
Proof. unfold update_color_range. frame_unchanged. Qed.
#[local] Hint Resolve update_color_range_modes : frames.

Lemma update_cmap_modes : preserves (unchanged modes) (update_cmap E).
Proof. unfold update_cmap. frame_unchanged. Qed.
#[local] Hint Resolve update_cmap_modes : frames.

Lemma display_spectrogram_modes : preserves (unchanged modes) (display_spectrogram E).
Proof. unfold display_spectrogram. frame_unchanged. Qed.
#[local] Hint Resolve display_spectrogram_modes : frames.

Lemma update_spectrogram_modes : preserves (unchanged modes) (update_spectrogram E).
Proof. unfold update_spectrogram. frame_unchanged. Qed.

(** Every statement of a body that has returned, one after the other. *)
Ltac all_returned :=
  repeat match goal with
    | H : @mbind _ _ _ _ _ _ _ = (Ret _, _) |- _ => returned H
    | H : (if ?b then _ else _) _ = (Ret _, _) |- _ =>
        destruct b; [|discriminate H]
    | H : mret _ _ = (Ret _, _) |- _ =>
        unfold mret, M_ret, ret in H; injection H as <- <-
    | H : modify _ _ = (Ret _, _) |- _ =>
        unfold modify in H; injection H as _ <-
    end.

(** The two steps of a constructor that has returned. *)
Lemma constructor_steps (arg : digfile_arg) (kwargs : list kwarg) (w : Widget) :
  __init__ E arg kwargs = Ret w ->
  exists df sg u w2 u',
    make_controls E kwargs (new_widget df sg) = (Ret u, w2)
    /\ update_spectrogram E w2 = (Ret u', w).
Proof.
  unfold __init__, obind. intros H.
  destruct (match arg with by_name _ => _ | by_object _ => _ end) as [df|];
    [|discriminate H].
  destruct (Spectrogram_new E df kwargs) as [sg|]; [|discriminate H].
  destruct ((spectrum E None "";; make_controls E kwargs;;
             update_spectrogram E) (new_widget df sg)) as [[u|e] w1] eqn:Hb;
    [|discriminate H].
  injection H as ->.
  rewrite mbind_run in Hb.
  change (spectrum E None "" (new_widget df sg))
    with (Ret VNone, new_widget df sg) in Hb.
  cbv beta iota in Hb. rewrite mbind_run in Hb.
  destruct (make_controls E kwargs (new_widget df sg)) as [[u'|e] w2] eqn:Hc;
    [|discriminate Hb].
  by exists df, sg, u', w2, u.
Qed.

(** The controls of a new widget, once made. *)
Lemma make_controls_new (kwargs : list kwarg) (df : DigFile.t)
    (sg : Spectrogram.t) (u : unit) (w : Widget) :
  make_controls E kwargs (new_widget df sg) = (Ret u, w) ->
  (spectra w = [] /\ peak_followers w = [] /\ roi w = [] /\ baselines w = []
   /\ selecting w = false /\ raw w = None /\ gauss_outs w = None
   /\ spectra_in_db w = true)
  /\ (axSpectrum (canvas w) = []
      /\ axSpectrogram (canvas w) = [0; 1; 2]%nat
      /\ fresh (canvas w) = 3%nat)
  /\ threshold w = None
  /\ clicker (controls w) = "Spectrum (dB)"
  /\ color_map (controls w) = "3w_gby"
  /\ stored (controls w) = control_keys.
Proof.
  intros Hc.
  unfold make_controls, dict_assign, RectangleSelector_new in Hc.
  cbv zeta in Hc. all_returned.
  split_and!; reflexivity.
Qed.

(** X15: the widget that the constructor returns.  No spectrum, follower,
    region of interest, baseline, thumbnail or fit exists; [axSpectrum] is
    without lines, and the lines of [axSpectrogram] are the three handles
    of the rectangle selector, the first three lines created, which no
    member of the widget names; no noise floor is set, a click shows a
    spectrum in dB, the colour map is '3w_gby', and [self.controls] holds
    its thirteen entries. *)
Theorem constructor_postconditions (arg : digfile_arg) (kwargs : list kwarg)
    (w : Widget) (H : __init__ E arg kwargs = Ret w) :
  spectra w = [] /\ peak_followers w = [] /\ roi w = [] /\ baselines w = []
  /\ selecting w = false /\ raw w = None /\ gauss_outs w = None
  /\ spectra_in_db w = true
  /\ axSpectrum (canvas w) = []
  /\ axSpectrogram (canvas w) = [0; 1; 2]%nat
  /\ fresh (canvas w) = 3%nat
  /\ threshold w = None
  /\ clicker (controls w) = "Spectrum (dB)"
  /\ color_map (controls w) = "3w_gby"
  /\ stored (controls w) = control_keys.
Proof.
  apply constructor_steps in H as (df & sg & u & w2 & u' & Hc & Hb).
  apply make_controls_new in Hc
    as ((M1 & M2 & M3 & M4 & M5 & M6 & M7 & M8) & (A1 & A2 & A3)
        & T & C1 & C2 & K).
  pose proof (update_spectrogram_data E w2) as D.
  pose proof (update_spectrogram_modes w2) as F.
  rewrite Hb in D, F.
  unfold unchanged, data, modes in D, F. cbn [snd] in D, F.
  injection D as D1 D2 D3 D4 D5 D6 D7 D8 D9 D10 D11 D12 D13 D14.
  injection F as F1 F2 F3 F4 F5 F6 F7.
  split_and!; congruence.
Qed.

End DisplayEvents.

Lemma display_events_keep_data_witness :
  Frames.data
    (SpectrogramWidget.run_events Demo.env
       [SpectrogramWidget.threshold_change 1;
        SpectrogramWidget.color_map_change "Computed";
        SpectrogramWidget.t_range_change [0; 10]%float]
       Demo.widget)
  = Frames.data Demo.widget.
Proof. apply display_events_keep_data. reflexivity. Defined.

Lemma constructor_postconditions_witness :
  SpectrogramWidget.spectra Demo.widget = [].
Proof.
  destruct (constructor_postconditions Demo.env
              (SpectrogramWidget.by_object Demo.digfile) [] Demo.widget)
    as [H _].
  - vm_compute. reflexivity.
  - exact H.
Defined.

(** ** The widget: clicks, followers and baselines *)

Section Clicks.
Import SpectrogramWidget Props Frames.
Variable E : Env.

Lemma skip_baselines_followed fuel s ordering blines :
  forall n, preserves (unchanged followed) (skip_baselines fuel s ordering blines n).
Proof.
  induction fuel as [|fuel IH]; intros n; cbn [skip_baselines].
  - untouched.
  - frame_unchanged.
Qed.
#[local] Hint Resolve skip_baselines_followed : frames.

Lemma spectrum_followed the_time form :
  preserves (unchanged followed) (spectrum E the_time form).
Proof. unfold spectrum. frame_unchanged. Qed.

Lemma follow_shown t v action : preserves (unchanged shown) (follow E t v action).
Proof. unfold follow. frame_unchanged. Qed.

(** X17: the click mode separates the two kinds of click.  In a mode whose
    name contains 'Spectrum' a click leaves the followers, the fitter, the
    fits and the thumbnail as they are; in any other mode it leaves the
    spectra, their axes and the log of the attributes read as they are.  In
    both, the regions, the baselines, the controls and the image stay. *)
Theorem handle_click_by_mode (event : Event.t) (w : Widget) :
  let w' := snd (handle_click E event w) in
  if Seq.substring_of "Spectrum" (clicker (controls w))
  then followed w' = followed w
  else shown w' = shown w.
Proof.
  cbv zeta. rewrite handle_click_eq.
  destruct (Seq.substring_of "Spectrum" (clicker (controls w))) eqn:Hs;
    (destruct (Event.xdata event) as [x|]; [|reflexivity]);
    (destruct (selecting w); [reflexivity|]);
    (destruct (bool_decide _); [|reflexivity]); cbv zeta; rewrite Hs.
  - apply (frame_try (unchanged followed)); [frame_trans| |untouched].
    apply (frame_bind (unchanged followed));
      [frame_trans | apply spectrum_followed | intros ?; untouched].
  - apply (frame_try (unchanged shown)); [frame_trans| |untouched].
    apply (frame_bind (unchanged shown));
      [frame_trans | apply follow_shown | intros ?; untouched].
Qed.

Lemma for_each_without_line (l : list PeakFollower.t) (w : Widget) :
  (exists f, f ∈ l /\ PeakFollower.line f = None) ->
  exists e w',
    for_each l (fun x =>
      match PeakFollower.line x with
      | Some id => lines_remove AxSpectrogram id
      | None => raise (AttributeError "line")
      end) w = (Raise e, w')
    /\ peak_followers w' = peak_followers w.
Proof.
  revert w. induction l as [|f l IH]; intros w (g & Hin & Hg).
  - by apply elem_of_nil in Hin.
  - cbn [for_each]. unfold bind.
    destruct (PeakFollower.line f) as [id|] eqn:Hf.
    + apply elem_of_cons in Hin as [->|Hin]; [congruence|].
      unfold lines_remove.
      destruct (Seq.remove _ id) as [l'|e]; [|by exists e, w].
      destruct (IH (set_canvas (set_lines_of AxSpectrogram l' (canvas w)) w))
        as (e & w' & H1 & H2); [by exists g|].
      exists e, w'. split; [exact H1 | by rewrite H2].
    + by exists (AttributeError "line"), w.
Qed.

(** X12: a follower whose [run] raises stays in the list without a line:
    [follow] has appended it before it runs and raises what [run] raised.
    From then on [clear_followers] raises at that follower and removes no
    follower from the list. *)
Theorem failed_follower_blocks_clear_followers (w : Widget) (t : float)
    (v : option float) (f : PeakFollower.t) (e : exn)
    (Hnew : PeakFollower_new E (spectrogram w) (t, v) = Ret f)
    (Hrun : fst (PeakFollower_run E f) = Raise e)
    (Hline : PeakFollower.line (snd (PeakFollower_run E f)) = None) :
  let stuck := set_peak_followers (peak_followers w ++ [snd (PeakFollower_run E f)]) w in
  follow E t v "Peak" w = (Raise e, stuck)
  /\ exists e' w',
       clear_followers stuck = (Raise e', w')
       /\ peak_followers w' = peak_followers stuck.
Proof.
  split.
  - unfold follow. cbn [String.eqb Ascii.eqb Bool.eqb]. cbv iota.
    rewrite mbind_run. unfold gets at 1. cbv beta iota.
    rewrite mbind_run. unfold lift at 1. rewrite Hnew.
    rewrite mbind_run. unfold gets at 1. cbv beta iota.
    rewrite mbind_run. unfold modify at 1. cbv beta iota zeta.
    rewrite mbind_run. unfold modify at 1. cbv beta iota.
    rewrite mbind_run. unfold lift at 1. rewrite Hrun. reflexivity.
  - unfold clear_followers. 
    destruct (for_each_without_line
                (peak_followers w ++ [snd (PeakFollower_run E f)])
                (set_peak_followers
                   (peak_followers w ++ [snd (PeakFollower_run E f)]) w))
      as (e' & w' & H1 & H2).
    { exists (snd (PeakFollower_run E f)). split; [|exact Hline].
      apply elem_of_app. right. by left. }
    exists e', w'. split; [|exact H2].
    rewrite mbind_run. unfold gets at 1. cbv beta iota.
    rewrite mbind_run. cbn [peak_followers set_peak_followers].
    rewrite H1. reflexivity.
Qed.

End Clicks.

Lemma failed_follower_blocks_clear_followers_witness :
  fst (SpectrogramWidget.follow Demo.interrupted 0x1p-20 (Some 100%float) "Peak"
         Demo.widget)
  = Raise KeyboardInterrupt.
Proof.
  destruct (failed_follower_blocks_clear_followers Demo.interrupted Demo.widget
              0x1p-20 (Some 100%float) Demo.follower KeyboardInterrupt
              eq_refl eq_refl eq_refl) as [H _].
  rewrite H. reflexivity.
Defined.

(** ** The widget: baselines, a fifth spectrum and the fits *)

Section Baselines.
Import SpectrogramWidget Props Frames.
Variable E : Env.

(** A statement that adds at most a line to [axSpectrum]. *)
Ltac line_kept :=
  let w := fresh "w" in
  intros w; split_and!;
    [cbn; first [reflexivity | by apply prefix_app_r]
    | cbn; first [reflexivity | apply Nat.le_succ_diag_r]
    | reflexivity].

Lemma update_baselines_kept (method : string) :
  preserves lines_kept (update_baselines E method).
Proof.
  unfold update_baselines.
  repeat first [frame_step | solve [line_kept]].
Qed.

(** X13: [update_baselines] never removes a line.  Whatever the choices of
    the baselines menu, one after the other, and however each call ends, the
    lines that [axSpectrum] held are still its first lines, in their order:
    the lines of the earlier baselines stay on the axes although
    [self.baselines] has forgotten them.  Nothing but the baselines and
    these axes changes. *)
Theorem update_baselines_keeps_lines (methods : list string) (w : Widget) :
  lines_kept w (run_events E (List.map baselines_change methods) w).
Proof.
  unfold run_events. revert w.
  induction methods as [|method methods IH]; intros w; cbn [List.map foldl].
  - apply lines_kept_refl.
  - apply (lines_kept_trans _ (snd (dispatch E (baselines_change method) w)));
      [|apply IH].
    unfold dispatch.
    apply (frame_bind lines_kept);
      [frame_trans | apply update_baselines_kept | intros ?; line_kept].
Qed.


End Baselines.


(** One statement of a body that has run: either it returned [a] and left
    [w1], or it raised and the body ended there. *)
Ltac ran_as H a w1 Hm :=
  lazymatch type of H with
  | @mbind _ _ _ _ ?k ?m ?w = _ =>
      let e := fresh "e" in
      rewrite (mbind_run m k w) in H;
      destruct (m w) as [[a|e] w1] eqn:Hm; cbv beta iota in H;
      [| try (injection H as <- <-)]
  end.

Ltac raised Hm :=
  lazymatch type of Hm with
  | lift _ _ = _ => unfold lift in Hm; injection Hm as Hm <-
  | SpectrogramWidget.spectrum_attr _ _ _ = _ =>
      unfold SpectrogramWidget.spectrum_attr in Hm; injection Hm as Hm <-
  | SpectrogramWidget.sg_member _ _ _ = _ =>
      unfold SpectrogramWidget.sg_member in Hm; discriminate Hm
  | gets _ _ = _ => unfold gets in Hm; discriminate Hm
  | modify _ _ = _ => unfold modify in Hm; discriminate Hm
  | SpectrogramWidget.plot _ _ _ _ _ = _ =>
      unfold SpectrogramWidget.plot in Hm; discriminate Hm
  | _ => idtac
  end.

Ltac ran H :=
  let a := fresh "a" in
  let w1 := fresh "w" in
  let Hm := fresh "Hm" in
  ran_as H a w1 Hm; [settled Hm | raised Hm].

Section FifthSpectrum.
Import SpectrogramWidget Props Frames.
Variable E : Env.

Lemma spectrum_refused_run (w : Widget) (t : float) (form : string)
    (o : outcome retval) (w' : Widget)
    (Hfull : 4 <= Seq.len (spectra w))
    (H : spectrum E (Some t) form w = (o, w')) :
  (exists e, o = Raise e) /\ spectra w' = spectra w /\ canvas w' = canvas w
  /\ spectra_in_db w' = spectra_in_db w.
Proof.
  unfold spectrum in H.
  ran H. ran H. cbv zeta in H.
  ran H; [|by eauto]. ran H; [|by eauto]. ran H; [|by eauto].
  cbv zeta in H. ran H.
  ran_as H n w1 Hn.
  - lazymatch type of Hn with
    | _ ?wc = _ => assert (exists l, w1 = set_spectrum_reads l wc) as [l ->]
    end.
    { destruct (baselines w).
      - injection Hn as _ <-. eexists. apply set_spectrum_reads_same.
      - apply skip_baselines_frame in Hn as [l' ->]. by eexists. }
    do 5 (ran H; [|by eauto]). cbv zeta in H.
    ran H; [|by eauto]. ran H; [|by eauto]. ran H.
    ran_as H color w2 Hc; unfold lift in Hc; injection Hc as Hc <-; [|by eauto].
    cbn [spectra set_spectrum_reads set_spectrogram_reads] in Hc.
    rewrite index_beyond in Hc; [discriminate Hc | | exact Hfull].
    unfold Seq.len. lia.
  - lazymatch type of Hn with
    | _ ?wc = _ => assert (exists l, w1 = set_spectrum_reads l wc) as [l ->]
    end.
    { destruct (baselines w).
      - discriminate Hn.
      - apply skip_baselines_frame in Hn as [l' ->]. by eexists. }
    by eauto.
Qed.

(** X10: with four spectra on display a click cannot show a fifth:
    [spectrum] raises before it plots ([_colors] has four entries), and the
    spectra, both axes and the dB mode are as they were. *)
Theorem spectrum_fifth_refused (w : Widget) (t : float) (form : string)
    (Hfull : 4 <= Seq.len (spectra w)) :
  refused (spectrum E (Some t) form w) w.
Proof.
  unfold refused.
  destruct (spectrum E (Some t) form w) as [o w'] eqn:H.
  exact (spectrum_refused_run w t form o w' Hfull H).
Qed.

End FifthSpectrum.

Lemma spectrum_fifth_refused_witness :
  let four :=
    SpectrogramWidget.run_events Demo.env
      (List.repeat (SpectrogramWidget.button_press_event (Demo.click 1 1)) 4)
      Demo.widget in
  Frames.refused
    (SpectrogramWidget.spectrum Demo.env (Some 0x1p-20%float) "Spectrum (dB)" four)
    four.
Proof.
  apply spectrum_fifth_refused. vm_compute. discriminate.
Defined.

(** ** The widget: the Gaussian fits of a follower *)

Section Fits.
Import SpectrogramWidget Props Frames.
Variable E : Env.

Lemma setitem_index {A} (l l' : list A) (i : Z) (x : A) :
  Seq.setitem l i x = Ret l' ->
  Seq.index l' i = Ret x /\ length l' = length l.
Proof.
  unfold Seq.setitem, Seq.index, Seq.len. cbv zeta.
  set (j := if i <? 0 then i + Z.of_nat (length l) else i).
  destruct ((j <? 0) || (Z.of_nat (length l) <=? j)) eqn:Hj; [discriminate|].
  intros [= <-]. apply orb_false_elim in Hj as [H1 H2].
  rewrite length_insert. split; [|reflexivity].
  fold j. rewrite H1. rewrite list_lookup_insert_eq; [reflexivity|]. lia.
Qed.

Lemma gauss_step_reads vind tind acc j :
  preserves (unchanged besides_reads) (gauss_step E vind tind acc j).
Proof. unfold gauss_step. frame_unchanged. Qed.

Lemma gauss_loop_reads vind tind js :
  forall acc, preserves (unchanged besides_reads) (gauss_loop E vind tind acc js).
Proof.
  induction js as [|j js IH]; intros acc; cbn [gauss_loop].
  - untouched.
  - apply (frame_bind (unchanged besides_reads));
      [frame_trans | apply gauss_step_reads | intros ?; apply IH].
Qed.

Lemma gauss_step_aligned vind tind acc j w g w' :
  gauss_step E vind tind acc j w = (Ret g, w') -> aligned acc -> aligned g.
Proof.
  intros H (A1 & A2 & A3). unfold gauss_step in H.
  do 3 returned H. cbv zeta in H.
  returned_as H span w1 Hspan. clear Hspan. destruct span as [vfrom vto].
  do 6 returned H. cbv zeta in H. returned H.
  destruct (Gaussian.valid _); injection H as <- _; [|by repeat split].
  unfold aligned. cbn. rewrite !length_app. cbn. lia.
Qed.

Lemma gauss_loop_aligned vind tind js :
  forall acc w g w',
    gauss_loop E vind tind acc js w = (Ret g, w') -> aligned acc -> aligned g.
Proof.
  induction js as [|j js IH]; intros acc w g w' H Hacc; cbn [gauss_loop] in H.
  - by injection H as <- _.
  - returned_as H acc' w1 Hs.
    apply (IH _ _ _ _ H). exact (gauss_step_aligned _ _ _ _ _ _ _ Hs Hacc).
Qed.

(** X11: when [gauss_out] returns [None] it has stored the fit of follower
    [n] at index [n] of [self.gauss_outs]: the list exists, it has an entry
    for every follower, its entry [n] is the new fit, and the four arrays of
    the fit (time, centre, width and amplitude of the valid Gaussians) have
    one length.  The followers, the spectra and the axes are as they
    were. *)
Theorem gauss_out_stores_fit (n : Z) (w w' : Widget)
    (H : gauss_out E n w = (Ret VNone, w')) :
  exists outs fits,
    gauss_outs w' = Some outs
    /\ Seq.index outs n = Ret (Some fits)
    /\ aligned fits
    /\ (length (peak_followers w) <= length outs)%nat
    /\ peak_followers w' = peak_followers w
    /\ spectra w' = spectra w
    /\ canvas w' = canvas w.
Proof.
  unfold gauss_out in H. returned H.
  destruct (Seq.len (peak_followers w) <=? n); [discriminate H|].
  returned H. cbv zeta in H.
  returned_as H fits w1 Hloop.
  lazymatch type of Hloop with
  | ?m w = _ =>
      assert (F : unchanged besides_reads w (snd (m w))) by apply gauss_loop_reads
  end.
  rewrite Hloop in F.
  unfold unchanged, besides_reads in F. cbn [snd] in F.
  apply gauss_loop_aligned in Hloop; [|by repeat split].
  do 3 returned H. returned_as H outs1 w2 Hst.
  unfold lift in Hst. injection Hst as Hst <-.
  returned H. injection H as <-.
  apply setitem_index in Hst as [Hi Hl].
  exists outs1, fits. cbn. split_and!; try congruence.
  rewrite Hl. assert (peak_followers w1 = peak_followers w) as -> by congruence.
  destruct (gauss_outs w1) as [l|].
  - rewrite length_app, repeat_length. lia.
  - rewrite repeat_length. lia.
Qed.

End Fits.

Lemma gauss_out_stores_fit_witness :
  exists outs fits,
    SpectrogramWidget.gauss_outs
      (snd (SpectrogramWidget.gauss_out Demo.env 0
              (SpectrogramWidget.run_events Demo.env
                 [SpectrogramWidget.button_press_event (Demo.click 1 1)]
                 Demo.peak_widget)))
    = Some outs
    /\ Seq.index outs 0 = Ret (Some fits).
Proof.
  destruct (gauss_out_stores_fit Demo.env 0
              (SpectrogramWidget.run_events Demo.env
                 [SpectrogramWidget.button_press_event (Demo.click 1 1)]
                 Demo.peak_widget)
              (snd (SpectrogramWidget.gauss_out Demo.env 0
                      (SpectrogramWidget.run_events Demo.env
                         [SpectrogramWidget.button_press_event (Demo.click 1 1)]
                         Demo.peak_widget))))
    as (outs & fits & H1 & H2 & _).
  - vm_compute. reflexivity.
  - exists outs, fits. split; assumption.
Defined.

(** ** The widget: the spectra and the axes agree *)

Section Invariant.
Import SpectrogramWidget Props Frames.
Variable E : Env.

Lemma unchanged_weaken {X Y A} (p : Widget -> X) (q : Widget -> Y) (m : M Widget A) :
  (forall w w', p w' = p w -> q w' = q w) ->
  preserves (unchanged p) m -> preserves (unchanged q) m.
Proof. intros H Hm w. apply H, Hm. Qed.

Lemma consistent_drawn (w w' : Widget) :
  drawn w' = drawn w -> consistent w -> consistent w'.
Proof.
  unfold drawn, consistent, owned. intros [= -> -> -> -> -> ->]. done.
Qed.

Lemma drawn_data (w w' : Widget) : data w' = data w -> drawn w' = drawn w.
Proof. unfold data, drawn. intros [=]. congruence. Qed.

Lemma drawn_besides_reads (w w' : Widget) :
  besides_reads w' = besides_reads w -> drawn w' = drawn w.
Proof. unfold besides_reads, drawn. intros [=]. congruence. Qed.

Lemma keeping_drawn {A} (m : M Widget A) :
  preserves (unchanged drawn) m -> preserves (keeping consistent) m.
Proof. apply keeping_unchanged. exact consistent_drawn. Qed.

(** A step that changes no spectrum, removes neither a marker nor a spectrum
    line from the axes, and names no line of another member. *)
Lemma consistent_step (w w' : Widget) :
  consistent w ->
  spectra w' = spectra w ->
  (fresh (canvas w) <= fresh (canvas w'))%nat ->
  (forall id, id ∈ List.map Spec.marker (spectra w) ->
     id ∈ axSpectrogram (canvas w) -> id ∈ axSpectrogram (canvas w')) ->
  (forall id, id ∈ List.map Spec.line (spectra w) ->
     id ∈ axSpectrum (canvas w) -> id ∈ axSpectrum (canvas w')) ->
  NoDup (omap PeakFollower.line (peak_followers w') ++ option_list (raw w')) ->
  (forall id,
     id ∈ omap PeakFollower.line (peak_followers w') ++ option_list (raw w') ->
     id ∈ omap PeakFollower.line (peak_followers w) ++ option_list (raw w)
     \/ (fresh (canvas w) <= id < fresh (canvas w'))%nat) ->
  consistent w'.
Proof.
  intros (C1 & C2 & C3 & C4 & C5 & C6 & C7) Hs Hf Hm Hl Hn Hx.
  unfold consistent, owned in *. rewrite Hs.
  rewrite Forall_forall in C2, C3, C5, C6.
  apply NoDup_app in C1 as (N1 & N2 & N3).
  split_and!; try done.
  - apply NoDup_app. split_and!; [done | | done].
    intros id Hid Hid'. destruct (Hx id Hid') as [Hold|Hnew].
    + by apply (N2 id).
    + assert (id < fresh (canvas w))%nat; [|lia].
      apply C2, elem_of_app. by left.
  - apply Forall_forall. intros id Hid. apply elem_of_app in Hid as [Hid|Hid].
    + assert (id < fresh (canvas w))%nat; [|lia].
      apply C2, elem_of_app. by left.
    + destruct (Hx id Hid) as [Hold|Hnew]; [|lia].
      assert (id < fresh (canvas w))%nat; [|lia].
      apply C2, elem_of_app. by right.
  - apply Forall_forall. intros id Hid. by apply Hm, C3.
  - apply Forall_forall. intros id Hid. specialize (C5 id Hid). lia.
  - apply Forall_forall. intros id Hid. by apply Hl, C6.
Qed.

(** Only lines were added. *)
Lemma consistent_grown (w w' : Widget) :
  consistent w ->
  spectra w' = spectra w -> peak_followers w' = peak_followers w ->
  raw w' = raw w ->
  (fresh (canvas w) <= fresh (canvas w'))%nat ->
  axSpectrogram (canvas w) ⊆ axSpectrogram (canvas w') ->
  axSpectrum (canvas w) ⊆ axSpectrum (canvas w') ->
  consistent w'.
Proof.
  intros C Hs Hp Hr Hf H1 H2.
  apply (consistent_step w); try done.
  - intros id _. apply H1.
  - intros id _. apply H2.
  - rewrite Hp, Hr. destruct C as (C1 & _). unfold owned in C1.
    by apply NoDup_app in C1 as (_ & _ & ?).
  - intros id. rewrite Hp, Hr. by left.
Qed.

Lemma consistent_lines_kept (w w' : Widget) :
  lines_kept w w' -> consistent w -> consistent w'.
Proof.
  intros (P & F & B) C. unfold besides_baselines in B.
  injection B as Hs Hp Hr _ _ _ _ _ _ Hax _ _ _ _.
  apply (consistent_grown w); try done.
  - by rewrite Hax.
  - destruct P as [k ->]. intros id Hid. apply elem_of_app. by left.
Qed.

(** The new spectrum, its line and its marker. *)
Lemma consistent_add_spectrum (w w' : Widget) (s : Spec.t) :
  consistent w -> (length (spectra w) < 4)%nat ->
  spectra w' = spectra w ++ [s] ->
  peak_followers w' = peak_followers w -> raw w' = raw w ->
  Spec.line s = fresh (canvas w) -> Spec.marker s = S (fresh (canvas w)) ->
  fresh (canvas w') = S (S (fresh (canvas w))) ->
  axSpectrum (canvas w') = axSpectrum (canvas w) ++ [fresh (canvas w)] ->
  axSpectrogram (canvas w') = axSpectrogram (canvas w) ++ [S (fresh (canvas w))] ->
  consistent w'.
Proof.
  intros (C1 & C2 & C3 & C4 & C5 & C6 & C7) Hlen Hs Hp Hr Hl Hm Hf Ha1 Ha2.
  unfold consistent, owned in *. rewrite Hs, Hp, Hr, Hf, Ha1, Ha2.
  rewrite !map_app. cbn [List.map]. rewrite Hl, Hm.
  rewrite Forall_forall in C2, C3, C5, C6.
  split_and!.
  - rewrite <- app_assoc. cbn [app]. rewrite <- Permutation_middle.
    apply NoDup_cons. split; [|done].
    intros Hin. specialize (C2 _ Hin). lia.
  - apply Forall_forall. intros id Hid. rewrite <- app_assoc in Hid.
    cbn [app] in Hid. rewrite <- Permutation_middle in Hid.
    apply elem_of_cons in Hid as [->|Hid]; [lia|].
    specialize (C2 _ Hid). lia.
  - apply Forall_forall. intros id Hid. apply elem_of_app.
    apply elem_of_app in Hid as [Hid|Hid]; [left; by apply C3|].
    right. exact Hid.
  - apply NoDup_app. split_and!; [done | | apply NoDup_singleton].
    intros id Hid Hid'. apply list_elem_of_singleton in Hid' as ->.
    specialize (C5 _ Hid). lia.
  - apply Forall_forall. intros id Hid.
    apply elem_of_app in Hid as [Hid|Hid].
    + specialize (C5 _ Hid). lia.
    + apply list_elem_of_singleton in Hid as ->. lia.
  - apply Forall_forall. intros id Hid. apply elem_of_app.
    apply elem_of_app in Hid as [Hid|Hid]; [left; by apply C6|].
    right. exact Hid.
  - rewrite length_app. cbn. lia.
Qed.

Lemma index_colors (n : Z) (c : string) :
  0 <= n -> Seq.index _colors n = Ret c -> n < 4.
Proof.
  intros H0 H. destruct (Z_lt_le_dec n 4) as [|Hge]; [done|].
  rewrite index_beyond in H; [discriminate H | done | exact Hge].
Qed.

End Invariant.

Ltac same_drawn :=
  lazymatch goal with
  | C : Frames.consistent ?w |- Frames.consistent _ =>
      solve [apply (consistent_drawn w); [reflexivity | exact C]]
  end.

Ltac more_lines :=
  lazymatch goal with
  | C : Frames.consistent ?w |- Frames.consistent _ =>
      solve [apply (consistent_grown w);
             [exact C | reflexivity | reflexivity | reflexivity
             | cbn; lia | cbn; set_solver | cbn; set_solver]]
  end.

Section Kept.
Import SpectrogramWidget Props Frames.
Variable E : Env.
Hypothesis no_line : followers_without_line E.

Lemma remove_ok (l : list nat) (id : nat) :
  id ∈ l -> exists l', Seq.remove l id = Ret l'.
Proof.
  induction l as [|y l IH]; intros Hin; [by apply elem_of_nil in Hin|].
  cbn. destruct (Nat.eqb id y) eqn:Hy; [by eexists|].
  apply Nat.eqb_neq in Hy. apply elem_of_cons in Hin as [->|Hin]; [done|].
  destruct (IH Hin) as [l' ->]. by eexists.
Qed.

Lemma remove_other (l l' : list nat) (id x : nat) :
  Seq.remove l id = Ret l' -> x ∈ l -> x <> id -> x ∈ l'.
Proof.
  revert l'. induction l as [|y l IH]; intros l' H Hin Hx; [discriminate H|].
  cbn in H. destruct (Nat.eqb id y) eqn:Hy.
  - apply Nat.eqb_eq in Hy as <-. injection H as <-.
    by apply elem_of_cons in Hin as [->|Hin].
  - destruct (Seq.remove l id) as [r|]; [|discriminate H].
    injection H as <-. apply elem_of_cons in Hin as [->|Hin]; [by left|].
    right. by apply IH.
Qed.

Lemma spectrum_consistent the_time form w o w' :
  spectrum E the_time form w = (o, w') -> consistent w -> consistent w'.
Proof.
  intros H C. destruct the_time as [t|]; [|by injection H as _ <-].
  unfold spectrum in H.
  ran H. ran H. cbv zeta in H.
  ran H; [|same_drawn]. ran H; [|same_drawn]. ran H; [|same_drawn].
  cbv zeta in H. ran H.
  ran_as H n w1 Hn;
    lazymatch type of Hn with
    | _ ?wc = _ => assert (exists l, w1 = set_spectrum_reads l wc) as [l ->]
    end.
  1, 3: destruct (baselines w);
        [ first [discriminate Hn
                | injection Hn as _ <-; eexists; apply set_spectrum_reads_same]
        | apply skip_baselines_frame in Hn as [l' ->]; by eexists ].
  2: same_drawn.
  do 5 (ran H; [|same_drawn]). cbv zeta in H.
  ran H; [|same_drawn]. ran H; [|same_drawn]. ran H.
  ran_as H color w2 Hc; unfold lift in Hc; injection Hc as Hc <-; [|same_drawn].
  cbn [spectra set_spectrum_reads set_spectrogram_reads] in Hc.
  apply index_colors in Hc; [|unfold Seq.len; lia].
  ran H. ran H. ran H.
  ran_as H color' w3 Hc'; unfold lift in Hc'; injection Hc' as Hc' <-;
    [|more_lines].
  ran H. ran H.
  lazymatch type of H with
  | ?m ?wc = _ =>
      assert (F : preserves (unchanged drawn) m) by frame_unchanged;
      specialize (F wc); rewrite H in F;
      apply (consistent_drawn wc); [exact F|]
  end.
  eapply (consistent_add_spectrum w);
    [exact C | unfold Seq.len in Hc; lia | reflexivity ..].
Qed.

Lemma spectrum_keeping the_time form :
  preserves (keeping consistent) (spectrum E the_time form).
Proof.
  intros w C. destruct (spectrum E the_time form w) as [o w'] eqn:H.
  exact (spectrum_consistent _ _ _ _ _ H C).
Qed.

Lemma consistent_followers (w w' : Widget) :
  consistent w ->
  spectra w' = spectra w -> raw w' = raw w -> canvas w' = canvas w ->
  omap PeakFollower.line (peak_followers w')
  = omap PeakFollower.line (peak_followers w) ->
  consistent w'.
Proof.
  unfold consistent, owned. intros C -> -> -> ->. exact C.
Qed.

Lemma omap_line_snoc (l : list PeakFollower.t) (f : PeakFollower.t) :
  omap PeakFollower.line (l ++ [f])
  = omap PeakFollower.line l ++ option_list (PeakFollower.line f).
Proof. rewrite omap_app. cbn. by destruct (PeakFollower.line f). Qed.

Lemma consistent_add_follower (w w' : Widget) :
  consistent w ->
  spectra w' = spectra w -> raw w' = raw w ->
  omap PeakFollower.line (peak_followers w')
  = omap PeakFollower.line (peak_followers w) ++ [fresh (canvas w)] ->
  fresh (canvas w') = S (fresh (canvas w)) ->
  axSpectrogram (canvas w) ⊆ axSpectrogram (canvas w') ->
  axSpectrum (canvas w') = axSpectrum (canvas w) ->
  consistent w'.
Proof.
  intros C Hs Hr Hp Hf Ha1 Ha2.
  pose proof C as (C1 & C2 & _). unfold owned in C1, C2.
  apply NoDup_app in C1 as (_ & _ & N). rewrite Forall_forall in C2.
  apply (consistent_step w); try done.
  - lia.
  - intros id _. apply Ha1.
  - intros id _. by rewrite Ha2.
  - rewrite Hp, Hr, <- app_assoc. cbn [app]. rewrite <- Permutation_middle.
    apply NoDup_cons. split; [|done].
    intros Hin. assert (fresh (canvas w) < fresh (canvas w))%nat; [|lia].
    apply C2, elem_of_app. by right.
  - intros id. rewrite Hp, Hr, <- app_assoc. cbn [app].
    rewrite <- Permutation_middle. intros Hin.
    apply elem_of_cons in Hin as [->|Hin]; [right; lia | by left].
Qed.

Lemma follow_consistent t v action w o w' :
  follow E t v action w = (o, w') -> consistent w -> consistent w'.
Proof.
  intros H C. unfold follow in H. destruct no_line as [Hnew Hrun].
  destruct (String.eqb action "Gauss").
  { ran H. ran H; [|same_drawn].
    unfold modify in H. injection H as _ <-. same_drawn. }
  destruct (String.eqb action "Peak"); [|by injection H as _ <-].
  ran H.
  ran_as H f w1 Hf; unfold lift in Hf; injection Hf as Hf <-; [|same_drawn].
  apply Hnew in Hf.
  ran H. ran H. cbv zeta in H. ran H.
  ran_as H u w2 Hr; unfold lift in Hr; injection Hr as Hr <-.
  - destruct (PeakFollower.v_of_t _) as [tsec vs].
    ran H. unfold modify in H. injection H as _ <-.
    apply (consistent_add_follower w); try done.
    + cbn. rewrite omap_line_snoc. reflexivity.
    + cbn. intros id Hid. apply elem_of_app. by left.
  - apply (consistent_followers w); try done.
    cbn. rewrite omap_line_snoc, Hrun, Hf. cbn. by rewrite app_nil_r.
Qed.

Lemma follow_keeping t v action :
  preserves (keeping consistent) (follow E t v action).
Proof.
  intros w C. destruct (follow E t v action w) as [o w'] eqn:H.
  exact (follow_consistent _ _ _ _ _ _ H C).
Qed.

End Kept.

Section KeptByEvents.
Import SpectrogramWidget Props Frames.
Variable E : Env.
Hypothesis no_line : followers_without_line E.

Lemma clear_spectra_loop (l : list Spec.t) :
  forall w,
    NoDup (List.map Spec.marker l) -> NoDup (List.map Spec.line l) ->
    Forall (fun id => id ∈ axSpectrogram (canvas w)) (List.map Spec.marker l) ->
    Forall (fun id => id ∈ axSpectrum (canvas w)) (List.map Spec.line l) ->
    exists w',
      for_each l (fun x =>
        lines_remove AxSpectrogram (Spec.marker x);;
        lines_remove AxSpectrum (Spec.line x)) w = (Ret tt, w')
      /\ spectra w' = spectra w /\ peak_followers w' = peak_followers w
      /\ raw w' = raw w /\ fresh (canvas w') = fresh (canvas w).
Proof.
  induction l as [|x l IH]; intros w N1 N2 F1 F2; [by exists w|].
  cbn [List.map] in *.
  apply NoDup_cons in N1 as [X1 N1]. apply NoDup_cons in N2 as [X2 N2].
  apply Forall_cons in F1 as [M1 F1]. apply Forall_cons in F2 as [M2 F2].
  destruct (remove_ok _ _ M1) as [l1 R1]. destruct (remove_ok _ _ M2) as [l2 R2].
  set (w2 := set_canvas
               (set_axSpectrum l2 (set_axSpectrogram l1 (canvas w))) w).
  destruct (IH w2) as (w' & H & Hs & Hp & Hr & Hf); try done.
  - rewrite Forall_forall in F1 |- *. intros id Hid. cbn.
    apply (remove_other _ _ _ _ R1); [by apply F1 | by intros ->].
  - rewrite Forall_forall in F2 |- *. intros id Hid. cbn.
    apply (remove_other _ _ _ _ R2); [by apply F2 | by intros ->].
  - exists w'. split; [|done].
    cbn [for_each]. unfold bind. rewrite mbind_run.
    unfold lines_remove at 1. cbn [lines_of]. rewrite R1.
    unfold lines_remove at 1. cbn. rewrite R2. exact H.
Qed.

Lemma clear_spectra_returns (w : Widget) :
  consistent w ->
  exists w', clear_spectra w = (Ret tt, w') /\ spectra w' = [] /\ consistent w'.
Proof.
  intros C. pose proof C as (C1 & C2 & C3 & C4 & C5 & C6 & C7).
  unfold owned in C1, C2.
  pose proof C1 as N. apply NoDup_app in N as (N1 & _ & N3).
  destruct (clear_spectra_loop (spectra w) w N1 C4 C3 C6)
    as (w' & H & Hs & Hp & Hr & Hf).
  exists (set_spectra [] w'). split_and!; [|done|].
  - unfold clear_spectra. rewrite mbind_run. unfold gets at 1. cbv beta iota.
    rewrite mbind_run, H. reflexivity.
  - unfold consistent, owned. cbn. rewrite Hp, Hr, Hf.
    split_and!; try constructor; [done | | lia].
    apply Forall_app in C2 as [_ C2]. exact C2.
Qed.

Lemma clear_spectra_keeping : preserves (keeping consistent) clear_spectra.
Proof.
  intros w C. destruct (clear_spectra_returns w C) as (w' & -> & _ & C').
  exact C'.
Qed.

(** A line of a follower or of the thumbnail is no marker. *)
Lemma consistent_remove (w : Widget) (id : nat) (l : list nat) :
  consistent w ->
  id ∈ omap PeakFollower.line (peak_followers w) ++ option_list (raw w) ->
  Seq.remove (axSpectrogram (canvas w)) id = Ret l ->
  consistent (set_canvas (set_axSpectrogram l (canvas w)) w).
Proof.
  intros C Hid Hl. pose proof C as (C1 & _). unfold owned in C1.
  apply NoDup_app in C1 as (_ & D & N).
  apply (consistent_step w); try done.
  - intros m Hm Hin. cbn. apply (remove_other _ _ _ _ Hl Hin).
    intros ->. by apply (D id).
  - intros x. by left.
Qed.

Lemma clear_followers_loop (l : list PeakFollower.t) :
  forall w o w',
    for_each l (fun x =>
      match PeakFollower.line x with
      | Some id => lines_remove AxSpectrogram id
      | None => raise (AttributeError "line")
      end) w = (o, w') ->
    consistent w -> (forall x, x ∈ l -> x ∈ peak_followers w) ->
    consistent w'.
Proof.
  induction l as [|x l IH]; intros w o w' H C Hin.
  - by injection H as _ <-.
  - cbn [for_each] in H. unfold bind in H.
    destruct (PeakFollower.line x) as [id|] eqn:Hx;
      [|by injection H as _ <-].
    unfold lines_remove in H. cbn [lines_of] in H.
    destruct (Seq.remove _ id) as [l1|] eqn:Hl; [|by injection H as _ <-].
    apply (IH _ _ _ H).
    + apply (consistent_remove w id); [done | | done].
      apply elem_of_app. left. apply list_elem_of_omap.
      exists x. split; [|done]. apply Hin. by left.
    + intros y Hy. cbn. apply Hin. by right.
Qed.

Lemma clear_followers_keeping : preserves (keeping consistent) clear_followers.
Proof.
  intros w C. unfold clear_followers. rewrite mbind_run.
  unfold gets at 1. cbv beta iota. rewrite mbind_run.
  destruct (for_each _ _ w) as [[u|e] w1] eqn:H;
    apply clear_followers_loop in H; try done.
  cbn. pose proof H as (C1 & _). unfold owned in C1.
  apply NoDup_app in C1 as (_ & _ & N). apply NoDup_app in N as (_ & _ & N).
  apply (consistent_step w1); try done.
  intros id Hid. left. apply elem_of_app. by right.
Qed.

Lemma show_raw_signal_keeping (new : bool) :
  preserves (keeping consistent) (show_raw_signal E new).
Proof.
  intros w C. destruct new.
  - destruct (show_raw_signal E true w) as [o w'] eqn:H.
    unfold show_raw_signal in H. cbn [snd].
    ran_as H tr w1 Hr;
      (assert (C1 : consistent w1);
       [pose proof (range_of_data "t_range" w) as F; rewrite Hr in F;
        exact (consistent_drawn _ _ (drawn_data _ _ F) C) | clear C Hr]);
      [|exact C1].
    ran H.
    ran_as H th w2 Ht; unfold lift in Ht; injection Ht as Ht <-; [|exact C1].
    destruct th as [times peak_to_peak]. cbv zeta in H.
    ran H. ran H; [|exact C1]. ran H; [|exact C1]. cbv zeta in H.
    ran H. unfold modify in H. injection H as _ <-.
    pose proof C1 as (N & B & _). unfold owned in N, B.
    apply NoDup_app in N as (_ & _ & N). apply NoDup_app in N as (N & _ & _).
    apply Forall_app in B as [_ B]. apply Forall_app in B as [B _].
    rewrite Forall_forall in B.
    apply (consistent_step w1); try done.
    + cbn. lia.
    + intros id _ Hid. cbn. apply elem_of_app. by left.
    + cbn. rewrite <- Permutation_cons_append. apply NoDup_cons.
      split; [|done]. intros Hin. specialize (B _ Hin). lia.
    + cbn. intros id Hid. apply elem_of_app in Hid as [Hid|Hid].
      * left. apply elem_of_app. by left.
      * apply list_elem_of_singleton in Hid as ->. right. lia.
  - rewrite show_raw_signal_off_run. cbn [snd].
    destruct (raw w) as [id|] eqn:Hraw; [|done].
    destruct (Seq.remove _ id) as [l|] eqn:Hl; [|done].
    assert (C' : consistent (set_canvas (set_axSpectrogram l (canvas w)) w)).
    { apply (consistent_remove w id); [done | | done].
      rewrite Hraw. apply elem_of_app. right. by left. }
    pose proof C' as (N & _). unfold owned in N.
    apply NoDup_app in N as (_ & _ & N). apply NoDup_app in N as (N & _ & _).
    apply (consistent_step _ _ C'); try done.
    + cbn. by rewrite app_nil_r.
    + cbn. intros x Hx. left. rewrite app_nil_r in Hx.
      apply elem_of_app. by left.
Qed.

End KeptByEvents.

Section Reachable.
Import SpectrogramWidget Props Frames.
Variable E : Env.
Hypothesis no_line : followers_without_line E.

Lemma gauss_loop_drawn vind tind js acc :
  preserves (unchanged drawn) (gauss_loop E vind tind acc js).
Proof.
  apply (unchanged_weaken besides_reads drawn); [exact drawn_besides_reads|].
  apply gauss_loop_reads.
Qed.

Lemma gauss_out_drawn n : preserves (unchanged drawn) (gauss_out E n).
Proof.
  unfold gauss_out.
  repeat first [frame_step | solve [apply gauss_loop_drawn] | solve [untouched]].
Qed.

(** One step through a body that keeps the spectra and the axes in
    agreement. *)
Ltac kept :=
  repeat first
    [ frame_step
    | solve [apply clear_spectra_keeping]
    | solve [apply clear_followers_keeping]
    | solve [apply spectrum_keeping; exact no_line]
    | solve [apply spectrum_keeping]
    | solve [apply follow_keeping; exact no_line]
    | solve [apply show_raw_signal_keeping; exact no_line]
    | solve [apply show_raw_signal_keeping]
    | solve [apply keeping_drawn; apply gauss_out_drawn]
    | solve [apply keeping_drawn; apply (unchanged_weaken data drawn);
             [exact drawn_data | auto with frames]]
    | solve [apply keeping_drawn; unfold analyze_roi; frame_unchanged]
    | solve [apply keeping_drawn; untouched] ].

Lemma handle_key_keeping event : preserves (keeping consistent) (handle_key E event).
Proof. unfold handle_key, to_seconds, in_digits. kept. Qed.

Lemma handle_click_keeping event :
  preserves (keeping consistent) (handle_click E event).
Proof. unfold handle_click, to_seconds, controls_item. kept. Qed.

Lemma dispatch_keeping (ev : GuiEvent) :
  preserves (keeping consistent) (dispatch E ev).
Proof.
  destruct (display_event ev) eqn:Hd.
  - apply keeping_drawn. apply (unchanged_weaken data drawn); [exact drawn_data|].
    by apply dispatch_display_data.
  - destruct ev; try discriminate Hd; unfold dispatch.
    + apply handle_click_keeping.
    + apply handle_key_keeping.
    + unfold RSelect, coordinate_lt, coordinate. kept.
    + kept.
    + kept.
    + apply (frame_bind (keeping consistent)); [frame_trans | | intros ?; kept].
      intros w. unfold keeping. apply consistent_lines_kept, update_baselines_kept.
    + kept.
Qed.

Lemma run_events_consistent (evs : list GuiEvent) (w : Widget) :
  consistent w -> consistent (run_events E evs w).
Proof.
  unfold run_events. revert w.
  induction evs as [|ev evs IH]; intros w C; [exact C|].
  cbn [foldl]. apply IH. by apply dispatch_keeping.
Qed.

Lemma constructor_consistent (arg : digfile_arg) (kwargs : list kwarg) (w : Widget) :
  __init__ E arg kwargs = Ret w -> consistent w.
Proof.
  unfold __init__, obind. intros H.
  destruct (match arg with by_name _ => _ | by_object _ => _ end) as [df|];
    [|discriminate H].
  destruct (Spectrogram_new E df kwargs) as [sg|]; [|discriminate H].
  assert (D : preserves (unchanged named)
                (spectrum E None "";; make_controls E kwargs;;
                 update_spectrogram E)).
  { apply (frame_bind (unchanged named)); [frame_trans | untouched |].
    intros _. apply (frame_bind (unchanged named)); [frame_trans | |].
    - apply make_controls_named.
    - intros _. apply (unchanged_weaken data named).
      + unfold data, named. intros w1 w2 [=]. congruence.
      + apply update_spectrogram_data. }
  specialize (D (new_widget df sg)).
  destruct ((spectrum E None "";; make_controls E kwargs;;
             update_spectrogram E) (new_widget df sg)) as [[u|e] w1];
    [|discriminate H].
  injection H as ->. unfold unchanged, named in D. cbn in D.
  injection D as D1 D2 D3.
  unfold consistent, owned. rewrite D1, D2, D3. cbn.
  split_and!; try constructor. lia.
Qed.

(** X16: the spectra and the axes agree in every state that the widget can
    reach.  After the constructor and any sequence of clicks, keys,
    selections and changes of the controls, whether or not a callback
    raised on the way: every spectrum has its marker among the lines of
    [axSpectrogram] and its line among those of [axSpectrum]; no line is
    named by two members; at most four spectra are shown; and
    [clear_spectra] returns, with no spectrum left, instead of raising
    [ValueError] at a line that is not on the axes.  [PeakFollower] is the
    collaborator's: its objects are created without a [line] and [run]
    does not assign one. *)
Theorem spectra_agree_with_axes (arg : digfile_arg) (kwargs : list kwarg)
    (evs : list GuiEvent) (w0 : Widget)
    (Hinit : __init__ E arg kwargs = Ret w0) :
  let w := run_events E evs w0 in
  consistent w
  /\ exists w', clear_spectra w = (Ret tt, w') /\ spectra w' = [] /\ consistent w'.
Proof.
  cbv zeta.
  assert (C : consistent (run_events E evs w0)).
  { apply run_events_consistent. by apply (constructor_consistent arg kwargs). }
  split; [exact C | by apply clear_spectra_returns].
Qed.

End Reachable.

(** ** The widget: the click selector stays *)

Section ClickSelector.
Import SpectrogramWidget Props Frames.
Variable E : Env.

#[local] Abbreviation keys := (fun w : Widget => stored (controls w)).

Lemma keys_of_modes {A} (m : M Widget A) :
  preserves (unchanged modes) m -> preserves (unchanged keys) m.
Proof.
  apply unchanged_weaken. unfold modes. intros w w' [=]. done.
Qed.

Ltac keys_kept :=
  repeat first
    [ frame_step
    | solve [apply keys_of_modes;
             first [ apply range_modes | apply range_of_modes
                   | apply set_ylims_modes | apply update_color_range_modes
                   | apply update_cmap_modes | apply display_spectrogram_modes
                   | apply update_spectrogram_modes ]]
    | solve [apply (unchanged_weaken followed keys);
             [unfold followed; intros ? ? [=]; congruence
             | apply spectrum_followed]]
    | solve [apply (unchanged_weaken shown keys);
             [unfold shown; intros ? ? [=]; congruence | apply follow_shown]]
    | solve [apply (unchanged_weaken besides_reads keys);
             [unfold besides_reads; intros ? ? [=]; congruence
             | apply gauss_loop_reads]]
    | solve [untouched] ].

(** No callback adds or removes a key of [self.controls]. *)
Lemma dispatch_keys (ev : GuiEvent) :
  preserves (unchanged keys) (dispatch E ev).
Proof.
  destruct ev;
    unfold dispatch, handle_click, handle_key, to_seconds, in_digits,
      controls_item, RSelect, coordinate_lt, coordinate, overhaul, do_update,
      update_velocity_range, update_threshold, clear_spectra, clear_followers,
      gauss_out, analyze_roi, update_baselines, show_raw_signal;
    keys_kept.
Qed.

Lemma run_events_keys (evs : list GuiEvent) (w : Widget) :
  stored (controls (run_events E evs w)) = stored (controls w).
Proof.
  unfold run_events. revert w.
  induction evs as [|ev evs IH]; intros w; [reflexivity|].
  cbn [foldl]. rewrite IH. apply (dispatch_keys ev w).
Qed.

(** The widget that the constructor has returned has its click selector,
    and keeps it whatever the events: [handle_click] finds it in every
    state that such a widget reaches. *)
Lemma click_selector_stays (arg : digfile_arg) (kwargs : list kwarg)
    (evs : list GuiEvent) (w0 : Widget) :
  __init__ E arg kwargs = Ret w0 ->
  "clicker" ∈ stored (controls (run_events E evs w0)).
Proof.
  intros H. rewrite run_events_keys.
  apply constructor_steps in H as (df & sg & u & w2 & u' & Hc & Hb).
  apply make_controls_new in Hc as (_ & _ & _ & _ & _ & K).
  pose proof (keys_of_modes _ (update_spectrogram_modes E) w2) as F.
  rewrite Hb in F. unfold unchanged in F. cbn [snd] in F.
  rewrite F, K. apply (bool_decide_unpack _). vm_compute. exact I.
Qed.

End ClickSelector.

(** ** The widget: the waterfall of a follower and the velocity range *)

Section Waterfall.
Import SpectrogramWidget Props Frames.
Variable E : Env.

Lemma fan_step_reads vind tind vvec tvec ivec n :
  preserves (unchanged besides_reads) (fan_step E vind tind vvec tvec ivec n).
Proof. unfold fan_step. frame_unchanged. Qed.

Lemma fan_loop_reads vind tind vvec tvec ivec ns :
  preserves (unchanged besides_reads) (fan_loop E vind tind vvec tvec ivec ns).
Proof.
  induction ns as [|n ns IH]; cbn [fan_loop]; [untouched|].
  apply (frame_bind (unchanged besides_reads));
    [frame_trans | apply fan_step_reads | intros ?].
  apply (frame_bind (unchanged besides_reads));
    [frame_trans | apply IH | intros ?; untouched].
Qed.

Lemma fan_loop_length vind tind vvec tvec ivec ns :
  forall w spans w',
    fan_loop E vind tind vvec tvec ivec ns w = (Ret spans, w') ->
    length spans = length ns.
Proof.
  induction ns as [|n ns IH]; intros w spans w' H; cbn [fan_loop] in H.
  - by injection H as <- _.
  - returned_as H s w1 Hs. returned_as H rest w2 Hr.
    injection H as <- _. cbn. f_equal. exact (IH _ _ _ Hr).
Qed.

Lemma py_range_length (n : nat) : length (py_range n) = n.
Proof. unfold py_range. by rewrite length_map, length_seq. Qed.

Lemma track_loop (spans : list Span) (offset : float) (ks : list Z) :
  forall w w' l,
    for_each ks (fun n =>
      span ← lift (Seq.index spans n);
      plot_track
        (List.map (fun p => PrimFloat.add p (PrimFloat.mul (float_of_Z n) offset))
           (span_power span))
        (span_v span)) w = (Ret tt, w') ->
    axTrack w = Some l ->
    exists curves,
      axTrack w' = Some (l ++ curves) /\ length curves = length ks
      /\ Forall (fun c => Line2D.fmt c = "b-") curves.
Proof.
  induction ks as [|k ks IH]; intros w w' l H Hl.
  - injection H as <-. exists []. by rewrite app_nil_r.
  - cbn [for_each] in H. unfold bind in H. rewrite mbind_run in H.
    unfold lift at 1 in H. destruct (Seq.index spans k) as [span|];
      [|discriminate H].
    unfold plot_track at 1, modify at 1 in H. cbv beta iota in H.
    rewrite Hl in H. cbn [default] in H.
    lazymatch type of H with
    | for_each _ _ (set_axTrack (Some ?l1) _) = _ =>
        destruct (IH _ _ l1 H eq_refl) as (curves & H1 & H2 & H3)
    end.
    eexists (_ :: curves). split_and!.
    + rewrite H1, <- app_assoc. reflexivity.
    + cbn. by rewrite H2.
    + by constructor.
Qed.

Lemma fan_out_drawn n : preserves (unchanged drawn) (fan_out E n).
Proof.
  unfold fan_out.
  repeat first
    [ frame_step
    | solve [apply (unchanged_weaken besides_reads drawn);
             [exact drawn_besides_reads | apply fan_loop_reads]]
    | solve [untouched] ].
Qed.

(** X18: when [fan_out] returns [None], the new axes [axTrack] hold one
    curve for every time index of follower [n], each drawn with 'b-', and
    nothing of the main figure has changed: the spectra, the followers, the
    thumbnail and the lines of both axes are as they were. *)
Theorem fan_out_draws_every_span (n : Z) (w w' : Widget)
    (H : fan_out E n w = (Ret VNone, w')) :
  exists pf curves,
    Seq.index (peak_followers w) n = Ret pf
    /\ axTrack w' = Some curves
    /\ length curves = length (PeakFollower.time_index pf)
    /\ Forall (fun c => Line2D.fmt c = "b-") curves
    /\ drawn w' = drawn w.
Proof.
  pose proof (fan_out_drawn n w) as D. rewrite H in D.
  unfold fan_out in H. returned H.
  destruct (Seq.len (peak_followers w) <=? n); [discriminate H|].
  returned H. cbv zeta in H. do 4 returned H.
  returned_as H spans w1 Hloop.
  lazymatch type of Hloop with
  | ?m ?wc = _ =>
      assert (F : unchanged besides_reads wc (snd (m wc)))
        by apply fan_loop_reads
  end.
  rewrite Hloop in F. unfold unchanged, besides_reads in F. cbn in F.
  apply fan_loop_length in Hloop. rewrite py_range_length in Hloop.
  do 2 returned H. cbv zeta in H.
  returned_as H u w2 Hfor. injection H as <-. destruct u.
  apply (track_loop _ _ _ _ _ []) in Hfor as (curves & T1 & T2 & T3);
    [|congruence].
  exists a, curves. split_and!; try done.
  rewrite T2, length_reverse, py_range_length. exact Hloop.
Qed.

End Waterfall.

Lemma fan_out_draws_every_span_witness :
  exists pf curves,
    Seq.index
      (SpectrogramWidget.peak_followers
         (SpectrogramWidget.run_events Demo.env
            [SpectrogramWidget.button_press_event (Demo.click 1 1)]
            Demo.peak_widget)) 0
    = Ret pf
    /\ SpectrogramWidget.axTrack
         (snd (SpectrogramWidget.fan_out Demo.env 0
                 (SpectrogramWidget.run_events Demo.env
                    [SpectrogramWidget.button_press_event (Demo.click 1 1)]
                    Demo.peak_widget)))
       = Some curves
    /\ length curves = length (PeakFollower.time_index pf).
Proof.
  destruct (fan_out_draws_every_span Demo.env 0
              (SpectrogramWidget.run_events Demo.env
                 [SpectrogramWidget.button_press_event (Demo.click 1 1)]
                 Demo.peak_widget)
              (snd (SpectrogramWidget.fan_out Demo.env 0
                      (SpectrogramWidget.run_events Demo.env
                         [SpectrogramWidget.button_press_event (Demo.click 1 1)]
                         Demo.peak_widget))))
    as (pf & curves & H1 & H2 & H3 & _).
  - vm_compute. reflexivity.
  - exists pf, curves. split_and!; assumption.
Defined.

Lemma demo_followers_without_line : Frames.followers_without_line Demo.env.
Proof.
  split.
  - intros sg p f H. injection H as <-. reflexivity.
  - intros f. reflexivity.
Qed.

Lemma spectra_agree_with_axes_witness :
  Frames.consistent
    (SpectrogramWidget.run_events Demo.env
       [SpectrogramWidget.button_press_event (Demo.click 1 1);
        SpectrogramWidget.clicker_change "Peak";
        SpectrogramWidget.button_press_event (Demo.click 1 1);
        SpectrogramWidget.raw_signal_change true;
        SpectrogramWidget.key_press_event (Demo.press "x")]
       Demo.widget).
Proof.
  pose proof (spectra_agree_with_axes Demo.env demo_followers_without_line
                (SpectrogramWidget.by_object Demo.digfile) []
                [SpectrogramWidget.button_press_event (Demo.click 1 1);
                 SpectrogramWidget.clicker_change "Peak";
                 SpectrogramWidget.button_press_event (Demo.click 1 1);
                 SpectrogramWidget.raw_signal_change true;
                 SpectrogramWidget.key_press_event (Demo.press "x")]
                Demo.widget) as H.
  cbv zeta in H. destruct H as [C _].
  - vm_compute. reflexivity.
  - exact C.
Defined.

Section VelocityRange.
Import SpectrogramWidget Props Frames.
Variable E : Env.

Lemma range_rendered var : preserves (unchanged rendered) (range var).
Proof. unfold range. frame_unchanged. Qed.

Lemma set_ylims_rendered : preserves (unchanged rendered) set_ylims.
Proof.
  unfold set_ylims, range_of.
  repeat first [frame_step | solve [apply range_rendered] | solve [untouched]].
Qed.

(** X19: narrowing the velocity range only moves the y limits.  When the
    new range lies within the old one, [update_velocity_range] does not
    slice the spectrogram again: the image, the colour bar, the controls,
    the threshold and the record of what was read from the spectrogram are
    as they were, as are the spectra, the followers and the lines. *)
Theorem narrowing_velocity_range_keeps_image (w : Widget) (old new : list float)
    (old_vmin old_vmax vmin vmax : float)
    (Hold : Seq.unpack2 old = Ret (old_vmin, old_vmax))
    (Hnew : Seq.unpack2 new = Ret (vmin, vmax))
    (Htop : PrimFloat.ltb old_vmax vmax = false)
    (Hbottom : PrimFloat.ltb vmin old_vmin = false) :
  let w' := snd (update_velocity_range E (Some (old, new)) w) in
  rendered w' = rendered w /\ data w' = data w.
Proof.
  cbv zeta.
  assert (Heq : update_velocity_range E (Some (old, new)) w = set_ylims w).
  { unfold update_velocity_range. rewrite mbind_run. unfold lift at 1.
    rewrite Hold. cbv beta iota. rewrite mbind_run. unfold lift at 1.
    rewrite Hnew. cbv beta iota. by rewrite Htop, Hbottom. }
  rewrite Heq. split; [apply set_ylims_rendered | apply set_ylims_data].
Qed.

End VelocityRange.

Lemma narrowing_velocity_range_keeps_image_witness :
  Frames.rendered
    (snd (SpectrogramWidget.update_velocity_range Demo.env
            (Some ([0; 50]%float, [10; 40]%float)) Demo.widget))
  = Frames.rendered Demo.widget.
Proof.
  destruct (narrowing_velocity_range_keeps_image Demo.env Demo.widget
              [0; 50]%float [10; 40]%float 0 50 10 40
              eq_refl eq_refl eq_refl eq_refl) as [H _].
  exact H.
Defined.
